(** * how-person: the aggregator, the extractors' classifiers and the tool handler

    A shallow embedding of [src/analyzer.ts], [src/index.ts], [src/types.ts]
    and of the services ([TwitterService], [GitHubService],
    [SpeakerDeckService], [BlogService]), with the properties of the
    specification proved about it.  Of the blog service, [analyzeCommStyle]
    (which compares with a floating-point product) and
    [estimatePostFrequency] (which parses dates) are left out, and with them
    the assembly of its analysis.

    Conventions of the model.
    - A JavaScript string is a [string] holding its UTF-8 bytes; [jsLength]
      counts UTF-16 code units as [String.prototype.length] does.  Substring
      tests on well-formed text agree on both encodings.
    - A number that counts or tallies is a [Z]; a frequency or ratio is a [Q]
      (the arithmetic is the exact one: no rounding, no NaN).
    - A plain object used as [Record<string, number>] is a [JsRecord]: the
      list of its own entries.  A record that is a value of the data model,
      a field of an analysis or of a result, lists them in property order,
      the order of [Object.entries].  An object that the code fills key by
      key lists them in the order of their creation.  The aggregator fills
      such objects with keys that it is given, the merged tallies and the
      counts of the work styles: where it enumerates or returns them,
      [propertyOrder] puts the array indices first.  The objects that the
      extractors fill have keys of their own making (words of fixed lists,
      topics that hold such a word, category labels) or names that the code
      host gives: there the order of creation stands as it is.  No key is a
      member of [Object.prototype], so that a key that was never set reads
      [undefined].
    - A [Set<string>] is the list of its members in insertion order.
    - An awaited call that may throw returns an [Outcome]. *)

From Stdlib Require Import List String Ascii Bool Arith ZArith QArith Lia.
From Stdlib Require Import Permutation Sorted.
From Stdlib Require Import DecimalString.
Import ListNotations.
Local Open Scope string_scope.
Local Open Scope list_scope.

(** ** Strings *)

(** UTF-16 code units contributed by one UTF-8 byte: a continuation byte
    contributes none, the lead byte of a four-byte sequence two. *)
Definition utf16_units (c : ascii) : nat :=
  let n := nat_of_ascii c in
  if (n <? 128)%nat then 1
  else if (n <? 192)%nat then 0
  else if (n <? 240)%nat then 1
  else 2.

(** [s.length] *)
Fixpoint jsLength (s : string) : nat :=
  match s with
  | EmptyString => 0
  | String c s' => utf16_units c + jsLength s'
  end.

(** [s.startsWith(p)] *)
Definition startsWith (s p : string) : bool := String.prefix p s.

(** [s.includes(needle)] *)
Fixpoint includes (s needle : string) : bool :=
  String.prefix needle s ||
  match s with
  | EmptyString => false
  | String _ s' => includes s' needle
  end.

(** Truthiness of a string: the empty string is falsy. *)
Definition truthy (s : string) : bool := negb (String.eqb s "").

(** [xs.join(sep)] *)
Fixpoint join (sep : string) (xs : list string) : string :=
  match xs with
  | [] => ""
  | [x] => x
  | x :: rest => (x ++ sep ++ join sep rest)%string
  end.

(** [`${n}`] for a count [n]: its decimal digits *)
Definition decimal (n : nat) : string := NilEmpty.string_of_uint (Nat.to_uint n).

(** ** Objects used as records, sets, and [Array.prototype.sort] *)

Definition JsRecord (V : Type) := list (string * V).

Module Obj.

(** [o[k]] ([None] is [undefined]) *)
Fixpoint get {V : Type} (o : JsRecord V) (k : string) : option V :=
  match o with
  | [] => None
  | (k', v) :: o' => if String.eqb k' k then Some v else get o' k
  end.

(** [o[k] = v]: an existing property keeps its place, a new one goes last. *)
Fixpoint set {V : Type} (o : JsRecord V) (k : string) (v : V) : JsRecord V :=
  match o with
  | [] => [(k, v)]
  | (k', v') :: o' =>
      if String.eqb k' k then (k', v) :: o' else (k', v') :: set o' k v
  end.

(** [Object.entries(o)], [Object.keys(o)], [Object.fromEntries(es)] *)
Definition entries {V : Type} (o : JsRecord V) : list (string * V) := o.

Definition keys {V : Type} (o : JsRecord V) : list string := map fst o.

Definition fromEntries {V : Type} (es : list (string * V)) : JsRecord V :=
  fold_left (fun o e => set o (fst e) (snd e)) es [].

End Obj.

Module JsSet.

Definition has (s : list string) (x : string) : bool :=
  existsb (String.eqb x) s.

(** [s.add(x)] *)
Definition add (s : list string) (x : string) : list string :=
  if has s x then s else s ++ [x].

(** [for (const x of xs) s.add(x)] *)
Definition addAll (s : list string) (xs : list string) : list string :=
  fold_left add xs s.

End JsSet.

(** [xs.sort(cmp)]: the sort is stable, so with a consistent comparator its
    result is the one computed by stable insertion. *)
Fixpoint insertSorted {A : Type} (cmp : A -> A -> Z) (x : A) (l : list A) : list A :=
  match l with
  | [] => [x]
  | y :: l' => if (cmp x y <=? 0)%Z then x :: l else y :: insertSorted cmp x l'
  end.

Definition Array_sort {A : Type} (cmp : A -> A -> Z) (l : list A) : list A :=
  fold_right (insertSorted cmp) [] l.

(** [(a, b) => b[1] - a[1]] *)
Definition sortByScore (a b : string * Z) : Z := (snd b - snd a)%Z.

(** [x || 0] for a number or [undefined] *)
Definition or0 (x : option Z) : Z :=
  match x with
  | Some n => if (n =? 0)%Z then 0%Z else n
  | None => 0%Z
  end.

(** [for (const [k, score] of es) tally[k] = (tally[k] || 0) + score] *)
Definition accumulate (tally : JsRecord Z) (es : list (string * Z)) : JsRecord Z :=
  fold_left (fun t e => Obj.set t (fst e) (or0 (Obj.get t (fst e)) + snd e)%Z) es tally.

(** ** The property order of a plain object

    [Object.entries], [Object.keys] and [Object.fromEntries] meet the own
    properties of a plain object in its property order: the keys that are
    array indices first, in ascending numeric order, then the other keys in
    the order of their creation. *)

(** The value of a string of decimal digits, after the digits of [acc]. *)
Fixpoint digitsValue (s : string) (acc : N) : option N :=
  match s with
  | EmptyString => Some acc
  | String c rest =>
      let d := N_of_ascii c in
      if ((48 <=? d) && (d <=? 57))%N
      then digitsValue rest (acc * 10 + (d - 48))%N
      else None
  end.

(** [k] is an array index: the canonical numeral, without leading zero, of
    an integer from 0 to 2^32 - 2. *)
Definition arrayIndex (k : string) : option N :=
  match k with
  | EmptyString => None
  | String c rest =>
      if Ascii.eqb c "0" && negb (String.eqb rest "") then None
      else
        match digitsValue k 0 with
        | Some n => if (n <=? 4294967294)%N then Some n else None
        | None => None
        end
  end.

Definition isArrayIndex (k : string) : bool :=
  match arrayIndex k with
  | Some _ => true
  | None => false
  end.

Definition byIndex {V : Type} (a b : string * V) : Z :=
  let index e := match arrayIndex (fst e) with
                 | Some n => Z.of_N n
                 | None => 0%Z
                 end in
  (index a - index b)%Z.

(** The entries of an object in property order; [created] lists them in the
    order of their creation. *)
Definition propertyOrder {V : Type} (created : JsRecord V) : JsRecord V :=
  Array_sort byIndex (filter (fun e => isArrayIndex (fst e)) created)
  ++ filter (fun e => negb (isArrayIndex (fst e))) created.

(** ** types.ts *)

Inductive Platform := GITHUB | TWITTER | SPEAKERDECK | BLOG.

Record TechStack := {
  ts_languages : JsRecord Z;
  ts_frameworks : JsRecord Z;
  ts_tools : JsRecord Z;
  ts_topics : list string
}.

(** [Partial<TechStack>] *)
Record PartialTechStack := {
  pts_languages : option (JsRecord Z);
  pts_frameworks : option (JsRecord Z);
  pts_tools : option (JsRecord Z);
  pts_topics : option (list string)
}.

Record Communication := {
  c_style : option string;
  c_frequency : option Q;
  c_topics : option (list string)
}.

Record Personality := {
  p_interests : list string;
  p_activities : list string;
  p_communication : Communication;
  p_workStyle : option string
}.

(** [Partial<Personality>] *)
Record PartialPersonality := {
  pp_interests : option (list string);
  pp_activities : option (list string);
  pp_communication : option Communication;
  pp_workStyle : option string
}.

(** [rawData] is a diagnostic payload that the aggregator never reads; it is
    left out. *)
Record PlatformAnalysis := {
  platform : Platform;
  url : string;
  techStack : PartialTechStack;
  personality : PartialPersonality
}.

Record AnalysisResult := {
  ar_platforms : list PlatformAnalysis;
  ar_techStack : TechStack;
  ar_personality : Personality;
  ar_summary : string
}.

Record AnalysisRequest := {
  github : option string;
  twitter : option string;
  speakerdeck : option string;
  blog : option string
}.

(** ** analyzer.ts: mergeTechStacks *)

Definition addTally (tally : JsRecord Z) (r : option (JsRecord Z)) : JsRecord Z :=
  match r with
  | Some o => accumulate tally (Obj.entries o)
  | None => tally
  end.

Definition addTopics (s : list string) (ts : option (list string)) : list string :=
  match ts with
  | Some l => JsSet.addAll s l
  | None => s
  end.

Record TechAcc := {
  acc_languages : JsRecord Z;
  acc_frameworks : JsRecord Z;
  acc_tools : JsRecord Z;
  acc_topicsSet : list string
}.

Definition techStep (acc : TechAcc) (analysis : PlatformAnalysis) : TechAcc :=
  {| acc_languages := addTally (acc_languages acc) (pts_languages (techStack analysis));
     acc_frameworks := addTally (acc_frameworks acc) (pts_frameworks (techStack analysis));
     acc_tools := addTally (acc_tools acc) (pts_tools (techStack analysis));
     acc_topicsSet := addTopics (acc_topicsSet acc) (pts_topics (techStack analysis)) |}.

(** [Object.fromEntries(Object.entries(tally).sort(sortByScore))]: [tally]
    is the object as the loop created it, and the result is the new object
    as its readers meet it, in property order. *)
Definition sortedRecord (tally : JsRecord Z) : JsRecord Z :=
  propertyOrder
    (Obj.fromEntries (Array_sort sortByScore (Obj.entries (propertyOrder tally)))).

Definition mergeTechStacks (analyses : list PlatformAnalysis) : TechStack :=
  let acc := fold_left techStep analyses
               {| acc_languages := []; acc_frameworks := []; acc_tools := [];
                  acc_topicsSet := [] |} in
  {| ts_languages := sortedRecord (acc_languages acc);
     ts_frameworks := sortedRecord (acc_frameworks acc);
     ts_tools := sortedRecord (acc_tools acc);
     ts_topics := acc_topicsSet acc |}.

(** ** analyzer.ts: summarizeCommunicationStyle *)

Definition insufficient : string := "情報不足のため分析できません".

(** A pattern [/a|b|c/i] is the list of its alternatives; none of them holds a
    cased letter, so [pattern.test(s)] is a substring test. *)
Definition test (pattern : list string) (s : string) : bool :=
  existsb (includes s) pattern.

Definition keywordPatterns : list (list string * string) :=
  [ (["技術"; "詳細"; "解説"; "コード"; "実装"], "技術的");
    (["教育"; "共有"; "チュートリアル"; "学習"], "教育的");
    (["リーダー"; "マネジメント"; "戦略"; "ビジョン"], "リーダーシップ");
    (["チーム"; "協力"; "協調"; "協働"], "協調的");
    (["個人"; "一人"; "ソロ"], "個人的");
    (["簡潔"; "シンプル"], "簡潔");
    (["詳細"; "丁寧"; "深い"], "詳細");
    (["バランス"], "バランス");
    (["影響力"; "発信"], "発信力") ].

(** [keywords[keyword] = (keywords[keyword] || 0) + 1] *)
Definition increment (counts : JsRecord Z) (k : string) : JsRecord Z :=
  Obj.set counts k (or0 (Obj.get counts k) + 1)%Z.

Definition countKeywords (keywords : JsRecord Z) (style : string) : JsRecord Z :=
  fold_left
    (fun kw pk => if test (fst pk) style then increment kw (snd pk) else kw)
    keywordPatterns keywords.

Definition summarizeCommunicationStyle (styles : list string) : string :=
  match styles with
  | [] => insufficient
  | [only] => only
  | first :: _ =>
      let keywords := fold_left countKeywords styles [] in
      let sortedKeywords := map fst (Array_sort sortByScore (Obj.entries keywords)) in
      match sortedKeywords with
      | [] => first
      | k0 :: k1 :: _ => (k0 ++ "かつ" ++ k1 ++ "なコミュニケーションスタイル")%string
      | [k0] => (k0 ++ "なコミュニケーションスタイル")%string
      end
  end.

(** ** analyzer.ts: mergePersonalities *)

Definition addAllOpt (s : list string) (xs : option (list string)) : list string :=
  match xs with
  | Some l => JsSet.addAll s l
  | None => s
  end.

(** [analysis.personality.communication?.style], and so on *)
Definition commStyle (a : PlatformAnalysis) : option string :=
  match pp_communication (personality a) with
  | Some c => c_style c
  | None => None
  end.

Definition commFrequency (a : PlatformAnalysis) : option Q :=
  match pp_communication (personality a) with
  | Some c => c_frequency c
  | None => None
  end.

Definition commTopics (a : PlatformAnalysis) : option (list string) :=
  match pp_communication (personality a) with
  | Some c => c_topics c
  | None => None
  end.

(** [if (s) xs.push(s)] for an optional string *)
Definition pushTruthy (xs : list string) (s : option string) : list string :=
  match s with
  | Some v => if truthy v then xs ++ [v] else xs
  | None => xs
  end.

(** [if (f) total += f] for an optional number *)
Definition addTruthy (total : Q) (f : option Q) : Q :=
  match f with
  | Some v => if Qeq_bool v 0 then total else (total + v)%Q
  | None => total
  end.

Record PersonalityAcc := {
  acc_interestsSet : list string;
  acc_activitiesSet : list string;
  acc_communicationTopicsSet : list string;
  acc_communicationStyles : list string;
  acc_communicationFrequency : Q;
  acc_workStyles : list string
}.

Definition personalityStep (acc : PersonalityAcc) (analysis : PlatformAnalysis)
  : PersonalityAcc :=
  {| acc_interestsSet := addAllOpt (acc_interestsSet acc) (pp_interests (personality analysis));
     acc_activitiesSet := addAllOpt (acc_activitiesSet acc) (pp_activities (personality analysis));
     acc_communicationStyles := pushTruthy (acc_communicationStyles acc) (commStyle analysis);
     acc_communicationFrequency :=
       addTruthy (acc_communicationFrequency acc) (commFrequency analysis);
     acc_communicationTopicsSet :=
       addAllOpt (acc_communicationTopicsSet acc) (commTopics analysis);
     acc_workStyles := pushTruthy (acc_workStyles acc) (pp_workStyle (personality analysis)) |}.

(** [Object.entries(counts).sort(...).map(([style]) => style)[0] || undefined] *)
Definition dominant (workStyles : list string) : option string :=
  let workStyleCounts := fold_left increment workStyles [] in
  match map fst (Array_sort sortByScore (Obj.entries (propertyOrder workStyleCounts))) with
  | s :: _ => if truthy s then Some s else None
  | [] => None
  end.

Definition mergePersonalities (analyses : list PlatformAnalysis) : Personality :=
  let acc := fold_left personalityStep analyses
               {| acc_interestsSet := []; acc_activitiesSet := [];
                  acc_communicationTopicsSet := []; acc_communicationStyles := [];
                  acc_communicationFrequency := 0%Q; acc_workStyles := [] |} in
  let avgCommunicationFrequency :=
    if (0 <? List.length analyses)%nat
    then (acc_communicationFrequency acc / inject_Z (Z.of_nat (List.length analyses)))%Q
    else 0%Q in
  {| p_interests := acc_interestsSet acc;
     p_activities := acc_activitiesSet acc;
     p_communication :=
       {| c_style := Some (summarizeCommunicationStyle (acc_communicationStyles acc));
          c_frequency := Some avgCommunicationFrequency;
          c_topics := Some (acc_communicationTopicsSet acc) |};
     p_workStyle := dominant (acc_workStyles acc) |}.

(** ** Built-ins of the platform

    The functions of the JavaScript runtime that the code calls and that are
    not modelled here are the methods of this class. *)
Class Runtime := {
  (** [s.toLowerCase()] *)
  toLowerCase : string -> string;
  (** [s.trim()] *)
  trim : string -> string;
  (** [new URL(url).hostname]; [None] when the constructor throws *)
  URL_hostname : string -> option string;
  (** [new URL(href, base).toString()]; [None] when the constructor throws *)
  URL_resolve : string -> string -> option string;
  (** [JSON.stringify(args)] *)
  JSON_stringify : AnalysisRequest -> string
}.

(** ** analyzer.ts: generateSummary *)

Definition nl : string := String (ascii_of_nat 10) "".

Definition displayName (p : Platform) : string :=
  match p with
  | GITHUB => "GitHub"
  | TWITTER => "Twitter/X"
  | SPEAKERDECK => "SpeakerDeck"
  | BLOG => "ブログ"
  end.

(** [xs.slice(0, n)] *)
Definition slice0 {A : Type} (n : nat) (xs : list A) : list A := firstn n xs.

Definition line (label : string) (items : list string) : string :=
  match items with
  | [] => ""
  | _ => (label ++ join "、" items ++ nl)%string
  end.

Definition optLine (label : string) (s : option string) : string :=
  match s with
  | Some v => if truthy v then (label ++ v ++ nl)%string else ""
  | None => ""
  end.

Definition generateSummary `{Runtime} (analyses : list PlatformAnalysis)
  (techStack : TechStack) (personality : Personality) : string :=
  let platforms := join "、" (map (fun a => displayName (platform a)) analyses) in
  let topLanguages := slice0 3 (Obj.keys (ts_languages techStack)) in
  let topFrameworks := slice0 3 (Obj.keys (ts_frameworks techStack)) in
  let topTools := slice0 3 (Obj.keys (ts_tools techStack)) in
  let topInterests := slice0 5 (p_interests personality) in
  let summary := (platforms ++ "の分析結果に基づく要約：" ++ nl ++ nl)%string in
  let summary := (summary ++ "【技術スタック】" ++ nl)%string in
  let summary := (summary ++ line "・主な使用言語: " topLanguages)%string in
  let summary := (summary ++ line "・主なフレームワーク: " topFrameworks)%string in
  let summary := (summary ++ line "・主なツール: " topTools)%string in
  let summary := (summary ++ nl ++ "【人となり】" ++ nl)%string in
  let summary := (summary ++ line "・興味・関心: " topInterests)%string in
  let summary :=
    (summary ++ optLine "・コミュニケーションスタイル: "
                        (c_style (p_communication personality)))%string in
  let summary := (summary ++ optLine "・仕事のスタイル: " (p_workStyle personality))%string in
  match p_activities personality with
  | [] => summary
  | activities =>
      fold_left
        (fun acc activity =>
           if truthy (trim activity) then (acc ++ "・" ++ activity ++ nl)%string else acc)
        (slice0 3 activities)
        (summary ++ nl ++ "【活動内容】" ++ nl)%string
  end.

(** ** analyzer.ts: analyze *)

Inductive Outcome (A : Type) :=
| Returned (value : A)
| Thrown (error : string).
Arguments Returned {A} value.
Arguments Thrown {A} error.

(** The four services, each as its [analyze(url)]. *)
Record Services := {
  githubService : string -> Outcome PlatformAnalysis;
  twitterService : string -> Outcome PlatformAnalysis;
  speakerDeckService : string -> Outcome PlatformAnalysis;
  blogService : string -> Outcome PlatformAnalysis
}.

(** A call of a service's [analyze]: every network access happens inside one. *)
Inductive Call := Analyze (p : Platform) (url : string).

(** [if (request.x) { try { platformAnalyses.push(await service.analyze(request.x)) }
    catch (error) { console.error(...) } }] *)
Definition attempt (service : string -> Outcome PlatformAnalysis) (p : Platform)
  (field : option string) (st : list Call * list PlatformAnalysis)
  : list Call * list PlatformAnalysis :=
  match field with
  | Some u =>
      if truthy u then
        match service u with
        | Returned analysis => (fst st ++ [Analyze p u], snd st ++ [analysis])
        | Thrown _ => (fst st ++ [Analyze p u], snd st)
        end
      else st
  | None => st
  end.

(** The calls made, and the result.  The merge and the summary cannot throw,
    so the outer [catch] of the source is never entered. *)
Definition analyze `{Runtime} (services : Services) (request : AnalysisRequest)
  : list Call * Outcome AnalysisResult :=
  let st := attempt (githubService services) GITHUB (github request) ([], []) in
  let st := attempt (twitterService services) TWITTER (twitter request) st in
  let st := attempt (speakerDeckService services) SPEAKERDECK (speakerdeck request) st in
  let st := attempt (blogService services) BLOG (blog request) st in
  let platformAnalyses := snd st in
  let techStack := mergeTechStacks platformAnalyses in
  let personality := mergePersonalities platformAnalyses in
  let summary := generateSummary platformAnalyses techStack personality in
  (fst st,
   Returned {| ar_platforms := platformAnalyses; ar_techStack := techStack;
               ar_personality := personality; ar_summary := summary |}).

(** ** services/twitter.ts *)

Module TwitterService.

(** [tweet.entities]: the hashtags by their [tag], the mentions by their
    [username]. *)
Record Entities := {
  hashtags : option (list string);
  mentions : option (list string)
}.

(** A tweet as the timeline returns it: [created_at] is the time of
    [new Date(t.created_at)] in milliseconds, [referenced_tweets] the [type]
    of each reference. *)
Record Tweet := {
  text : option string;
  created_at : option Z;
  entities : option Entities;
  referenced_tweets : option (list string)
}.

(** [userData.data] *)
Record User := {
  id : string;
  description : option string;
  followers_count : option Z
}.

(** The API client: [v2.userByUsername] and [v2.userTimeline] (its
    [data.data], which may be missing). *)
Record Client := {
  userByUsername : string -> Outcome User;
  userTimeline : string -> Outcome (option (list Tweet))
}.

(** [constructor(token?)]: there is a client when a token is given. *)
Definition connect (api : string -> Client) (token : option string) : option Client :=
  match token with
  | Some t => if truthy t then Some (api t) else None
  | None => None
  end.

Fixpoint dropPrefix (p s : string) : option string :=
  match p, s with
  | EmptyString, _ => Some s
  | String a p', String b s' => if Ascii.eqb a b then dropPrefix p' s' else None
  | String _ _, EmptyString => None
  end.

Fixpoint takeWhile (f : ascii -> bool) (s : string) : string :=
  match s with
  | EmptyString => EmptyString
  | String c s' => if f c then String c (takeWhile f s') else EmptyString
  end.

(** [[^\/\?]] *)
Definition usernameChar (c : ascii) : bool :=
  negb (Ascii.eqb c "/" || Ascii.eqb c "?").

(** [/(?:twitter|x)\.com\/([^\/\?]+)/] matched at the start of [s]: the
    capture. *)
Definition matchHere (s : string) : option string :=
  let rest :=
    match dropPrefix "twitter.com/" s with
    | Some r => Some r
    | None => dropPrefix "x.com/" s
    end in
  match rest with
  | Some r => let u := takeWhile usernameChar r in if truthy u then Some u else None
  | None => None
  end.

(** [url.match(...)]: the leftmost match; [None] is the thrown
    [Invalid Twitter/X URL]. *)
Fixpoint extractUsername (url : string) : option string :=
  match matchHere url with
  | Some u => Some u
  | None =>
      match url with
      | EmptyString => None
      | String _ rest => extractUsername rest
      end
  end.

Definition techKeywords : list string :=
  [ "javascript"; "typescript"; "python"; "java"; "ruby"; "go"; "rust"; "c#"; "php";
    "react"; "vue"; "angular"; "svelte"; "node"; "deno"; "rails"; "django"; "laravel";
    "aws"; "azure"; "gcp"; "cloud"; "docker"; "kubernetes"; "devops"; "cicd";
    "ai"; "ml"; "machinelearning"; "deeplearning"; "data"; "analytics";
    "web"; "mobile"; "frontend"; "backend"; "fullstack"; "database"; "sql"; "nosql";
    "security"; "blockchain"; "crypto"; "iot"; "ar"; "vr" ].

Definition techAccounts : list string :=
  [ "github"; "stackoverflow"; "nodejs"; "reactjs" ].

Definition orEmpty {A : Type} (xs : option (list A)) : list A :=
  match xs with
  | Some l => l
  | None => []
  end.

Definition topicsOfTweet `{Runtime} (topics : list string) (tweet : Tweet) : list string :=
  match text tweet with
  | None => topics
  | Some t =>
      if truthy t then
        let lowered := toLowerCase t in
        let topics :=
          fold_left (fun ts keyword => if includes lowered keyword then JsSet.add ts keyword else ts)
                    techKeywords topics in
        match entities tweet with
        | None => topics
        | Some e =>
            let topics :=
              fold_left
                (fun ts tag =>
                   let hashtag := toLowerCase tag in
                   if existsb (includes hashtag) techKeywords then JsSet.add ts hashtag else ts)
                (orEmpty (hashtags e)) topics in
            fold_left
              (fun ts username =>
                 if existsb (includes (toLowerCase username)) techAccounts
                 then JsSet.add ts (toLowerCase username) else ts)
              (orEmpty (mentions e)) topics
        end
      else topics
  end.

Definition extractTopicsFromTweets `{Runtime} (tweets : list Tweet) : list string :=
  fold_left topicsOfTweet tweets [].

Definition extractHashtags `{Runtime} (tweets : list Tweet) : list string :=
  fold_left
    (fun tags tweet =>
       match entities tweet with
       | Some e => fold_left (fun ts tag => JsSet.add ts (toLowerCase tag)) (orEmpty (hashtags e)) tags
       | None => tags
       end)
    tweets [].

Definition count {A : Type} (f : A -> bool) (xs : list A) : Z :=
  Z.of_nat (List.length (filter f xs)).

Definition isRetweet (t : Tweet) : bool :=
  match text t with
  | Some s => startsWith s "RT @"
  | None => false
  end.

Definition isReply (t : Tweet) : bool :=
  existsb (String.eqb "replied_to") (orEmpty (referenced_tweets t)).

Definition textLength (t : Tweet) : Z :=
  match text t with
  | Some s => Z.of_nat (jsLength s)
  | None => 0%Z
  end.

Definition ratio (n d : Z) : Q := (inject_Z n / inject_Z d)%Q.

Definition gt (a b : Q) : bool := negb (Qle_bool a b).

Definition analyzeCommStyle (userData : option User) (tweets : list Tweet) : string :=
  match userData, tweets with
  | None, _ => insufficient
  | _, [] => insufficient
  | Some user, _ =>
      let n := Z.of_nat (List.length tweets) in
      let followers := or0 (followers_count user) in
      let retweetRatio := ratio (count isRetweet tweets) n in
      let replyRatio := ratio (count isReply tweets) n in
      let avgLength := ratio (fold_left (fun sum t => (sum + textLength t)%Z) tweets 0%Z) n in
      if (5000 <? followers)%Z then "影響力のある発信者"
      else if gt retweetRatio (7 # 10) then "情報共有型"
      else if gt replyRatio (5 # 10) then "対話重視型"
      else if gt avgLength (inject_Z 200) then "詳細な説明を好むスタイル"
      else if gt (inject_Z 100) avgLength then "簡潔な発信を好むスタイル"
      else "バランスの取れたコミュニケーションスタイル"
  end.

Definition calculateTweetFrequency (tweets : list Tweet) : Q :=
  match tweets with
  | [] => 0%Q
  | _ =>
      let n := inject_Z (Z.of_nat (List.length tweets)) in
      let dates :=
        Array_sort (fun a b => (a - b)%Z)
                   (flat_map (fun t => match created_at t with Some d => [d] | None => [] end)
                             tweets) in
      match dates with
      | [] | [_] => n
      | oldestDate :: _ =>
          let newestDate := List.last dates oldestDate in
          let daysDiff := ratio (newestDate - oldestDate) (1000 * 60 * 60 * 24) in
          if gt daysDiff 0 then (n / daysDiff)%Q else n
      end
  end.

Definition analyze `{Runtime} (client : option Client) (url : string)
  : Outcome PlatformAnalysis :=
  match extractUsername url with
  | None => Thrown "Error: Invalid Twitter/X URL"
  | Some username =>
      let fetched :=
        match client with
        | Some c =>
            match userByUsername c username with
            | Thrown e => Thrown e
            | Returned user =>
                match userTimeline c (id user) with
                | Thrown e => Thrown e
                | Returned userTweets => Returned (Some user, orEmpty userTweets)
                end
            end
        | None => Returned (None, [])
        end in
      match fetched with
      | Thrown e => Thrown ("Error: Twitter分析中にエラーが発生しました: " ++ e)%string
      | Returned (userData, tweets) =>
          let topics := extractTopicsFromTweets tweets in
          let hashtags := extractHashtags tweets in
          let activities :=
            match userData with
            | Some user =>
                match description user with
                | Some d => if truthy d then [d] else []
                | None => []
                end
            | None => []
            end in
          Returned
            {| platform := TWITTER;
               url := url;
               techStack :=
                 {| pts_languages := None; pts_frameworks := None; pts_tools := None;
                    pts_topics := Some topics |};
               personality :=
                 {| pp_interests := Some (slice0 10 hashtags);
                    pp_activities := Some activities;
                    pp_communication :=
                      Some {| c_style := Some (analyzeCommStyle userData tweets);
                              c_frequency := Some (calculateTweetFrequency tweets);
                              c_topics := Some (slice0 5 topics) |};
                    pp_workStyle := None |} |}
      end
  end.

End TwitterService.

(** ** services/github.ts *)

Module GitHubService.

(** A repository as [repos.listForUser] returns it, by the fields the
    classifier reads: [contributors_url] is the URL of the repository's
    contributors endpoint. *)
Record Repo := {
  description : option string;
  contributors_url : option string;
  stargazers_count : option Z
}.

(** The user as [users.getByUsername] returns it, by the fields read. *)
Record User := {
  bio : option string;
  company : option string
}.

Definition hasDetailedReadme (r : Repo) : bool :=
  match description r with
  | Some d => truthy d && (100 <? jsLength d)%nat
  | None => false
  end.

Definition hasContributors (r : Repo) : bool :=
  match contributors_url r with
  | Some u => truthy u && (1 <? jsLength u)%nat
  | None => false
  end.

Definition hasStars (r : Repo) : bool :=
  match stargazers_count r with
  | Some n => (50 <? n)%Z
  | None => false
  end.

Definition analyzeCommStyle (user : User) (repos : list Repo) : string :=
  let hasDetailedReadmes := existsb hasDetailedReadme repos in
  let hasMultipleContributors := existsb hasContributors repos in
  let hasManyStars := existsb hasStars repos in
  if hasManyStars && hasDetailedReadmes then "オープンで詳細なドキュメントを重視するスタイル"
  else if hasMultipleContributors then "協調的なスタイル"
  else if (20 <? List.length repos)%nat then "多くのプロジェクトに取り組む探究心旺盛なスタイル"
  else "個人的な開発に集中するスタイル".

(** [[^\/]] *)
Definition notSlash (c : ascii) : bool := negb (Ascii.eqb c "/").

(** [/github\.com\/([^\/]+)/] matched at the start of [s]: the capture. *)
Definition matchHere (s : string) : option string :=
  match TwitterService.dropPrefix "github.com/" s with
  | Some r =>
      let u := TwitterService.takeWhile notSlash r in
      if truthy u then Some u else None
  | None => None
  end.

(** [url.match(...)]: the leftmost match; [None] is the thrown
    [Invalid GitHub URL]. *)
Fixpoint extractUsername (url : string) : option string :=
  match matchHere url with
  | Some u => Some u
  | None =>
      match url with
      | EmptyString => None
      | String _ rest => extractUsername rest
      end
  end.

(** A repository of [repos.listForUser] with the further fields that
    [analyze] reads; the fields of the classifier are its [details]. *)
Record Repository := {
  name : string;
  fork : bool;
  topics : option (list string);
  details : Repo
}.

(** The calls of the API client that [analyze] makes:
    [users.getByUsername({username})], [repos.listForUser({username, ...})]
    and [repos.listLanguages({owner, repo})]. *)
Record Client := {
  getByUsername : string -> Outcome User;
  listForUser : string -> Outcome (list Repository);
  listLanguages : string -> string -> Outcome (JsRecord Z)
}.

Definition frameworkList : list string :=
  [ "react"; "vue"; "angular"; "svelte"; "next"; "nuxt"; "gatsby";
    "express"; "koa"; "nest"; "fastify"; "hapi";
    "django"; "flask"; "fastapi"; "spring"; "rails"; "laravel";
    "tensorflow"; "pytorch"; "keras" ].

Definition toolList : list string :=
  [ "webpack"; "babel"; "eslint"; "prettier"; "jest"; "mocha"; "cypress";
    "docker"; "kubernetes"; "aws"; "azure"; "gcp"; "firebase";
    "graphql"; "apollo"; "redux"; "mobx"; "zustand";
    "git"; "github"; "gitlab"; "bitbucket" ].

(** [categorizeTopics(topic, frameworks, tools)]: the two tallies after the
    call. *)
Definition categorizeTopics (topic : string) (frameworks tools : JsRecord Z)
  : JsRecord Z * JsRecord Z :=
  if existsb (fun fw => includes topic fw) frameworkList
  then (increment frameworks topic, tools)
  else if existsb (fun tool => includes topic tool) toolList
  then (frameworks, increment tools topic)
  else (frameworks, tools).

(** The four accumulators of the loop over the repositories. *)
Record Tallies := {
  languages : JsRecord Z;
  frameworks : JsRecord Z;
  tools : JsRecord Z;
  topicSet : list string
}.

(** [repo.topics.forEach(topic => ...)] *)
Definition addTopic (acc : Tallies) (topic : string) : Tallies :=
  let (frameworks', tools') := categorizeTopics topic (frameworks acc) (tools acc) in
  {| languages := languages acc;
     frameworks := frameworks';
     tools := tools';
     topicSet := JsSet.add (topicSet acc) topic |}.

(** The body of [for (const repo of repos)]. *)
Definition visit (client : Client) (username : string) (acc : Tallies)
  (repo : Repository) : Tallies :=
  if fork repo then acc
  else
    let fetched :=
      match listLanguages client username (name repo) with
      | Returned repoLanguages =>
          {| languages := accumulate (languages acc) (Obj.entries repoLanguages);
             frameworks := frameworks acc;
             tools := tools acc;
             topicSet := topicSet acc |}
      | Thrown _ => acc
      end in
    match topics repo with
    | Some ts => if (0 <? List.length ts)%nat then fold_left addTopic ts fetched else fetched
    | None => fetched
    end.

(** The [activities] of the analysis: [[...].filter(Boolean)]. *)
Definition activitiesOfUser (user : User) (repos : list Repository) : list string :=
  filter truthy
    [ match bio user with
      | Some b => if truthy b then b else ""
      | None => ""
      end;
      (decimal (List.length repos) ++ "個のリポジトリを所有")%string;
      match company user with
      | Some c => if truthy c then (c ++ "に所属")%string else ""
      | None => ""
      end ].

(** [analyze(url)]; the service always has a client, with or without
    token. *)
Definition analyze (client : Client) (url : string) : Outcome PlatformAnalysis :=
  match extractUsername url with
  | None => Thrown "Error: Invalid GitHub URL"
  | Some username =>
      let fetched :=
        match getByUsername client username with
        | Thrown e => Thrown e
        | Returned user =>
            match listForUser client username with
            | Thrown e => Thrown e
            | Returned repos => Returned (user, repos)
            end
        end in
      match fetched with
      | Thrown e => Thrown ("Error: GitHub分析中にエラーが発生しました: " ++ e)%string
      | Returned (user, repos) =>
          let acc :=
            fold_left (visit client username) repos
              {| languages := []; frameworks := []; tools := []; topicSet := [] |} in
          Returned
            {| platform := GITHUB;
               url := url;
               techStack :=
                 {| pts_languages := Some (languages acc);
                    pts_frameworks := Some (frameworks acc);
                    pts_tools := Some (tools acc);
                    pts_topics := Some (topicSet acc) |};
               personality :=
                 {| pp_interests := Some (slice0 10 (topicSet acc));
                    pp_activities := Some (activitiesOfUser user repos);
                    pp_communication :=
                      Some {| c_style := Some (analyzeCommStyle user (map details repos));
                              c_frequency := None;
                              c_topics := None |};
                    pp_workStyle := None |} |}
      end
  end.

End GitHubService.

(** ** services/speakerdeck.ts *)

Module SpeakerDeckService.

(** [/speakerdeck\.com\/([^\/\?]+)/] matched at the start of [s]: the
    capture. *)
Definition matchHere (s : string) : option string :=
  match TwitterService.dropPrefix "speakerdeck.com/" s with
  | Some r =>
      let u := TwitterService.takeWhile TwitterService.usernameChar r in
      if truthy u then Some u else None
  | None => None
  end.

(** [url.match(...)]: the leftmost match; [None] is the thrown
    [Invalid SpeakerDeck URL]. *)
Fixpoint extractUsername (url : string) : option string :=
  match matchHere url with
  | Some u => Some u
  | None =>
      match url with
      | EmptyString => None
      | String _ rest => extractUsername rest
      end
  end.

(** A presentation by the fields that the classifiers read; its [url] and
    [date] go to the diagnostic payload only. *)
Record Presentation := {
  title : string;
  description : string
}.

(** [(presentation.title + ' ' + presentation.description).toLowerCase()] *)
Definition loweredText `{Runtime} (presentation : Presentation) : string :=
  toLowerCase (title presentation ++ " " ++ description presentation)%string.

Definition techKeywords : list string :=
  [ "javascript"; "typescript"; "python"; "java"; "ruby"; "go"; "rust"; "c#"; "php";
    "react"; "vue"; "angular"; "svelte"; "node"; "deno"; "rails"; "django"; "laravel";
    "aws"; "azure"; "gcp"; "cloud"; "docker"; "kubernetes"; "devops"; "cicd";
    "ai"; "ml"; "machine learning"; "deep learning"; "data"; "analytics";
    "web"; "mobile"; "frontend"; "backend"; "fullstack"; "database"; "sql"; "nosql";
    "security"; "blockchain"; "crypto"; "iot"; "ar"; "vr";
    "architecture"; "microservices"; "serverless"; "testing"; "agile"; "scrum";
    "design"; "ux"; "ui"; "accessibility"; "performance"; "optimization" ].

Definition extractTopicsFromPresentations `{Runtime} (presentations : list Presentation)
  : list string :=
  fold_left
    (fun topics presentation =>
       let text := loweredText presentation in
       fold_left (fun ts keyword => if includes text keyword then JsSet.add ts keyword else ts)
                 techKeywords topics)
    presentations [].

Definition languageList : list string :=
  [ "javascript"; "typescript"; "python"; "java"; "ruby"; "go"; "rust"; "c#"; "php";
    "swift"; "kotlin"; "scala"; "haskell"; "clojure"; "elixir"; "erlang";
    "c"; "c++"; "objective-c"; "dart"; "lua"; "perl"; "r" ].

Definition frameworkList : list string :=
  [ "react"; "vue"; "angular"; "svelte"; "next"; "nuxt"; "gatsby";
    "express"; "koa"; "nest"; "fastify"; "hapi";
    "django"; "flask"; "fastapi"; "spring"; "rails"; "laravel";
    "tensorflow"; "pytorch"; "keras" ].

Definition toolList : list string :=
  [ "webpack"; "babel"; "eslint"; "prettier"; "jest"; "mocha"; "cypress";
    "docker"; "kubernetes"; "aws"; "azure"; "gcp"; "firebase";
    "graphql"; "apollo"; "redux"; "mobx"; "zustand";
    "git"; "github"; "gitlab"; "bitbucket" ].

(** The three tallies that [inferTechStack] returns. *)
Record Tallies := {
  languages : JsRecord Z;
  frameworks : JsRecord Z;
  tools : JsRecord Z
}.

(** [for (const word of words) if (text.includes(word)) tally[word] = ...] *)
Definition detect (words : list string) (text : string) (tally : JsRecord Z)
  : JsRecord Z :=
  fold_left (fun t word => if includes text word then increment t word else t)
            words tally.

(** [const word = words.find(w => topicLower.includes(w)); if (word) ...] *)
Definition incrementFound (words : list string) (topicLower : string)
  (tally : JsRecord Z) : JsRecord Z :=
  match find (fun w => includes topicLower w) words with
  | Some word => if truthy word then increment tally word else tally
  | None => tally
  end.

Definition inferTechStack `{Runtime} (presentations : list Presentation)
  (topics : list string) : Tallies :=
  let scanned :=
    fold_left
      (fun acc presentation =>
         let text := loweredText presentation in
         {| languages := detect languageList text (languages acc);
            frameworks := detect frameworkList text (frameworks acc);
            tools := detect toolList text (tools acc) |})
      presentations
      {| languages := []; frameworks := []; tools := [] |} in
  fold_left
    (fun acc topic =>
       let topicLower := toLowerCase topic in
       if existsb (fun lang => includes topicLower lang) languageList then
         {| languages := incrementFound languageList topicLower (languages acc);
            frameworks := frameworks acc;
            tools := tools acc |}
       else if existsb (fun fw => includes topicLower fw) frameworkList then
         {| languages := languages acc;
            frameworks := incrementFound frameworkList topicLower (frameworks acc);
            tools := tools acc |}
       else if existsb (fun tool => includes topicLower tool) toolList then
         {| languages := languages acc;
            frameworks := frameworks acc;
            tools := incrementFound toolList topicLower (tools acc) |}
       else acc)
    topics scanned.

(** [presentations.reduce((sum, p) => sum + length(p), 0)] *)
Definition total (length : Presentation -> nat) (presentations : list Presentation) : Z :=
  fold_left (fun sum p => (sum + Z.of_nat (length p))%Z) presentations 0%Z.

Definition isTechnical `{Runtime} (p : Presentation) : bool :=
  existsb (fun kw => includes (loweredText p) kw)
          [ "code"; "programming"; "development"; "software"; "tech"; "technology" ].

Definition analyzeCommStyle `{Runtime} (presentations : list Presentation) : string :=
  match presentations with
  | [] => insufficient
  | _ :: _ =>
      let count := Z.of_nat (List.length presentations) in
      let avgTitleLength :=
        TwitterService.ratio (total (fun p => jsLength (title p)) presentations) count in
      let avgDescLength :=
        TwitterService.ratio (total (fun p => jsLength (description p)) presentations)
                             count in
      let techPresentations := filter isTechnical presentations in
      let techRatio :=
        TwitterService.ratio (Z.of_nat (List.length techPresentations)) count in
      if (20 <? count)%Z then "積極的に知識を共有するスタイル"
      else if TwitterService.gt avgDescLength (inject_Z 200) then "詳細な説明を好むスタイル"
      else if TwitterService.gt avgTitleLength (inject_Z 50)
      then "具体的なタイトルで内容を明確にするスタイル"
      else if TwitterService.gt techRatio (7 # 10)%Q then "技術的な内容に特化したスタイル"
      else "多様なトピックをバランスよく発表するスタイル"
  end.

Definition inferWorkStyle `{Runtime} (presentations : list Presentation) : string :=
  match presentations with
  | [] => insufficient
  | _ :: _ =>
      let text :=
        toLowerCase
          (join " " (map (fun p => (title p ++ " " ++ description p)%string)
                         presentations)) in
      let hasTeamFocus :=
        existsb (fun kw => includes text kw)
                [ "team"; "collaboration"; "agile"; "scrum"; "kanban"; "together" ] in
      let hasIndividualFocus :=
        existsb (fun kw => includes text kw) [ "personal"; "individual"; "solo"; "self" ] in
      let hasLeadershipFocus :=
        existsb (fun kw => includes text kw)
                [ "lead"; "leadership"; "manage"; "management"; "strategy"; "vision" ] in
      let hasTechnicalFocus :=
        existsb (fun kw => includes text kw)
                [ "detail"; "implementation"; "code"; "architecture"; "design"; "pattern" ] in
      if hasLeadershipFocus && hasTeamFocus then "チームリーダーシップを重視するスタイル"
      else if hasTeamFocus then "協調性を重視するスタイル"
      else if hasIndividualFocus && hasTechnicalFocus
      then "技術的な深掘りを好む個人作業スタイル"
      else if hasTechnicalFocus then "技術的な詳細にこだわるスタイル"
      else if hasLeadershipFocus then "ビジョンや戦略を重視するスタイル"
      else "バランスの取れた仕事のスタイル"
  end.

(** A card of the listing ([.talk-listing .container]) by the texts that
    the code reads from it, and the page of a user by its cards and by the
    text of [.profile-header .bio]. *)
Record Card := {
  titleText : string;
  descriptionText : string
}.

Record Page := {
  cards : list Card;
  bioText : string
}.

(** [analyze(url)]; [get] is the fetch of a page, [axios.get] followed by
    [cheerio.load]. *)
Definition analyze `{Runtime} (get : string -> Outcome Page) (url : string)
  : Outcome PlatformAnalysis :=
  match extractUsername url with
  | None => Thrown "Error: Invalid SpeakerDeck URL"
  | Some username =>
      match get ("https://speakerdeck.com/" ++ username)%string with
      | Thrown e => Thrown ("Error: SpeakerDeck分析中にエラーが発生しました: " ++ e)%string
      | Returned page =>
          let presentations :=
            map (fun card => {| title := trim (titleText card);
                                description := trim (descriptionText card) |})
                (cards page) in
          let profileBio := trim (bioText page) in
          let topics := extractTopicsFromPresentations presentations in
          let techStack := inferTechStack presentations topics in
          Returned
            {| platform := SPEAKERDECK;
               url := url;
               techStack :=
                 {| pts_languages := Some (languages techStack);
                    pts_frameworks := Some (frameworks techStack);
                    pts_tools := Some (tools techStack);
                    pts_topics := Some topics |};
               personality :=
                 {| pp_interests := Some (slice0 10 topics);
                    pp_activities :=
                      Some (filter truthy
                              [ profileBio;
                                (decimal (List.length presentations)
                                 ++ "件のプレゼンテーションを公開")%string ]);
                    pp_communication :=
                      Some {| c_style := Some (analyzeCommStyle presentations);
                              c_frequency :=
                                Some (if (0 <? List.length presentations)%nat
                                      then TwitterService.ratio
                                             (Z.of_nat (List.length presentations)) 12
                                      else 0%Q);
                              c_topics := Some (slice0 5 topics) |};
                    pp_workStyle := Some (inferWorkStyle presentations) |} |}
      end
  end.

End SpeakerDeckService.

(** ** services/blog.ts *)

Module BlogService.

(** What the code reads of an element that a selector matched:
    - [heading]: [$(element).find('h1, h2, h3').first().text().trim()]
    - [linkHref]: [$(element).find('a').attr('href')]
    - [textContent]: [$(element).text().trim()]
    - [datetime]: [$(element).find('time').attr('datetime')]
    - [dateText]: [$(element).find('.date, .time, .published, .post-date').text().trim()]
    - [href]: [$(element).attr('href')] *)
Record Element := {
  heading : string;
  linkHref : option string;
  textContent : string;
  datetime : option string;
  dateText : string;
  href : option string
}.

(** The parsed page: [$(selector)], the elements matched in document order. *)
Definition Document := string -> list Element.

Record Article := {
  title : string;
  articleUrl : string;
  content : string;
  date : option string
}.

Definition extractDomain `{Runtime} (url : string) : Outcome string :=
  match URL_hostname url with
  | Some hostname => Returned hostname
  | None => Thrown "Error: Invalid Blog URL"
  end.

Definition normalizeUrl `{Runtime} (href baseUrl : string) : string :=
  match URL_resolve href baseUrl with
  | Some absolute => absolute
  | None => href
  end.

(** [a || b] for an attribute that may be missing *)
Definition orElse (a : option string) (b : string) : string :=
  match a with
  | Some v => if truthy v then v else b
  | None => b
  end.

Definition articleSelectors : list string :=
  [ "article"; ".post"; ".entry"; ".blog-post"; ".blog-entry";
    ".post-content"; ".entry-content"; ".article-content" ].

(** The body of [$(selector).each(...)] *)
Definition pushArticle `{Runtime} (baseUrl : string) (articles : list Article)
  (element : Element) : list Article :=
  let articleTitle := heading element in
  let articleUrl := orElse (linkHref element) "" in
  let articleContent := textContent element in
  let articleDate := orElse (datetime element) (dateText element) in
  if truthy articleTitle && truthy articleContent then
    articles ++ [ {| title := articleTitle;
                     articleUrl := normalizeUrl articleUrl baseUrl;
                     content := articleContent;
                     date := Some articleDate |} ]
  else articles.

(** [for (const selector of articleSelectors) { ...; if (articles.length > 0) break; }] *)
Fixpoint trySelectors `{Runtime} (doc : Document) (baseUrl : string)
  (selectors : list string) (articles : list Article) : list Article :=
  match selectors with
  | [] => articles
  | selector :: rest =>
      let articles := fold_left (pushArticle baseUrl) (doc selector) articles in
      if (0 <? List.length articles)%nat then articles
      else trySelectors doc baseUrl rest articles
  end.

(** The test of the fallback on a link *)
Definition looksLikeArticle (element : Element) : bool :=
  match href element with
  | Some h =>
      truthy h && truthy (textContent element) && includes h "/"
      && (20 <? jsLength (textContent element))%nat && negb (startsWith h "http")
  | None => false
  end.

(** The body of [$('a').each(...)] *)
Definition pushStub `{Runtime} (baseUrl : string) (articles : list Article)
  (element : Element) : list Article :=
  if looksLikeArticle element then
    articles ++ [ {| title := textContent element;
                     articleUrl := normalizeUrl (orElse (href element) "") baseUrl;
                     content := textContent element;
                     date := None |} ]
  else articles.

(** The [articles] of [analyze] once both loops have run. *)
Definition discoverArticles `{Runtime} (doc : Document) (baseUrl : string) : list Article :=
  let articles := trySelectors doc baseUrl articleSelectors [] in
  if (List.length articles =? 0)%nat
  then fold_left (pushStub baseUrl) (doc "a") articles
  else articles.

(** [(article.title + ' ' + article.content).toLowerCase()] *)
Definition loweredText `{Runtime} (article : Article) : string :=
  toLowerCase (title article ++ " " ++ content article)%string.

Definition quote : string := String (ascii_of_nat 34) "".

Definition tagSelectors : list string :=
  [ ".tags a"; ".categories a"; ".category a"; ".tag a";
    ("a[rel=" ++ quote ++ "tag" ++ quote ++ "]")%string; ".post-tags a"; ".entry-tags a";
    ".post-categories a"; ".entry-categories a" ].

Definition techKeywords : list string :=
  [ "javascript"; "typescript"; "python"; "java"; "ruby"; "go"; "rust"; "c#"; "php";
    "react"; "vue"; "angular"; "svelte"; "node"; "deno"; "rails"; "django"; "laravel";
    "aws"; "azure"; "gcp"; "cloud"; "docker"; "kubernetes"; "devops"; "cicd";
    "ai"; "ml"; "machine learning"; "deep learning"; "data"; "analytics";
    "web"; "mobile"; "frontend"; "backend"; "fullstack"; "database"; "sql"; "nosql";
    "security"; "blockchain"; "crypto"; "iot"; "ar"; "vr";
    "architecture"; "microservices"; "serverless"; "testing"; "agile"; "scrum";
    "design"; "ux"; "ui"; "accessibility"; "performance"; "optimization" ].

(** The body of [for (const selector of tagSelectors)]. *)
Definition addTags `{Runtime} (doc : Document) (topics : list string) (selector : string)
  : list string :=
  fold_left
    (fun ts element =>
       let tag := toLowerCase (textContent element) in
       if truthy tag && (1 <? jsLength tag)%nat then JsSet.add ts tag else ts)
    (doc selector) topics.

Definition extractTopicsFromBlog `{Runtime} (doc : Document) (articles : list Article)
  : list string :=
  let topics := fold_left (addTags doc) tagSelectors [] in
  fold_left
    (fun topics article =>
       let text := loweredText article in
       fold_left (fun ts keyword => if includes text keyword then JsSet.add ts keyword else ts)
                 techKeywords topics)
    articles topics.

(** The three lists of [inferTechStack]: the same words as in the
    slide-deck service. *)
Definition languageList : list string := SpeakerDeckService.languageList.
Definition frameworkList : list string := SpeakerDeckService.frameworkList.
Definition toolList : list string := SpeakerDeckService.toolList.

(** The test of a code block for a language: the two nested conditions. *)
Definition codeLanguage (code lang : string) : bool :=
  (includes code "function" || includes code "class" || includes code "import"
   || includes code "from" || includes code "def " || includes code "var "
   || includes code "const " || includes code "let ")
  && ((String.eqb lang "javascript"
       && (includes code "const " || includes code "let " || includes code "function"))
      || (String.eqb lang "typescript" && (includes code ":" && includes code "interface"))
      || (String.eqb lang "python" && (includes code "def " || includes code "import "))
      || (String.eqb lang "java"
          && (includes code "public class" || includes code "private "))
      || (String.eqb lang "ruby" && (includes code "def " || includes code "end"))
      || (String.eqb lang "go" && (includes code "func " || includes code "package "))).

Definition inferTechStack `{Runtime} (doc : Document) (articles : list Article)
  (topics : list string) : SpeakerDeckService.Tallies :=
  let codeBlocks := map (fun element => toLowerCase (textContent element)) (doc "pre, code") in
  let languages :=
    fold_left
      (fun languages code =>
         fold_left (fun t lang => if codeLanguage code lang then increment t lang else t)
                   languageList languages)
      codeBlocks [] in
  let scanned :=
    fold_left
      (fun acc article =>
         let text := loweredText article in
         {| SpeakerDeckService.languages :=
              SpeakerDeckService.detect languageList text (SpeakerDeckService.languages acc);
            SpeakerDeckService.frameworks :=
              SpeakerDeckService.detect frameworkList text
                                        (SpeakerDeckService.frameworks acc);
            SpeakerDeckService.tools :=
              SpeakerDeckService.detect toolList text (SpeakerDeckService.tools acc) |})
      articles
      {| SpeakerDeckService.languages := languages;
         SpeakerDeckService.frameworks := [];
         SpeakerDeckService.tools := [] |} in
  fold_left
    (fun acc topic =>
       let topicLower := toLowerCase topic in
       if existsb (fun lang => includes topicLower lang) languageList then
         {| SpeakerDeckService.languages :=
              SpeakerDeckService.incrementFound languageList topicLower
                                                (SpeakerDeckService.languages acc);
            SpeakerDeckService.frameworks := SpeakerDeckService.frameworks acc;
            SpeakerDeckService.tools := SpeakerDeckService.tools acc |}
       else if existsb (fun fw => includes topicLower fw) frameworkList then
         {| SpeakerDeckService.languages := SpeakerDeckService.languages acc;
            SpeakerDeckService.frameworks :=
              SpeakerDeckService.incrementFound frameworkList topicLower
                                                (SpeakerDeckService.frameworks acc);
            SpeakerDeckService.tools := SpeakerDeckService.tools acc |}
       else if existsb (fun tool => includes topicLower tool) toolList then
         {| SpeakerDeckService.languages := SpeakerDeckService.languages acc;
            SpeakerDeckService.frameworks := SpeakerDeckService.frameworks acc;
            SpeakerDeckService.tools :=
              SpeakerDeckService.incrementFound toolList topicLower
                                                (SpeakerDeckService.tools acc) |}
       else acc)
    topics scanned.

Definition inferWorkStyle `{Runtime} (articles : list Article) : string :=
  match articles with
  | [] => insufficient
  | _ :: _ =>
      let text :=
        toLowerCase
          (join " " (map (fun a => (title a ++ " " ++ content a)%string) articles)) in
      let hasTeamFocus :=
        existsb (fun kw => includes text kw)
                [ "team"; "collaboration"; "agile"; "scrum"; "kanban"; "together";
                  "チーム"; "協力"; "協働" ] in
      let hasIndividualFocus :=
        existsb (fun kw => includes text kw)
                [ "personal"; "individual"; "solo"; "self"; "個人"; "一人" ] in
      let hasLeadershipFocus :=
        existsb (fun kw => includes text kw)
                [ "lead"; "leadership"; "manage"; "management"; "strategy"; "vision";
                  "リーダー"; "戦略"; "マネジメント" ] in
      let hasTechnicalFocus :=
        existsb (fun kw => includes text kw)
                [ "detail"; "implementation"; "code"; "architecture"; "design"; "pattern";
                  "実装"; "コード"; "設計" ] in
      let hasEducationalFocus :=
        existsb (fun kw => includes text kw)
                [ "teach"; "learn"; "education"; "tutorial"; "guide"; "how-to";
                  "学習"; "教育"; "チュートリアル" ] in
      if hasEducationalFocus && hasTechnicalFocus then "知識共有を重視する教育的なスタイル"
      else if hasLeadershipFocus && hasTeamFocus then "チームリーダーシップを重視するスタイル"
      else if hasTeamFocus then "協調性を重視するスタイル"
      else if hasIndividualFocus && hasTechnicalFocus
      then "技術的な深掘りを好む個人作業スタイル"
      else if hasTechnicalFocus then "技術的な詳細にこだわるスタイル"
      else if hasLeadershipFocus then "ビジョンや戦略を重視するスタイル"
      else if hasEducationalFocus then "教育や知識共有を重視するスタイル"
      else "バランスの取れた仕事のスタイル"
  end.

End BlogService.

(** ** index.ts: the handler of a tool call *)

(** The patterns of the handler, all of the shape [^...$], and their matcher
    by derivatives. *)
Inductive Regex :=
| Fail
| Lit (s : string)
| NoneOf (cs : string)
| Seq (r1 r2 : Regex)
| Alt (r1 r2 : Regex)
| Opt (r : Regex)
| Plus (r : Regex).

Fixpoint nullable (r : Regex) : bool :=
  match r with
  | Fail => false
  | Lit s => String.eqb s ""
  | NoneOf _ => false
  | Seq r1 r2 => nullable r1 && nullable r2
  | Alt r1 r2 => nullable r1 || nullable r2
  | Opt _ => true
  | Plus r => nullable r
  end.

Fixpoint charIn (c : ascii) (cs : string) : bool :=
  match cs with
  | EmptyString => false
  | String c' cs' => Ascii.eqb c c' || charIn c cs'
  end.

Fixpoint deriv (c : ascii) (r : Regex) : Regex :=
  match r with
  | Fail => Fail
  | Lit EmptyString => Fail
  | Lit (String a s) => if Ascii.eqb a c then Lit s else Fail
  | NoneOf cs => if charIn c cs then Fail else Lit ""
  | Seq r1 r2 =>
      if nullable r1 then Alt (Seq (deriv c r1) r2) (deriv c r2)
      else Seq (deriv c r1) r2
  | Alt r1 r2 => Alt (deriv c r1) (deriv c r2)
  | Opt r => deriv c r
  | Plus r => Seq (deriv c r) (Opt (Plus r))
  end.

(** [s.match(/^r$/)] is not [null] *)
Fixpoint matches (r : Regex) (s : string) : bool :=
  match s with
  | EmptyString => nullable r
  | String c s' => matches (deriv c r) s'
  end.

Definition seqs (rs : list Regex) : Regex := fold_right Seq (Lit "") rs.

(** [/^https?:\/\/(www\.)?github\.com\/[^\/]+\/?$/] *)
Definition githubPattern : Regex :=
  seqs [ Lit "http"; Opt (Lit "s"); Lit "://"; Opt (Lit "www."); Lit "github.com/";
         Plus (NoneOf "/"); Opt (Lit "/") ].

(** [/^https?:\/\/(www\.)?(twitter|x)\.com\/[^\/]+\/?$/] *)
Definition twitterPattern : Regex :=
  seqs [ Lit "http"; Opt (Lit "s"); Lit "://"; Opt (Lit "www.");
         Alt (Lit "twitter") (Lit "x"); Lit ".com/"; Plus (NoneOf "/"); Opt (Lit "/") ].

(** [/^https?:\/\/(www\.)?speakerdeck\.com\/[^\/]+\/?$/] *)
Definition speakerdeckPattern : Regex :=
  seqs [ Lit "http"; Opt (Lit "s"); Lit "://"; Opt (Lit "www."); Lit "speakerdeck.com/";
         Plus (NoneOf "/"); Opt (Lit "/") ].

Inductive ErrorCode := InvalidParams | InternalError | MethodNotFound.

Inductive Response :=
| Content (text : string)
| McpError (code : ErrorCode) (message : string).

(** [args.x] is given and not empty *)
Definition present (field : option string) : bool :=
  match field with
  | Some u => truthy u
  | None => false
  end.

(** [args.x && !args.x.match(pattern)] *)
Definition malformed (pattern : Regex) (field : option string) : bool :=
  match field with
  | Some u => truthy u && negb (matches pattern u)
  | None => false
  end.

(** What a call of the handler leaves: the calls of the services it made, the
    cache, and its response ([McpError] is the error thrown to the caller). *)
Record Handled := {
  calls : list Call;
  analysisCache : JsRecord string;
  response : Response
}.

Definition handler `{Runtime} (services : Services) (cache : JsRecord string)
  (name : string) (args : AnalysisRequest) : Handled :=
  let throw code message :=
    {| calls := []; analysisCache := cache; response := McpError code message |} in
  if String.eqb name "how-person" then
    if negb (present (github args)) && negb (present (twitter args))
       && negb (present (speakerdeck args)) && negb (present (blog args))
    then throw InvalidParams
           "少なくとも1つのURLを指定してください（GitHub、Twitter/X、SpeakerDeck、ブログ）"
    else if malformed githubPattern (github args)
    then throw InvalidParams "GitHubのURLが無効です。例: https://github.com/username"
    else if malformed twitterPattern (twitter args)
    then throw InvalidParams
           "X（Twitter）のURLが無効です。例: https://twitter.com/username または https://x.com/username"
    else if malformed speakerdeckPattern (speakerdeck args)
    then throw InvalidParams "SpeakerDeckのURLが無効です。例: https://speakerdeck.com/username"
    else
      let cacheKey := JSON_stringify args in
      match Obj.get cache cacheKey with
      | Some text => {| calls := []; analysisCache := cache; response := Content text |}
      | None =>
          match analyze services args with
          | (made, Returned result) =>
              {| calls := made;
                 analysisCache := Obj.set cache cacheKey (ar_summary result);
                 response := Content (ar_summary result) |}
          | (made, Thrown error) =>
              {| calls := made; analysisCache := cache;
                 response :=
                   McpError InternalError ("分析中にエラーが発生しました: " ++ error)%string |}
          end
      end
  else throw MethodNotFound ("未知のツール: " ++ name)%string.

(** ** A runtime for examples

    ASCII text, and URLs of the shape [http(s)://host/path]: enough to run the
    model on the concrete inputs below. *)

Module Example.

Definition lower (c : ascii) : ascii :=
  let n := nat_of_ascii c in
  if (65 <=? n)%nat && (n <=? 90)%nat then ascii_of_nat (n + 32) else c.

Fixpoint mapChars (f : ascii -> ascii) (s : string) : string :=
  match s with
  | EmptyString => EmptyString
  | String c s' => String (f c) (mapChars f s')
  end.

Definition isSpace (c : ascii) : bool :=
  let n := nat_of_ascii c in
  (n =? 32)%nat || ((9 <=? n)%nat && (n <=? 13)%nat).

Fixpoint trimStart (s : string) : string :=
  match s with
  | EmptyString => EmptyString
  | String c s' => if isSpace c then trimStart s' else s
  end.

Fixpoint trimEnd (s : string) : string :=
  match s with
  | EmptyString => EmptyString
  | String c s' =>
      let t := trimEnd s' in
      if isSpace c && String.eqb t "" then EmptyString else String c t
  end.

Definition afterScheme (u : string) : option string :=
  match TwitterService.dropPrefix "https://" u with
  | Some r => Some r
  | None => TwitterService.dropPrefix "http://" u
  end.

Definition hostChar (c : ascii) : bool :=
  negb (Ascii.eqb c "/" || Ascii.eqb c "?" || Ascii.eqb c "#").

Definition hostname (u : string) : option string :=
  match afterScheme u with
  | Some r =>
      let h := TwitterService.takeWhile hostChar r in
      if truthy h then Some h else None
  | None => None
  end.

Definition origin (u : string) : option string :=
  match hostname u with
  | Some h => Some ((if startsWith u "https" then "https://" else "http://") ++ h)%string
  | None => None
  end.

Definition resolve (href base : string) : option string :=
  match hostname href, origin base with
  | Some _, _ => Some href
  | None, Some o => Some (if startsWith href "/" then o ++ href else o ++ "/" ++ href)%string
  | None, None => None
  end.

Definition field (name : string) (v : option string) : list string :=
  match v with
  | Some u => [(name ++ "=" ++ u)%string]
  | None => []
  end.

Definition stringify (args : AnalysisRequest) : string :=
  join "&" (field "github" (github args) ++ field "twitter" (twitter args)
            ++ field "speakerdeck" (speakerdeck args) ++ field "blog" (blog args)).

#[export] Instance runtime : Runtime := {
  toLowerCase := mapChars lower;
  trim := fun s => trimEnd (trimStart s);
  URL_hostname := hostname;
  URL_resolve := resolve;
  JSON_stringify := stringify
}.

(** The services when there is no network and no credential: the code-host
    and slide-deck services throw at their first fetch, the blog service at
    [extractDomain] or at its fetch; the microblog service runs without
    client. *)
Definition offline : Services :=
  {| githubService :=
       fun _ => Thrown "Error: GitHub分析中にエラーが発生しました: Error: network";
     twitterService := TwitterService.analyze None;
     speakerDeckService :=
       fun _ => Thrown "Error: SpeakerDeck分析中にエラーが発生しました: Error: network";
     blogService :=
       fun u =>
         match BlogService.extractDomain u with
         | Thrown e => Thrown e
         | Returned _ => Thrown "Error: ブログ分析中にエラーが発生しました: Error: network"
         end |}.

(** An API that refuses every call. *)
Definition refusing (token : string) : TwitterService.Client :=
  {| TwitterService.userByUsername := fun _ => Thrown "Error: unauthorized";
     TwitterService.userTimeline := fun _ => Thrown "Error: unauthorized" |}.

Definition request (g t s b : option string) : AnalysisRequest :=
  {| github := g; twitter := t; speakerdeck := s; blog := b |}.

(** A page without any structural match, with one link. *)
Definition page (link : BlogService.Element) : BlogService.Document :=
  fun selector => if String.eqb selector "a" then [link] else [].

Definition link (href text : string) : BlogService.Element :=
  {| BlogService.heading := ""; BlogService.linkHref := None;
     BlogService.textContent := text; BlogService.datetime := None;
     BlogService.dateText := ""; BlogService.href := Some href |}.

(** A platform analysis that reports one tally of languages and a frequency. *)
Definition reporting (p : Platform) (languages : JsRecord Z) (frequency : option Q)
  : PlatformAnalysis :=
  {| platform := p; url := "";
     techStack := {| pts_languages := Some languages; pts_frameworks := None;
                     pts_tools := None; pts_topics := None |};
     personality := {| pp_interests := None; pp_activities := None;
                       pp_communication :=
                         Some {| c_style := None; c_frequency := frequency;
                                 c_topics := None |};
                       pp_workStyle := None |} |}.

End Example.

(** * Notions of the statements *)

(** ** Order in a list *)

(** [a] stands before [b] in [l]. *)
Definition before {A : Type} (l : list A) (a b : A) : Prop :=
  exists l1 l2 l3, l = l1 ++ a :: l2 ++ b :: l3.

(** [a] and [b] both occur in [l], and [a] occurs before any [b] does: [a]
    is encountered first. *)
Definition firstBefore (l : list string) (a b : string) : Prop :=
  exists l1 l2, l = l1 ++ a :: l2 /\ ~ In a l1 /\ ~ In b l1 /\ a <> b /\ In b l2.

(** ** The merged tallies *)

(** The sum of the scores that the entries [es] give to [k]. *)
Definition tally (es : list (string * Z)) (k : string) : Z :=
  fold_right (fun e s => if String.eqb (fst e) k then (snd e + s)%Z else s) 0%Z es.

Definition scoreGe (a b : string * Z) : Prop := (snd b <= snd a)%Z.











(** ** The merged personality *)

(** The non-empty labels that the platforms give, in the order of the
    platforms. *)
Definition labelsOf (label : PlatformAnalysis -> option string)
  (analyses : list PlatformAnalysis) : list string :=
  flat_map (fun a => match label a with
                     | Some s => if truthy s then [s] else []
                     | None => []
                     end) analyses.

Definition workStyleOf (a : PlatformAnalysis) : option string := pp_workStyle (personality a).

(** The frequencies that the platforms report: present and not zero. *)
Definition reportedFrequencies (analyses : list PlatformAnalysis) : list Q :=
  flat_map (fun a => match commFrequency a with
                     | Some f => if Qeq_bool f 0 then [] else [f]
                     | None => []
                     end) analyses.

Definition Qsum (l : list Q) : Q := fold_right Qplus 0%Q l.

Definition ones (labels : list string) : list (string * Z) :=
  map (fun s => (s, 1%Z)) labels.

(** The keys of the counts, sorted: what [Object.entries(counts).sort(...)
    .map(([k]) => k)] gives. *)
Definition ranked (labels : list string) : list string :=
  map fst (Array_sort sortByScore (Obj.entries (fold_left increment labels []))).



(** ** The categories of the communication style *)

(** The number of style strings that a pattern matches. *)
Definition matchCount (pattern : list string) (styles : list string) : nat :=
  List.length (filter (test pattern) styles).

(** The categories that match some style string. *)
Definition matched (styles : list string) : list (list string * string) :=
  filter (fun pk => (0 <? matchCount (fst pk) styles)%nat) keywordPatterns.

(** The keywords of the patterns that match one style string, in the order of
    the patterns. *)
Definition keywordsOf (pats : list (list string * string)) (style : string) : list string :=
  map snd (filter (fun pk => test (fst pk) style) pats).

(** The events of the counting loop: one per style string and matching
    pattern. *)
Definition keywordEvents (styles : list string) : list string :=
  flat_map (keywordsOf keywordPatterns) styles.

(** ** The outcome of an analysis *)

(** What one service contributes: its analysis when its URL is given and its
    call returns. *)
Definition contribution (service : string -> Outcome PlatformAnalysis)
  (field : option string) : list PlatformAnalysis :=
  match field with
  | Some u =>
      if truthy u then
        match service u with
        | Returned analysis => [analysis]
        | Thrown _ => []
        end
      else []
  | None => []
  end.

(** The analyses of the services that were asked and returned, in the order
    of the calls. *)
Definition succeeded (services : Services) (request : AnalysisRequest)
  : list PlatformAnalysis :=
  contribution (githubService services) (github request)
  ++ contribution (twitterService services) (twitter request)
  ++ contribution (speakerDeckService services) (speakerdeck request)
  ++ contribution (blogService services) (blog request).

(** The service was asked with the URL of the request and returned [a]. *)
Definition returnedBy (service : string -> Outcome PlatformAnalysis)
  (field : option string) (a : PlatformAnalysis) : Prop :=
  exists u, field = Some u /\ u <> "" /\ service u = Returned a.

(** The calls that a request asks for. *)
Definition requested (p : Platform) (field : option string) : list Call :=
  match field with
  | Some u => if truthy u then [Analyze p u] else []
  | None => []
  end.

Definition emptyTechStack : TechStack :=
  {| ts_languages := []; ts_frameworks := []; ts_tools := []; ts_topics := [] |}.

Definition emptyPersonality : Personality :=
  {| p_interests := []; p_activities := [];
     p_communication :=
       {| c_style := Some insufficient; c_frequency := Some 0%Q; c_topics := Some [] |};
     p_workStyle := None |}.

(** The summary of an analysis in which no platform returned. *)
Definition emptySummary : string :=
  ("の分析結果に基づく要約：" ++ nl ++ nl ++ "【技術スタック】" ++ nl ++ nl ++ "【人となり】" ++ nl
   ++ "・コミュニケーションスタイル: " ++ insufficient ++ nl)%string.

(** ** The handler and the extractors *)

(** Some profile URL of the request is given and does not match its
    pattern. *)
Definition malformedProfile (args : AnalysisRequest) : bool :=
  malformed githubPattern (github args)
  || malformed twitterPattern (twitter args)
  || malformed speakerdeckPattern (speakerdeck args).

(** The analysis of a profile of which nothing was fetched. *)
Definition emptyTwitterAnalysis (url : string) : PlatformAnalysis :=
  {| platform := TWITTER;
     url := url;
     techStack := {| pts_languages := None; pts_frameworks := None; pts_tools := None;
                     pts_topics := Some [] |};
     personality :=
       {| pp_interests := Some [];
          pp_activities := Some [];
          pp_communication :=
            Some {| c_style := Some insufficient; c_frequency := Some 0%Q;
                    c_topics := Some [] |};
          pp_workStyle := None |} |}.

(** The candidate is kept: its heading and its text are not empty. *)
Definition keeps (e : BlogService.Element) : bool :=
  truthy (BlogService.heading e) && truthy (BlogService.textContent e).

Definition toArticle `{Runtime} (baseUrl : string) (e : BlogService.Element)
  : BlogService.Article :=
  {| BlogService.title := BlogService.heading e;
     BlogService.articleUrl :=
       BlogService.normalizeUrl (BlogService.orElse (BlogService.linkHref e) "") baseUrl;
     BlogService.content := BlogService.textContent e;
     BlogService.date :=
       Some (BlogService.orElse (BlogService.datetime e) (BlogService.dateText e)) |}.

(** The articles that the elements matched by one selector yield. *)
Definition articlesOf `{Runtime} (baseUrl : string) (els : list BlogService.Element)
  : list BlogService.Article :=
  map (toArticle baseUrl) (filter keeps els).

(** A link whose address is not empty, holds a slash and does not start with
    [http], and whose text has more than 20 characters. *)
Definition relativeLongLink (e : BlogService.Element) : Prop :=
  exists h, BlogService.href e = Some h /\ h <> ""
            /\ includes h "/" = true /\ startsWith h "http" = false
            /\ (20 < jsLength (BlogService.textContent e))%nat.

Definition toStub `{Runtime} (baseUrl : string) (e : BlogService.Element)
  : BlogService.Article :=
  {| BlogService.title := BlogService.textContent e;
     BlogService.articleUrl :=
       BlogService.normalizeUrl (BlogService.orElse (BlogService.href e) "") baseUrl;
     BlogService.content := BlogService.textContent e;
     BlogService.date := None |}.

Definition stubsOf `{Runtime} (baseUrl : string) (els : list BlogService.Element)
  : list BlogService.Article :=
  map (toStub baseUrl) (filter BlogService.looksLikeArticle els).

(** ** Further notions: unions, permutations, the summary *)

Definition optList {A : Type} (xs : option (list A)) : list A :=
  match xs with
  | Some l => l
  | None => []
  end.

(** The strings that the platforms give in one optional list, in the order
    in which the merge meets them. *)
Definition collected (field : PlatformAnalysis -> option (list string))
  (analyses : list PlatformAnalysis) : list string :=
  flat_map (fun a => optList (field a)) analyses.

Definition interestsOf (a : PlatformAnalysis) : option (list string) :=
  pp_interests (personality a).

Definition activitiesOf (a : PlatformAnalysis) : option (list string) :=
  pp_activities (personality a).

(** A list of unique members, those of [given], in the order in which
    [given] first shows them. *)
Definition unionInOrder (given merged : list string) : Prop :=
  NoDup merged
  /\ (forall x, In x merged <-> In x given)
  /\ (forall x y, before merged x y -> firstBefore given x y).


(** [s] starts with [p]. *)
Definition beginsWith (s p : string) : Prop := exists rest, s = (p ++ rest)%string.

(** [s] holds [part]. *)
Definition holds (s part : string) : Prop :=
  exists front rest, s = (front ++ part ++ rest)%string.

(** The head of every summary: the display names of the platforms, then the
    fixed title. *)
Definition summaryHead (analyses : list PlatformAnalysis) : string :=
  ((join "、" (map (fun a => displayName (platform a)) analyses)
    ++ "の分析結果に基づく要約：" ++ nl ++ nl)
   ++ "【技術スタック】" ++ nl)%string.

(** The URL of the request for a platform. *)
Definition urlFor (p : Platform) (args : AnalysisRequest) : option string :=
  match p with
  | GITHUB => github args
  | TWITTER => twitter args
  | SPEAKERDECK => speakerdeck args
  | BLOG => blog args
  end.

(** The URL has the shape that the handler asks of the platform; the blog
    has none. *)
Definition wellFormedFor (p : Platform) (u : string) : bool :=
  match p with
  | GITHUB => matches githubPattern u
  | TWITTER => matches twitterPattern u
  | SPEAKERDECK => matches speakerdeckPattern u
  | BLOG => true
  end.

Definition Platform_eqb (p q : Platform) : bool :=
  match p, q with
  | GITHUB, GITHUB | TWITTER, TWITTER | SPEAKERDECK, SPEAKERDECK | BLOG, BLOG => true
  | _, _ => false
  end.

(** ** Further notions: the language of a pattern, the shape of a profile URL *)

(** The strings that a pattern matches from its first to its last
    character. *)
Inductive lang : Regex -> string -> Prop :=
| lang_Lit s : lang (Lit s) s
| lang_NoneOf cs c : charIn c cs = false -> lang (NoneOf cs) (String c "")
| lang_Seq r1 r2 s1 s2 : lang r1 s1 -> lang r2 s2 -> lang (Seq r1 r2) (s1 ++ s2)%string
| lang_AltL r1 r2 s : lang r1 s -> lang (Alt r1 r2) s
| lang_AltR r1 r2 s : lang r2 s -> lang (Alt r1 r2) s
| lang_OptNone r : lang (Opt r) ""
| lang_OptSome r s : lang r s -> lang (Opt r) s
| lang_PlusOne r s : lang r s -> lang (Plus r) s
| lang_PlusMore r s1 s2 :
    lang r s1 -> lang (Plus r) s2 -> lang (Plus r) (s1 ++ s2)%string.

(** A profile URL on one of the hosts: [http] or [https], an optional [www.],
    the host with its slash, a name that is not empty and holds no slash, and
    an optional slash at the end. *)
Definition profileUrl (hosts : list string) (u : string) : Prop :=
  exists s w h name t,
    In s [""; "s"] /\ In w [""; "www."] /\ In h hosts
    /\ name <> "" /\ includes name "/" = false /\ In t [""; "/"]
    /\ u = ("http" ++ s ++ "://" ++ w ++ h ++ name ++ t)%string.

(** ** Further notions: the topics and hashtags of tweets *)

(** [x] is a topic that the tweet gives: the tweet has a text, and [x] is a
    technical keyword that the lowered text holds, or a lowered hashtag that
    holds a technical keyword, or a lowered mention that holds the name of a
    technical account. *)
Definition tweetTopic `{Runtime} (tweet : TwitterService.Tweet) (x : string) : Prop :=
  exists t,
    TwitterService.text tweet = Some t /\ t <> ""
    /\ ((In x TwitterService.techKeywords /\ includes (toLowerCase t) x = true)
        \/ (exists e tag,
              TwitterService.entities tweet = Some e
              /\ In tag (TwitterService.orEmpty (TwitterService.hashtags e))
              /\ x = toLowerCase tag
              /\ existsb (includes x) TwitterService.techKeywords = true)
        \/ (exists e username,
              TwitterService.entities tweet = Some e
              /\ In username (TwitterService.orEmpty (TwitterService.mentions e))
              /\ x = toLowerCase username
              /\ existsb (includes x) TwitterService.techAccounts = true)).

(** [x] is a lowered hashtag of the tweet. *)
Definition tweetHashtag `{Runtime} (tweet : TwitterService.Tweet) (x : string) : Prop :=
  exists e tag,
    TwitterService.entities tweet = Some e
    /\ In tag (TwitterService.orEmpty (TwitterService.hashtags e))
    /\ x = toLowerCase tag.

(** ** Further notions: the repositories of the code host *)

(** The repositories that are no forks. *)
Definition ownRepositories (repos : list GitHubService.Repository)
  : list GitHubService.Repository :=
  filter (fun r => negb (GitHubService.fork r)) repos.

(** The topics that the repositories declare, in order, with repetitions. *)
Definition declaredTopics (repos : list GitHubService.Repository) : list string :=
  flat_map (fun r => optList (GitHubService.topics r)) repos.

(** The language entries that the fetches for the repositories return; a
    fetch that throws gives none. *)
Definition fetchedLanguages (client : GitHubService.Client) (username : string)
  (repos : list GitHubService.Repository) : list (string * Z) :=
  flat_map
    (fun r =>
       match GitHubService.listLanguages client username (GitHubService.name r) with
       | Returned repoLanguages => Obj.entries repoLanguages
       | Thrown _ => []
       end)
    repos.

(** The topic holds a word of the vocabulary. *)
Definition namesOneOf (vocabulary : list string) (topic : string) : bool :=
  existsb (fun word => includes topic word) vocabulary.

Definition isFramework (topic : string) : bool :=
  namesOneOf GitHubService.frameworkList topic.

(** A topic counts as a tool only when it counts as no framework. *)
Definition isTool (topic : string) : bool :=
  negb (isFramework topic) && namesOneOf GitHubService.toolList topic.

(** The number of times that [topic] stands in [declared]. *)
Definition declarations (declared : list string) (topic : string) : Z :=
  Z.of_nat (count_occ string_dec declared topic).

(** The four labels of the code-host classifier. *)
Definition githubStyles : list string :=
  [ "オープンで詳細なドキュメントを重視するスタイル";
    "協調的なスタイル";
    "多くのプロジェクトに取り組む探究心旺盛なスタイル";
    "個人的な開発に集中するスタイル" ].

Module Octocat.

Definition repository (name : string) (fork : bool) (topics : list string)
  : GitHubService.Repository :=
  {| GitHubService.name := name;
     GitHubService.fork := fork;
     GitHubService.topics := Some topics;
     GitHubService.details :=
       {| GitHubService.description := None;
          GitHubService.contributors_url :=
            Some ("https://api.github.com/repos/octocat/" ++ name ++ "/contributors")%string;
          GitHubService.stargazers_count := Some 3%Z |} |}.

Definition repos : list GitHubService.Repository :=
  [ repository "app" false ["react"; "docker"; "github-actions"];
    repository "fork" true ["vue"];
    repository "lib" false ["react"] ].

(** A client for one user with three repositories, one of them a fork; the
    fetch of the languages of [lib] fails. *)
Definition client : GitHubService.Client :=
  {| GitHubService.getByUsername :=
       fun _ => Returned {| GitHubService.bio := Some "hacker";
                            GitHubService.company := None |};
     GitHubService.listForUser := fun _ => Returned repos;
     GitHubService.listLanguages :=
       fun _ repo =>
         if String.eqb repo "app" then Returned [("TypeScript", 300%Z); ("CSS", 20%Z)]
         else if String.eqb repo "fork" then Returned [("Go", 999%Z)]
         else Thrown "Error: rate limit" |}.

Definition analysis : PlatformAnalysis :=
  {| platform := GITHUB;
     url := "https://github.com/octocat";
     techStack :=
       {| pts_languages := Some [("TypeScript", 300%Z); ("CSS", 20%Z)];
          pts_frameworks := Some [("react", 2%Z)];
          pts_tools := Some [("docker", 1%Z); ("github-actions", 1%Z)];
          pts_topics := Some ["react"; "docker"; "github-actions"] |};
     personality :=
       {| pp_interests := Some ["react"; "docker"; "github-actions"];
          pp_activities := Some ["hacker"; "3個のリポジトリを所有"];
          pp_communication :=
            Some {| c_style := Some "協調的なスタイル";
                    c_frequency := None;
                    c_topics := None |};
          pp_workStyle := None |} |}.

End Octocat.

(** ** Further notions: the slide decks *)

(** The presentations of a page: the trimmed texts of its cards. *)
Definition presentationsOf `{Runtime} (page : SpeakerDeckService.Page)
  : list SpeakerDeckService.Presentation :=
  map (fun card =>
         {| SpeakerDeckService.title := trim (SpeakerDeckService.titleText card);
            SpeakerDeckService.description :=
              trim (SpeakerDeckService.descriptionText card) |})
      (SpeakerDeckService.cards page).

(** The words of a vocabulary that a text holds, in the order of the
    vocabulary. *)
Definition heldWords (words : list string) (text : string) : list string :=
  filter (fun w => includes text w) words.

(** The first word of a vocabulary that a lowered topic holds, as the list
    of the keys that it raises. *)
Definition completion (words : list string) (topicLower : string) : list string :=
  match find (fun w => includes topicLower w) words with
  | Some word => if truthy word then [word] else []
  | None => []
  end.

(** The lowered topic holds a word of the vocabulary. *)
Definition namesWord `{Runtime} (words : list string) (topic : string) : bool :=
  existsb (fun w => includes (toLowerCase topic) w) words.

Definition namesLanguage `{Runtime} (topic : string) : bool :=
  namesWord SpeakerDeckService.languageList topic.

(** The keys that texts raise in the tally of a vocabulary, one for each
    text and word that the text holds. *)
Definition scanned {A : Type} (textOf : A -> string) (words : list string)
  (items : list A) : list string :=
  flat_map (fun item => heldWords words (textOf item)) items.

(** The keys that the topics raise in the tallies of the languages, of the
    frameworks and of the tools. *)
Definition languageTopics `{Runtime} (topics : list string) : list string :=
  flat_map
    (fun topic =>
       if namesLanguage topic
       then completion SpeakerDeckService.languageList (toLowerCase topic)
       else [])
    topics.

Definition frameworkTopics `{Runtime} (topics : list string) : list string :=
  flat_map
    (fun topic =>
       if namesLanguage topic then []
       else if namesWord SpeakerDeckService.frameworkList topic
       then completion SpeakerDeckService.frameworkList (toLowerCase topic)
       else [])
    topics.

Definition toolTopics `{Runtime} (topics : list string) : list string :=
  flat_map
    (fun topic =>
       if namesLanguage topic then []
       else if namesWord SpeakerDeckService.frameworkList topic then []
       else if namesWord SpeakerDeckService.toolList topic
       then completion SpeakerDeckService.toolList (toLowerCase topic)
       else [])
    topics.

Module Speaker.

(** The page of a user who has published nothing. *)
Definition emptyPage : SpeakerDeckService.Page :=
  {| SpeakerDeckService.cards := []; SpeakerDeckService.bioText := " " |}.

(** The page of a user with one talk. *)
Definition page : SpeakerDeckService.Page :=
  {| SpeakerDeckService.cards :=
       [ {| SpeakerDeckService.titleText := " Typed React at scale ";
            SpeakerDeckService.descriptionText := "How our team moved to TypeScript" |} ];
     SpeakerDeckService.bioText := "Engineer" |}.

Definition get (page : SpeakerDeckService.Page) (url : string)
  : Outcome SpeakerDeckService.Page :=
  if String.eqb url "https://speakerdeck.com/alice" then Returned page
  else Thrown "Error: Request failed with status code 404".

End Speaker.

Module SpeakerRuns.

(** What the analysis of [Speaker.page] is expected to be: the topic
    [react] raises the language [c]. *)
Definition analysis : PlatformAnalysis :=
  {| platform := SPEAKERDECK;
     url := "https://speakerdeck.com/alice";
     techStack :=
       {| pts_languages := Some [("typescript", 2%Z); ("c", 2%Z); ("r", 1%Z)];
          pts_frameworks := Some [("react", 1%Z)];
          pts_tools := Some [];
          pts_topics := Some ["typescript"; "react"] |};
     personality :=
       {| pp_interests := Some ["typescript"; "react"];
          pp_activities := Some ["Engineer"; "1件のプレゼンテーションを公開"];
          pp_communication :=
            Some {| c_style := Some "多様なトピックをバランスよく発表するスタイル";
                    c_frequency := Some (1 # 12)%Q;
                    c_topics := Some ["typescript"; "react"] |};
          pp_workStyle := Some "協調性を重視するスタイル" |} |}.

End SpeakerRuns.

(** ** Further notions: the blog *)

(** [x] is a tag of the page: the lowered text of an element that one of
    the tag selectors matches, of more than one character. *)
Definition blogTag `{Runtime} (doc : BlogService.Document) (x : string) : Prop :=
  exists selector element,
    In selector BlogService.tagSelectors /\ In element (doc selector)
    /\ x = toLowerCase (BlogService.textContent element)
    /\ x <> "" /\ (1 < jsLength x)%nat.

(** The lowered texts of the code blocks of the page. *)
Definition codeBlocksOf `{Runtime} (doc : BlogService.Document) : list string :=
  map (fun element => toLowerCase (BlogService.textContent element)) (doc "pre, code").

(** The languages that the test of a code block knows. *)
Definition codeLanguages : list string :=
  [ "javascript"; "typescript"; "python"; "java"; "ruby"; "go" ].

(** The keys that the code blocks raise in the tally of the languages. *)
Definition codeRaised `{Runtime} (doc : BlogService.Document) : list string :=
  flat_map (fun code => filter (fun lang => BlogService.codeLanguage code lang)
                               BlogService.languageList)
           (codeBlocksOf doc).

(** The labels of the work style of a blog. *)
Definition blogWorkStyles : list string :=
  [ "知識共有を重視する教育的なスタイル";
    "チームリーダーシップを重視するスタイル";
    "協調性を重視するスタイル";
    "技術的な深掘りを好む個人作業スタイル";
    "技術的な詳細にこだわるスタイル";
    "ビジョンや戦略を重視するスタイル";
    "教育や知識共有を重視するスタイル";
    "バランスの取れた仕事のスタイル" ].

(** ** A microblog timeline for examples *)

Module Timeline.

Definition tweet (text : option string) (day : Z) (tags mentioned : list string)
  : TwitterService.Tweet :=
  {| TwitterService.text := text;
     TwitterService.created_at := Some (day * 86400000)%Z;
     TwitterService.entities :=
       Some {| TwitterService.hashtags := Some tags;
               TwitterService.mentions := Some mentioned |};
     TwitterService.referenced_tweets := None |}.

Definition tweets : list TwitterService.Tweet :=
  [ tweet (Some "Shipping our React app on AWS with Docker and Kubernetes") 0
          ["React"; "AWS"; "Docker"; "K8s"; "DevOps"; "Cloud"] ["github"];
    tweet (Some "Python and Rust for data and security") 4
          ["Python"; "Rust"; "Data"; "Security"; "ML"; "AI"; "React"] [];
    tweet None 10 ["NoText"] [] ].

(** A client for one user with three tweets over ten days. *)
Definition client : TwitterService.Client :=
  {| TwitterService.userByUsername :=
       fun username =>
         Returned {| TwitterService.id := "42";
                     TwitterService.description := Some "Builds things";
                     TwitterService.followers_count := Some 120%Z |};
     TwitterService.userTimeline := fun _ => Returned (Some tweets) |}.

(** What the analysis of the timeline is expected to be: 13 topics, of which
    the first 5 are the communication topics, and 13 hashtags, of which the
    first 10 are the interests. *)
Definition analysis : PlatformAnalysis :=
  {| platform := TWITTER;
     url := "https://x.com/alice";
     techStack :=
       {| pts_languages := None; pts_frameworks := None; pts_tools := None;
          pts_topics :=
            Some ["react"; "aws"; "docker"; "kubernetes"; "devops"; "cloud"; "github";
                  "python"; "rust"; "data"; "security"; "ml"; "ai"] |};
     personality :=
       {| pp_interests :=
            Some ["react"; "aws"; "docker"; "k8s"; "devops"; "cloud"; "python"; "rust";
                  "data"; "security"];
          pp_activities := Some ["Builds things"];
          pp_communication :=
            Some {| c_style := Some "簡潔な発信を好むスタイル";
                    c_frequency := Some (259200000 # 864000000)%Q;
                    c_topics := Some ["react"; "aws"; "docker"; "kubernetes"; "devops"] |};
          pp_workStyle := None |} |}.

(** A request with the three profile URLs. *)
Definition profiles : AnalysisRequest :=
  {| github := Some "https://github.com/octocat";
     twitter := Some "https://x.com/alice";
     speakerdeck := Some "https://speakerdeck.com/alice";
     blog := None |}.

End Timeline.

(** * Properties *)

(** ** Order in a list *)

Lemma before_app_l {A : Type} (l l' : list A) a b :
  before l a b -> before (l ++ l') a b.
Proof.
  intros (l1 & l2 & l3 & ->).
  exists l1, l2, (l3 ++ l').
  now rewrite <- !app_assoc, <- !app_comm_cons, <- app_assoc.
Qed.

Lemma before_cons {A : Type} (l : list A) x a b :
  before l a b -> before (x :: l) a b.
Proof.
  intros (l1 & l2 & l3 & ->). now exists (x :: l1), l2, l3.
Qed.

Lemma before_head {A : Type} (l : list A) a b :
  In b l -> before (a :: l) a b.
Proof.
  intros Hb. apply in_split in Hb as (l2 & l3 & ->). now exists [], l2, l3.
Qed.

Lemma before_cons_inv {A : Type} (l : list A) x a b :
  before (x :: l) a b -> (x = a /\ In b l) \/ before l a b.
Proof.
  intros (l1 & l2 & l3 & E). destruct l1 as [|y l1]; simpl in E.
  - injection E as -> ->. left. split; [reflexivity|].
    apply in_or_app. right. now left.
  - injection E as -> ->. right. now exists l1, l2, l3.
Qed.

Lemma before_snoc_inv {A : Type} (l : list A) x a b :
  before (l ++ [x]) a b -> before l a b \/ (In a l /\ b = x).
Proof.
  induction l as [|y l IH]; simpl; intros H.
  - destruct H as (l1 & l2 & l3 & E).
    destruct l1 as [|z l1]; simpl in E.
    + injection E as _ E. destruct l2; discriminate.
    + injection E as _ E. destruct l1; discriminate.
  - apply before_cons_inv in H as [[-> Hb] | H].
    + apply in_app_or in Hb as [Hb | [-> | []]].
      * left. now apply before_head.
      * right. split; [now left | reflexivity].
    + apply IH in H as [H | [Ha ->]].
      * left. now apply before_cons.
      * right. split; [now right | reflexivity].
Qed.

Lemma before_In {A : Type} (l : list A) a b :
  before l a b -> In a l /\ In b l.
Proof.
  intros (l1 & l2 & l3 & ->). split; apply in_or_app; right.
  - now left.
  - right. apply in_or_app. right. now left.
Qed.

Lemma before_filter {A : Type} (p : A -> bool) (l : list A) a b :
  before l a b -> p a = true -> p b = true -> before (filter p l) a b.
Proof.
  intros (l1 & l2 & l3 & ->) Ha Hb.
  exists (filter p l1), (filter p l2), (filter p l3).
  rewrite filter_app. simpl. rewrite Ha, filter_app. simpl. now rewrite Hb.
Qed.

Lemma before_of_filter {A : Type} (p : A -> bool) (l : list A) a b :
  before (filter p l) a b -> before l a b.
Proof.
  induction l as [|x l IH]; simpl; intros H.
  - destruct H as (l1 & l2 & l3 & E). destruct l1; discriminate.
  - destruct (p x).
    + apply before_cons_inv in H as [[-> Hb] | H].
      * apply before_head. apply filter_In in Hb. tauto.
      * apply before_cons. auto.
    + apply before_cons. auto.
Qed.

Lemma before_map {A B : Type} (f : A -> B) (l : list A) a b :
  before l a b -> before (map f l) (f a) (f b).
Proof.
  intros (l1 & l2 & l3 & ->).
  exists (map f l1), (map f l2), (map f l3).
  now rewrite map_app; simpl; rewrite map_app.
Qed.

Lemma firstBefore_app (l l' : list string) a b :
  firstBefore l a b -> firstBefore (l ++ l') a b.
Proof.
  intros (l1 & l2 & -> & Ha & Hb & Hab & Hin).
  exists l1, (l2 ++ l'). rewrite <- app_assoc. simpl.
  repeat split; auto. apply in_or_app. now left.
Qed.

Lemma first_occurrence (l : list string) a :
  In a l -> exists l1 l2, l = l1 ++ a :: l2 /\ ~ In a l1.
Proof.
  induction l as [|x l IH]; simpl; [tauto|].
  intros H. destruct (string_dec x a) as [-> | Hxa].
  - exists [], l. split; [reflexivity | tauto].
  - destruct H as [H | H]; [contradiction|].
    destruct (IH H) as (l1 & l2 & -> & Hn).
    exists (x :: l1), l2. split; [reflexivity|].
    simpl. tauto.
Qed.

(** ** Sets in insertion order *)

Lemma has_true (s : list string) x : JsSet.has s x = true <-> In x s.
Proof.
  unfold JsSet.has. rewrite existsb_exists. split.
  - intros (y & Hy & E). apply String.eqb_eq in E. now subst.
  - intros H. exists x. split; [assumption | apply String.eqb_refl].
Qed.

Lemma has_false (s : list string) x : JsSet.has s x = false <-> ~ In x s.
Proof.
  rewrite <- has_true. destruct (JsSet.has s x); intuition congruence.
Qed.

Lemma add_In (s : list string) x y : In y (JsSet.add s x) <-> In y s \/ y = x.
Proof.
  unfold JsSet.add. destruct (JsSet.has s x) eqn:E.
  - apply has_true in E. split; [tauto | intros [H | ->]; assumption].
  - rewrite in_app_iff. simpl. intuition.
Qed.

Lemma add_NoDup (s : list string) x : NoDup s -> NoDup (JsSet.add s x).
Proof.
  intros H. unfold JsSet.add. destruct (JsSet.has s x) eqn:E; [assumption|].
  apply has_false in E.
  apply NoDup_rev in H. rewrite <- (rev_involutive (s ++ [x])).
  apply NoDup_rev. rewrite rev_app_distr. simpl. constructor; [|assumption].
  now rewrite <- in_rev.
Qed.

Lemma addAll_In (xs s : list string) y :
  In y (JsSet.addAll s xs) <-> In y s \/ In y xs.
Proof.
  unfold JsSet.addAll. revert s.
  induction xs as [|x xs IH]; simpl; intros s; [tauto|].
  rewrite IH, add_In. intuition.
Qed.

Lemma addAll_NoDup (xs s : list string) : NoDup s -> NoDup (JsSet.addAll s xs).
Proof.
  unfold JsSet.addAll. revert s.
  induction xs as [|x xs IH]; simpl; intros s H; [assumption|].
  apply IH. now apply add_NoDup.
Qed.

Lemma addAll_app (xs ys s : list string) :
  JsSet.addAll s (xs ++ ys) = JsSet.addAll (JsSet.addAll s xs) ys.
Proof. unfold JsSet.addAll. apply fold_left_app. Qed.

(** The members stand in the order in which they were first added. *)
Lemma addAll_before (xs : list string) a b :
  before (JsSet.addAll [] xs) a b -> firstBefore xs a b.
Proof.
  induction xs as [|x xs IH] using rev_ind.
  - intros (l1 & l2 & l3 & E). destruct l1; discriminate.
  - rewrite addAll_app. simpl. unfold JsSet.add.
    destruct (JsSet.has (JsSet.addAll [] xs) x) eqn:E; intros H.
    + apply firstBefore_app. auto.
    + apply before_snoc_inv in H as [H | [Ha ->]].
      * apply firstBefore_app. auto.
      * apply has_false in E.
        apply addAll_In in Ha as [[] | Ha].
        destruct (first_occurrence _ _ Ha) as (l1 & l2 & -> & Hn).
        assert (Hx : ~ In x (l1 ++ a :: l2)).
        { intros Hx. apply E. apply addAll_In. now right. }
        exists l1, (l2 ++ [x]). rewrite <- app_assoc. simpl.
        repeat split; auto.
        -- intros Hx'. apply Hx. apply in_or_app. now left.
        -- intros ->. apply Hx. apply in_or_app. right. now left.
        -- apply in_or_app. right. now left.
Qed.

(** ** Records *)

Lemma or0_spec (x : option Z) :
  or0 x = match x with Some n => n | None => 0%Z end.
Proof.
  destruct x as [n|]; simpl; [|reflexivity].
  destruct (Z.eqb_spec n 0); congruence.
Qed.

Lemma get_set_same {V : Type} (o : JsRecord V) k v :
  Obj.get (Obj.set o k v) k = Some v.
Proof.
  induction o as [|[k' v'] o IH]; simpl.
  - now rewrite String.eqb_refl.
  - destruct (String.eqb k' k) eqn:E; simpl; now rewrite E.
Qed.

Lemma get_set_other {V : Type} (o : JsRecord V) k k' v :
  k <> k' -> Obj.get (Obj.set o k v) k' = Obj.get o k'.
Proof.
  intros Hk. induction o as [|[k0 v0] o IH]; simpl.
  - apply String.eqb_neq in Hk. now rewrite Hk.
  - destruct (String.eqb k0 k) eqn:E; simpl.
    + apply String.eqb_eq in E. subst k0.
      apply String.eqb_neq in Hk. now rewrite Hk.
    + now rewrite IH.
Qed.

Lemma keys_set {V : Type} (o : JsRecord V) k v :
  Obj.keys (Obj.set o k v) = JsSet.add (Obj.keys o) k.
Proof.
  unfold JsSet.add, JsSet.has, Obj.keys.
  induction o as [|[k' v'] o IH]; simpl; [reflexivity|].
  rewrite (String.eqb_sym k k').
  destruct (String.eqb k' k); simpl; [reflexivity|].
  rewrite IH.
  now destruct (existsb (String.eqb k) (map fst o)).
Qed.


Lemma get_In {V : Type} (o : JsRecord V) k v :
  NoDup (Obj.keys o) -> (Obj.get o k = Some v <-> In (k, v) o).
Proof.
  induction o as [|[k' v'] o IH]; simpl; intros Hnd.
  - split; [discriminate | tauto].
  - inversion Hnd as [|? ? Hk Hnd']; subst.
    destruct (String.eqb_spec k' k).
    + subst k'. split.
      * intros [= ->]. now left.
      * intros [[= ->] | Hin]; [reflexivity|].
        exfalso. apply Hk. now apply (in_map fst) in Hin.
    + rewrite (IH Hnd'). split; [tauto|].
      intros [[= -> ->] | Hin]; [contradiction | assumption].
Qed.





(** ** Tallies *)


Lemma tally_absent es k : ~ In k (map fst es) -> tally es k = 0%Z.
Proof.
  induction es as [|e es IH]; simpl; intros H; [reflexivity|].
  destruct (String.eqb_spec (fst e) k); [tauto|]. apply IH. tauto.
Qed.

Lemma accumulate_app t es es' :
  accumulate t (es ++ es') = accumulate (accumulate t es) es'.
Proof. unfold accumulate. apply fold_left_app. Qed.

Lemma keys_accumulate es t :
  Obj.keys (accumulate t es) = JsSet.addAll (Obj.keys t) (map fst es).
Proof.
  unfold accumulate, JsSet.addAll. revert t.
  induction es as [|e es IH]; simpl; intros t; [reflexivity|].
  now rewrite IH, keys_set.
Qed.

Lemma get_accumulate es t k :
  Obj.get (accumulate t es) k =
  if JsSet.has (map fst es) k
  then Some (or0 (Obj.get t k) + tally es k)%Z
  else Obj.get t k.
Proof.
  unfold accumulate. revert t.
  induction es as [|[k' v] es IH]; intros t; [reflexivity|].
  cbn [fold_left map fst snd tally fold_right].
  rewrite IH. unfold JsSet.has. cbn [existsb].
  rewrite (String.eqb_sym k k').
  destruct (String.eqb_spec k' k) as [-> | Hk]; cbn [orb].
  - rewrite get_set_same. rewrite !or0_spec.
    destruct (existsb (String.eqb k) (map fst es)) eqn:E.
    + f_equal. fold (tally es k). lia.
    + f_equal. fold (tally es k).
      rewrite (tally_absent es k); [lia|]. now apply has_false.
  - rewrite get_set_other by assumption.
    reflexivity.
Qed.


(** ** The stable sort by descending score *)

Lemma insertSorted_perm {A : Type} (cmp : A -> A -> Z) x l :
  Permutation (insertSorted cmp x l) (x :: l).
Proof.
  induction l as [|y l IH]; simpl; [reflexivity|].
  destruct (cmp x y <=? 0)%Z; [reflexivity|].
  rewrite IH. apply perm_swap.
Qed.

Lemma Array_sort_perm {A : Type} (cmp : A -> A -> Z) l :
  Permutation (Array_sort cmp l) l.
Proof.
  induction l as [|x l IH]; simpl; [reflexivity|].
  rewrite insertSorted_perm. now constructor.
Qed.

Lemma insertSorted_sorted x l :
  StronglySorted scoreGe l -> StronglySorted scoreGe (insertSorted sortByScore x l).
Proof.
  induction l as [|y l IH]; simpl; intros H.
  - repeat constructor.
  - inversion H as [|? ? Hs Hall]; subst.
    unfold sortByScore at 1.
    destruct (Z.leb_spec (snd y - snd x) 0).
    + constructor; [assumption|].
      constructor; [unfold scoreGe; lia|].
      eapply Forall_impl; [|exact Hall].
      unfold scoreGe. intros; lia.
    + constructor; [auto|].
      eapply Permutation_Forall.
      * apply Permutation_sym, insertSorted_perm.
      * constructor; [unfold scoreGe; lia | assumption].
Qed.

Lemma Array_sort_sorted l : StronglySorted scoreGe (Array_sort sortByScore l).
Proof.
  induction l as [|x l IH]; simpl; [constructor|].
  now apply insertSorted_sorted.
Qed.

(** Stability: the entries of one score keep their order. *)
Lemma insertSorted_stable v x l :
  filter (fun e => (snd e =? v)%Z) (insertSorted sortByScore x l) =
  filter (fun e => (snd e =? v)%Z) (x :: l).
Proof.
  induction l as [|y l IH]; [reflexivity|].
  cbn [insertSorted]. unfold sortByScore at 1.
  destruct (Z.leb_spec (snd y - snd x) 0); [reflexivity|].
  cbn [filter] in *. rewrite IH.
  destruct (Z.eqb_spec (snd x) v), (Z.eqb_spec (snd y) v); try reflexivity.
  lia.
Qed.

Lemma Array_sort_stable v l :
  filter (fun e => (snd e =? v)%Z) (Array_sort sortByScore l) =
  filter (fun e => (snd e =? v)%Z) l.
Proof.
  induction l as [|x l IH]; [reflexivity|].
  cbn [Array_sort fold_right]. fold (Array_sort sortByScore l).
  rewrite insertSorted_stable. cbn [filter]. now rewrite IH.
Qed.

Lemma Array_sort_before l a b :
  before (Array_sort sortByScore l) a b -> snd a = snd b -> before l a b.
Proof.
  intros H E.
  apply (before_of_filter (fun e => (snd e =? snd a)%Z)).
  rewrite <- Array_sort_stable.
  apply before_filter; [assumption | apply Z.eqb_refl | rewrite <- E; apply Z.eqb_refl].
Qed.

Lemma sorted_keys_NoDup (o : JsRecord Z) :
  NoDup (Obj.keys o) -> NoDup (map fst (Array_sort sortByScore o)).
Proof.
  intros H. eapply Permutation_NoDup; [|exact H].
  apply Permutation_map, Permutation_sym, Array_sort_perm.
Qed.

(** ** The property order *)
















(** Two keys of a record of unique keys, standing in order, are two entries
    standing in that order. *)
Lemma before_keys (o : JsRecord Z) k1 k2 :
  before (Obj.keys o) k1 k2 ->
  exists v1 v2, before o (k1, v1) (k2, v2).
Proof.
  unfold Obj.keys. intros (l1 & l2 & l3 & E).
  apply map_eq_app in E as (o1 & o' & -> & <- & E).
  destruct o' as [|[k1' v1] o']; [discriminate|]. simpl in E.
  injection E as -> E.
  apply map_eq_app in E as (o2 & o'' & -> & <- & E).
  destruct o'' as [|[k2' v2] o3]; [discriminate|]. simpl in E.
  injection E as -> <-.
  exists v1, v2, o1, o2, o3. reflexivity.
Qed.

(** ** C1: mergeTechStacks *)










(** C1.  The order that the claim gives fails for a key that is an array
    index.  The tally [{2048: 1, go: 5}] of one platform is merged to a
    record with the sums of the claim, but it lists [2048], of score 1,
    before [go], of score 5: the sorted entries are put back into a plain
    object, which lists its array indices first.  With the key [v2048] in the
    place of [2048] the entries stand in descending order of score. *)
Theorem mergeTechStacks_lists_array_index_first :
  Obj.entries
    (ts_languages
       (mergeTechStacks
          [Example.reporting GITHUB [("2048", 1%Z); ("go", 5%Z)] None]))
  = [("2048", 1%Z); ("go", 5%Z)]
  /\ Obj.entries
       (ts_languages
          (mergeTechStacks
             [Example.reporting GITHUB [("v2048", 1%Z); ("go", 5%Z)] None]))
     = [("go", 5%Z); ("v2048", 1%Z)].
Proof. split; reflexivity. Qed.

(** ** mergePersonalities: what the loop collects *)

Lemma truthy_true s : truthy s = true <-> s <> "".
Proof.
  unfold truthy. destruct (String.eqb_spec s ""); simpl; split; congruence.
Qed.

Lemma labelsOf_truthy label analyses :
  Forall (fun s => truthy s = true) (labelsOf label analyses).
Proof.
  apply Forall_forall. intros s H. unfold labelsOf in H.
  apply in_flat_map in H as (a & _ & H).
  destruct (label a) as [v|]; [|contradiction].
  destruct (truthy v) eqn:E; [|contradiction].
  destruct H as [<- | []]. exact E.
Qed.


Lemma fold_styles analyses acc :
  acc_communicationStyles (fold_left personalityStep analyses acc) =
  acc_communicationStyles acc ++ labelsOf commStyle analyses.
Proof.
  revert acc. induction analyses as [|a analyses IH]; intros acc.
  - cbn. now rewrite app_nil_r.
  - cbn [fold_left labelsOf flat_map]. rewrite IH. cbn. unfold pushTruthy.
    fold (labelsOf commStyle analyses).
    destruct (commStyle a) as [v|]; [|reflexivity].
    destruct (truthy v); [|reflexivity].
    now rewrite <- app_assoc.
Qed.

Lemma fold_workStyles analyses acc :
  acc_workStyles (fold_left personalityStep analyses acc) =
  acc_workStyles acc ++ labelsOf workStyleOf analyses.
Proof.
  revert acc. induction analyses as [|a analyses IH]; intros acc.
  - cbn. now rewrite app_nil_r.
  - cbn [fold_left labelsOf flat_map]. rewrite IH. cbn. unfold pushTruthy, workStyleOf.
    fold (labelsOf workStyleOf analyses).
    destruct (pp_workStyle (personality a)) as [v|]; [|reflexivity].
    destruct (truthy v); [|reflexivity].
    now rewrite <- app_assoc.
Qed.

Lemma Qsum_app l l' : (Qsum (l ++ l') == Qsum l + Qsum l')%Q.
Proof.
  induction l as [|x l IH]; cbn.
  - now rewrite Qplus_0_l.
  - fold (Qsum (l ++ l')). fold (Qsum l). rewrite IH. apply Qplus_assoc.
Qed.

Lemma fold_frequency analyses acc :
  (acc_communicationFrequency (fold_left personalityStep analyses acc) ==
   acc_communicationFrequency acc + Qsum (reportedFrequencies analyses))%Q.
Proof.
  revert acc. induction analyses as [|a analyses IH]; intros acc.
  - cbn. now rewrite Qplus_0_r.
  - cbn [fold_left reportedFrequencies flat_map]. rewrite IH.
    fold (reportedFrequencies analyses). rewrite Qsum_app. cbn.
    unfold addTruthy.
    destruct (commFrequency a) as [v|]; cbn.
    + destruct (Qeq_bool v 0); cbn.
      * now rewrite Qplus_0_l.
      * rewrite Qplus_0_r. now rewrite Qplus_assoc.
    + now rewrite Qplus_0_l.
Qed.

Lemma mergePersonalities_style analyses :
  c_style (p_communication (mergePersonalities analyses)) =
  Some (summarizeCommunicationStyle (labelsOf commStyle analyses)).
Proof. unfold mergePersonalities. cbn. now rewrite fold_styles. Qed.

Lemma mergePersonalities_workStyle analyses :
  p_workStyle (mergePersonalities analyses) = dominant (labelsOf workStyleOf analyses).
Proof. unfold mergePersonalities. cbn. now rewrite fold_workStyles. Qed.

(** ** C4: the merged frequency *)

(** C4.  For every non-empty list of platform analyses, the merged
    communication frequency is the sum of the frequencies that are present
    and not zero, divided by the number of all the platform analyses; with
    two analyses, one of frequency 10 and one of frequency 0 or none, it
    is 5. *)
Theorem mergePersonalities_frequency_divides_by_platform_count
  (analyses : list PlatformAnalysis) :
  analyses <> [] ->
  exists q,
    c_frequency (p_communication (mergePersonalities analyses)) = Some q
    /\ (q == Qsum (reportedFrequencies analyses)
             / inject_Z (Z.of_nat (List.length analyses)))%Q
    /\ (forall a b fa,
          analyses = [a; b] ->
          commFrequency a = Some fa -> (fa == 10)%Q ->
          match commFrequency b with Some fb => (fb == 0)%Q | None => True end ->
          (q == 5)%Q).
Proof.
  intros Hne. unfold mergePersonalities. cbn.
  destruct analyses as [|a0 rest]; [contradiction|].
  cbn [List.length Nat.ltb Nat.leb].
  eexists. split; [reflexivity|].
  assert (Hq : (acc_communicationFrequency
                  (fold_left personalityStep (a0 :: rest)
                     {| acc_interestsSet := []; acc_activitiesSet := [];
                        acc_communicationTopicsSet := []; acc_communicationStyles := [];
                        acc_communicationFrequency := 0; acc_workStyles := [] |})
                == Qsum (reportedFrequencies (a0 :: rest)))%Q).
  { rewrite fold_frequency. cbn [acc_communicationFrequency]. apply Qplus_0_l. }
  split.
  - now rewrite Hq.
  - intros a b fa [= -> ->] Ha Hfa Hb. rewrite Hq.
    cbn [reportedFrequencies flat_map]. rewrite Ha.
    assert (Ez : Qeq_bool fa 0 = false).
    { destruct (Qeq_bool fa 0) eqn:E; [|reflexivity].
      apply Qeq_bool_eq in E. rewrite Hfa in E. discriminate. }
    rewrite Ez.
    assert (Eb : match commFrequency b with
                 | Some f => if Qeq_bool f 0 then [] else [f]
                 | None => []
                 end = []).
    { destruct (commFrequency b) as [fb|]; [|reflexivity].
      now rewrite (Qeq_eq_bool _ _ Hb). }
    rewrite Eb. cbn. rewrite Hfa. reflexivity.
Qed.

(** ** Counting labels *)

Lemma fold_increment labels counts :
  fold_left increment labels counts = accumulate counts (ones labels).
Proof.
  unfold accumulate, ones. revert counts.
  induction labels as [|s labels IH]; intros counts; [reflexivity|].
  cbn [fold_left map]. now rewrite IH.
Qed.

Lemma keys_ones labels : map fst (ones labels) = labels.
Proof.
  unfold ones. rewrite map_map. cbn. apply map_id.
Qed.

Lemma tally_ones labels l :
  tally (ones labels) l = Z.of_nat (count_occ string_dec labels l).
Proof.
  induction labels as [|s labels IH]; [reflexivity|].
  cbn [ones map tally fold_right fst snd count_occ].
  fold (ones labels). fold (tally (ones labels) l). rewrite IH.
  destruct (String.eqb_spec s l), (string_dec s l); try contradiction; lia.
Qed.

(** The counts of the labels, and the keys in the order of first
    occurrence. *)
Lemma get_counts labels l :
  Obj.get (fold_left increment labels []) l =
  if JsSet.has labels l then Some (Z.of_nat (count_occ string_dec labels l)) else None.
Proof.
  rewrite fold_increment, get_accumulate, keys_ones, tally_ones. cbn.
  now destruct (JsSet.has labels l).
Qed.

Lemma keys_counts labels :
  Obj.keys (fold_left increment labels []) = JsSet.addAll [] labels.
Proof. now rewrite fold_increment, keys_accumulate, keys_ones. Qed.

Lemma counts_NoDup labels : NoDup (Obj.keys (fold_left increment labels [])).
Proof. rewrite keys_counts. apply addAll_NoDup. constructor. Qed.

Lemma ranked_In labels l : In l (ranked labels) <-> In l labels.
Proof.
  unfold ranked, Obj.entries. split; intros H.
  - eapply Permutation_in in H;
      [|apply Permutation_map, Array_sort_perm].
    fold (Obj.keys (fold_left increment labels [])) in H.
    rewrite keys_counts in H. apply addAll_In in H as [[] | H]. exact H.
  - eapply Permutation_in;
      [apply Permutation_map, Permutation_sym, Array_sort_perm|].
    fold (Obj.keys (fold_left increment labels [])).
    rewrite keys_counts. apply addAll_In. now right.
Qed.

Lemma ranked_NoDup labels : NoDup (ranked labels).
Proof. apply sorted_keys_NoDup, counts_NoDup. Qed.

(** An entry of the sorted counts holds the number of occurrences of its
    key. *)
Lemma sorted_counts_entry labels l c :
  In (l, c) (Array_sort sortByScore (fold_left increment labels [])) ->
  In l labels /\ c = Z.of_nat (count_occ string_dec labels l).
Proof.
  intros H.
  eapply Permutation_in in H; [|apply Array_sort_perm].
  apply get_In in H; [|apply counts_NoDup].
  rewrite get_counts in H.
  destruct (JsSet.has labels l) eqn:E; [|discriminate].
  apply has_true in E. split; [assumption | congruence].
Qed.

Lemma sorted_counts_has labels l :
  In l labels ->
  In (l, Z.of_nat (count_occ string_dec labels l))
     (Array_sort sortByScore (fold_left increment labels [])).
Proof.
  intros H.
  eapply Permutation_in; [apply Permutation_sym, Array_sort_perm|].
  apply get_In; [apply counts_NoDup|].
  rewrite get_counts. apply has_true in H. now rewrite H.
Qed.

Lemma sorted_suffix {A : Type} (R : A -> A -> Prop) (l1 l2 : list A) :
  StronglySorted R (l1 ++ l2) -> StronglySorted R l2.
Proof.
  induction l1 as [|x l1 IH]; simpl; intros H; [assumption|].
  apply IH. now apply StronglySorted_inv in H.
Qed.

(** In the ranking, a key stands before every key of a smaller count, and
    before a key of the same count only if it occurs first. *)
Lemma ranked_order labels k1 k2 :
  before (ranked labels) k1 k2 ->
  (count_occ string_dec labels k2 <= count_occ string_dec labels k1)%nat
  /\ (count_occ string_dec labels k2 = count_occ string_dec labels k1 ->
      firstBefore labels k1 k2).
Proof.
  unfold ranked, Obj.entries. intros H.
  apply before_keys in H as (v1 & v2 & Hb).
  destruct (before_In _ _ _ Hb) as [H1 H2].
  apply sorted_counts_entry in H1 as [_ ->], H2 as [_ ->].
  split.
  - pose proof (Array_sort_sorted (fold_left increment labels [])) as Hs.
    destruct Hb as (l1 & l2 & l3 & E). rewrite E in Hs.
    apply sorted_suffix in Hs. apply StronglySorted_inv in Hs as [_ Hall].
    rewrite Forall_forall in Hall.
    specialize (Hall (k2, Z.of_nat (count_occ string_dec labels k2))).
    unfold scoreGe in Hall. cbn in Hall.
    assert (In (k2, Z.of_nat (count_occ string_dec labels k2))
               (l2 ++ (k2, Z.of_nat (count_occ string_dec labels k2)) :: l3))
      by (apply in_or_app; right; now left).
    specialize (Hall H). lia.
  - intros E. apply Array_sort_before in Hb; [|cbn; now rewrite E].
    apply (before_map fst) in Hb. cbn [fst] in Hb.
    fold (Obj.keys (fold_left increment labels [])) in Hb.
    rewrite keys_counts in Hb. now apply addAll_before.
Qed.





(** ** C6: the merged work style *)




(** ** summarizeCommunicationStyle: the keywords and their counts *)

Lemma keywordPatterns_NoDup : NoDup (map snd keywordPatterns).
Proof.
  cbn. repeat constructor; cbn; intuition discriminate.
Qed.

Lemma countKeywords_increment style kw :
  countKeywords kw style = fold_left increment (keywordsOf keywordPatterns style) kw.
Proof.
  unfold countKeywords, keywordsOf. revert kw.
  induction keywordPatterns as [|pk pats IH]; intros kw; [reflexivity|].
  cbn [fold_left filter]. rewrite IH.
  now destruct (test (fst pk) style).
Qed.

Lemma fold_countKeywords styles kw :
  fold_left countKeywords styles kw =
  fold_left increment (flat_map (keywordsOf keywordPatterns) styles) kw.
Proof.
  revert kw. induction styles as [|s styles IH]; intros kw; [reflexivity|].
  cbn [fold_left flat_map]. now rewrite fold_left_app, IH, countKeywords_increment.
Qed.

Lemma keywordsOf_In pats style k :
  In k (keywordsOf pats style) -> exists p, In (p, k) pats /\ test p style = true.
Proof.
  unfold keywordsOf. intros H.
  apply in_map_iff in H as ([p k'] & <- & H). apply filter_In in H as [H T].
  now exists p.
Qed.

Lemma keywordsOf_count pats style p k :
  NoDup (map snd pats) -> In (p, k) pats ->
  count_occ string_dec (keywordsOf pats style) k = if test p style then 1%nat else 0%nat.
Proof.
  unfold keywordsOf.
  induction pats as [|[p' k'] pats IH]; cbn [map filter fst snd In]; intros Hnd Hin;
    [contradiction|].
  apply NoDup_cons_iff in Hnd as [Hk Hnd].
  destruct Hin as [[= -> ->] | Hin].
  - assert (Hz : count_occ string_dec
                   (map snd (filter (fun pk => test (fst pk) style) pats)) k = 0%nat).
    { apply count_occ_not_In. intros H.
      apply in_map_iff in H as ([p0 k0] & E & H). cbn in E. subst k0.
      apply filter_In in H as [H _]. apply Hk. now apply (in_map snd) in H. }
    destruct (test p style); cbn [map snd count_occ]; [|exact Hz].
    destruct (string_dec k k); [|contradiction]. now rewrite Hz.
  - assert (Hne : k' <> k).
    { intros ->. apply Hk. now apply (in_map snd) in Hin. }
    destruct (test p' style); cbn [map snd count_occ].
    + destruct (string_dec k' k); [contradiction|]. now apply IH.
    + now apply IH.
Qed.

Lemma keywordEvents_count styles p k :
  In (p, k) keywordPatterns ->
  count_occ string_dec (keywordEvents styles) k = matchCount p styles.
Proof.
  intros Hin. unfold keywordEvents, matchCount.
  induction styles as [|s styles IH]; [reflexivity|].
  cbn [flat_map filter]. rewrite count_occ_app, IH.
  rewrite (keywordsOf_count _ s p k keywordPatterns_NoDup Hin).
  now destruct (test p s).
Qed.

Lemma keywordEvents_In styles k :
  In k (keywordEvents styles) <->
  exists p, In (p, k) (matched styles).
Proof.
  split.
  - intros H.
    assert (Hp : exists p, In (p, k) keywordPatterns).
    { apply in_flat_map in H as (s & _ & H).
      apply keywordsOf_In in H as (p & H & _). now exists p. }
    destruct Hp as (p & Hp). exists p. apply filter_In. split; [assumption|].
    cbn [fst]. rewrite <- (keywordEvents_count styles p k Hp).
    apply Nat.ltb_lt. now apply (count_occ_In string_dec).
  - intros (p & H). apply filter_In in H as [Hp Hc]. cbn [fst] in Hc.
    apply Nat.ltb_lt in Hc. rewrite <- (keywordEvents_count styles p k Hp) in Hc.
    now apply (count_occ_In string_dec) in Hc.
Qed.

Lemma matched_keys_NoDup styles : NoDup (map snd (matched styles)).
Proof.
  unfold matched. generalize keywordPatterns_NoDup.
  induction keywordPatterns as [|pk pats IH]; cbn [map filter]; intros H; [constructor|].
  apply NoDup_cons_iff in H as [Hk Hnd].
  destruct (0 <? matchCount (fst pk) styles)%nat; [|now apply IH].
  cbn [map]. constructor; [|now apply IH].
  intros Hin. apply Hk.
  apply in_map_iff in Hin as (pk' & E & Hin). apply filter_In in Hin as [Hin _].
  rewrite <- E. now apply in_map.
Qed.

(** The sorted keywords are the keywords of the matched categories, in some
    order. *)
Lemma sortedKeywords_matched styles :
  Permutation (ranked (keywordEvents styles)) (map snd (matched styles)).
Proof.
  apply NoDup_Permutation.
  - apply ranked_NoDup.
  - apply matched_keys_NoDup.
  - intros k. rewrite ranked_In, keywordEvents_In. split.
    + intros (p & H). now apply (in_map snd) in H.
    + intros H. apply in_map_iff in H as ([p k'] & <- & H). now exists p.
Qed.

Lemma summarize_ranked first second rest :
  summarizeCommunicationStyle (first :: second :: rest) =
  match ranked (keywordEvents (first :: second :: rest)) with
  | [] => first
  | k0 :: k1 :: _ => (k0 ++ "かつ" ++ k1 ++ "なコミュニケーションスタイル")%string
  | [k0] => (k0 ++ "なコミュニケーションスタイル")%string
  end.
Proof.
  unfold summarizeCommunicationStyle, ranked, keywordEvents.
  now rewrite fold_countKeywords.
Qed.

Lemma pattern_of_keyword p p' k :
  In (p, k) keywordPatterns -> In (p', k) keywordPatterns -> p = p'.
Proof.
  generalize keywordPatterns_NoDup.
  induction keywordPatterns as [|[q j] pats IH]; cbn [map snd In]; intros Hnd H H';
    [contradiction|].
  apply NoDup_cons_iff in Hnd as [Hk Hnd].
  destruct H as [H | H], H' as [H' | H'].
  - congruence.
  - injection H as -> ->. exfalso. apply Hk. now apply (in_map snd) in H'.
  - injection H' as -> ->. exfalso. apply Hk. now apply (in_map snd) in H.
  - now apply IH.
Qed.

(** A keyword that stands before another in the ranking matches at least as
    many style strings. *)
Lemma ranked_keywords_order styles k k' p p' :
  In (p, k) keywordPatterns -> In (p', k') keywordPatterns ->
  before (ranked (keywordEvents styles)) k k' ->
  (matchCount p' styles <= matchCount p styles)%nat.
Proof.
  intros Hp Hp' Hb.
  rewrite <- (keywordEvents_count styles p k Hp), <- (keywordEvents_count styles p' k' Hp').
  now apply ranked_order.
Qed.

(** A category that does not match has no more matches than any other. *)
Lemma unmatched_count styles p k :
  In (p, k) keywordPatterns -> ~ In k (ranked (keywordEvents styles)) ->
  matchCount p styles = 0%nat.
Proof.
  intros Hp Hn. rewrite <- (keywordEvents_count styles p k Hp).
  apply count_occ_not_In. intros H. apply Hn. now apply ranked_In.
Qed.

(** ** C5: the merged communication style *)

(** C5.  For every list of style strings: the empty list gives the label of
    insufficient information; a list of one string gives that string; a list
    of two or more gives, when no category matches any string, its first
    string, when exactly one category matches, the label made of that
    category's keyword, and otherwise the label made of the keywords of two
    categories, the first with the largest number of matched strings of all
    the categories and the second with the largest number among the
    others. *)
Theorem summarizeCommunicationStyle_by_length_and_keywords (styles : list string) :
  match styles with
  | [] => summarizeCommunicationStyle styles = insufficient
  | [only] => summarizeCommunicationStyle styles = only
  | first :: _ :: _ =>
      match matched styles with
      | [] => summarizeCommunicationStyle styles = first
      | [(_, k)] =>
          summarizeCommunicationStyle styles = (k ++ "なコミュニケーションスタイル")%string
      | _ :: _ :: _ =>
          exists p0 k0 p1 k1,
            In (p0, k0) (matched styles) /\ In (p1, k1) (matched styles) /\ k0 <> k1
            /\ (forall p k, In (p, k) keywordPatterns ->
                            (matchCount p styles <= matchCount p0 styles)%nat)
            /\ (forall p k, In (p, k) keywordPatterns -> k <> k0 ->
                            (matchCount p styles <= matchCount p1 styles)%nat)
            /\ summarizeCommunicationStyle styles =
               (k0 ++ "かつ" ++ k1 ++ "なコミュニケーションスタイル")%string
      end
  end.
Proof.
  destruct styles as [|first [|second rest]]; [reflexivity | reflexivity |].
  rewrite summarize_ranked.
  set (styles := first :: second :: rest).
  pose proof (sortedKeywords_matched styles) as HP.
  pose proof (ranked_NoDup (keywordEvents styles)) as Hnd.
  destruct (matched styles) as [|[p k] [|m2 ms]] eqn:Em.
  - apply Permutation_sym, Permutation_nil in HP. now rewrite HP.
  - apply Permutation_sym, Permutation_length_1_inv in HP. now rewrite HP.
  - rewrite <- Em.
    destruct (ranked (keywordEvents styles)) as [|k0 [|k1 r]] eqn:Er.
    + apply Permutation_nil in HP. discriminate.
    + apply Permutation_length in HP. discriminate.
    + assert (H0 : In k0 (ranked (keywordEvents styles))) by (rewrite Er; now left).
      assert (H1 : In k1 (ranked (keywordEvents styles)))
        by (rewrite Er; right; now left).
      apply ranked_In, keywordEvents_In in H0 as (p0 & H0), H1 as (p1 & H1).
      assert (P0 : In (p0, k0) keywordPatterns) by (apply filter_In in H0; tauto).
      assert (P1 : In (p1, k1) keywordPatterns) by (apply filter_In in H1; tauto).
      exists p0, k0, p1, k1.
      apply NoDup_cons_iff in Hnd as [Hk0 Hnd].
      apply NoDup_cons_iff in Hnd as [Hk1 Hnd].
      split; [assumption|]. split; [assumption|]. split.
      { intros ->. apply Hk0. now left. }
      split; [|split; [|reflexivity]].
      * intros q j Hq. destruct (string_dec j k0) as [-> | Hj].
        { now rewrite (pattern_of_keyword _ _ _ Hq P0). }
        destruct (in_dec string_dec j (ranked (keywordEvents styles))) as [Hin | Hout].
        -- apply (ranked_keywords_order styles k0 j p0 q P0 Hq).
           rewrite Er. apply before_head.
           rewrite Er in Hin. destruct Hin as [-> | Hin]; [contradiction | assumption].
        -- rewrite (unmatched_count styles q j Hq Hout). apply Nat.le_0_l.
      * intros q j Hq Hj0. destruct (string_dec j k1) as [-> | Hj].
        { now rewrite (pattern_of_keyword _ _ _ Hq P1). }
        destruct (in_dec string_dec j (ranked (keywordEvents styles))) as [Hin | Hout].
        -- apply (ranked_keywords_order styles k1 j p1 q P1 Hq).
           rewrite Er. apply before_cons, before_head.
           rewrite Er in Hin.
           destruct Hin as [-> | [-> | Hin]]; [contradiction | contradiction | assumption].
        -- rewrite (unmatched_count styles q j Hq Hout). apply Nat.le_0_l.
Qed.

(** ** C10: what the merged personality always holds *)

Lemma append_not_empty (a b : string) : b <> "" -> (a ++ b)%string <> "".
Proof.
  intros Hb H. destruct a; cbn in H; [contradiction | discriminate].
Qed.

Lemma summarize_not_empty styles :
  Forall (fun s => truthy s = true) styles ->
  summarizeCommunicationStyle styles <> "".
Proof.
  intros Ht. destruct styles as [|first [|second rest]].
  - discriminate.
  - apply Forall_inv in Ht. now apply truthy_true.
  - rewrite summarize_ranked.
    destruct (ranked (keywordEvents (first :: second :: rest))) as [|k0 [|k1 r]].
    + apply Forall_inv in Ht. now apply truthy_true.
    + apply append_not_empty. discriminate.
    + apply append_not_empty, append_not_empty, append_not_empty. discriminate.
Qed.



(** ** C2: a failing extractor does not fail the analysis *)

Lemma attempt_spec service p field st :
  attempt service p field st =
  (fst st ++ requested p field, snd st ++ contribution service field).
Proof.
  unfold attempt, requested, contribution.
  destruct field as [u|]; [|now rewrite !app_nil_r; destruct st].
  destruct (truthy u); [|now rewrite !app_nil_r; destruct st].
  destruct (service u); [reflexivity | now rewrite app_nil_r].
Qed.

Lemma contribution_In service field a :
  In a (contribution service field) <-> returnedBy service field a.
Proof.
  unfold contribution, returnedBy. split.
  - destruct field as [u|]; [|contradiction].
    destruct (truthy u) eqn:E; [|contradiction].
    destruct (service u) as [v|] eqn:Es; [|contradiction].
    intros [<- | []]. exists u. apply truthy_true in E. auto.
  - intros (u & -> & Hu & Hs). apply truthy_true in Hu. rewrite Hu, Hs. now left.
Qed.

Lemma analyze_spec `{Runtime} services request :
  analyze services request =
  (requested GITHUB (github request) ++ requested TWITTER (twitter request)
   ++ requested SPEAKERDECK (speakerdeck request) ++ requested BLOG (blog request),
   Returned
     {| ar_platforms := succeeded services request;
        ar_techStack := mergeTechStacks (succeeded services request);
        ar_personality := mergePersonalities (succeeded services request);
        ar_summary :=
          generateSummary (succeeded services request)
            (mergeTechStacks (succeeded services request))
            (mergePersonalities (succeeded services request)) |}).
Proof.
  unfold analyze, succeeded. rewrite !attempt_spec. cbn [fst snd app].
  now rewrite <- !app_assoc.
Qed.

(** C2.  For every request and whatever the services do, the analysis
    returns a result and throws nothing; the platforms of the result are
    those whose service was asked and returned, so a platform whose service
    threw is left out; and when no service returned, the result is the empty
    aggregate with its summary. *)
Theorem analyze_survives_failing_extractors `{Runtime}
  (services : Services) (request : AnalysisRequest) :
  exists result,
    snd (analyze services request) = Returned result
    /\ ar_platforms result = succeeded services request
    /\ (forall a, In a (ar_platforms result) <->
                  returnedBy (githubService services) (github request) a
                  \/ returnedBy (twitterService services) (twitter request) a
                  \/ returnedBy (speakerDeckService services) (speakerdeck request) a
                  \/ returnedBy (blogService services) (blog request) a)
    /\ (succeeded services request = [] ->
        ar_platforms result = []
        /\ ar_techStack result = emptyTechStack
        /\ ar_personality result = emptyPersonality
        /\ ar_summary result = emptySummary).
Proof.
  rewrite analyze_spec. cbn [snd]. eexists. split; [reflexivity|].
  cbn [ar_platforms ar_techStack ar_personality ar_summary].
  split; [reflexivity|]. split.
  - intros a. unfold succeeded. rewrite !in_app_iff, !contribution_In. tauto.
  - intros ->. repeat split.
Qed.

(** ** C3: the validation of the URLs of a tool call *)

Lemma requested_In p field c :
  In c (requested p field) <-> exists u, field = Some u /\ u <> "" /\ c = Analyze p u.
Proof.
  unfold requested. split.
  - destruct field as [u|]; [|contradiction].
    destruct (truthy u) eqn:E; [|contradiction].
    intros [<- | []]. exists u. apply truthy_true in E. auto.
  - intros (u & -> & Hu & ->). apply truthy_true in Hu. rewrite Hu. now left.
Qed.

(** X31.  For every call of the tool: a code-host, microblog or slide-deck
    URL that is given and does not match its pattern makes the handler throw
    an invalid-parameters error before it calls any service and before it
    touches the cache.  The handler has no pattern for the blog URL: when
    the profile URLs pass and the request is not cached, it hands the blog
    URL as given to the blog service, and answers with a text. *)
Theorem handler_validates_profile_urls `{Runtime}
  (services : Services) (cache : JsRecord string) (args : AnalysisRequest) :
  (malformedProfile args = true ->
   calls (handler services cache "how-person" args) = []
   /\ analysisCache (handler services cache "how-person" args) = cache
   /\ exists message,
        response (handler services cache "how-person" args)
        = McpError InvalidParams message)
  /\ (forall u,
        malformedProfile args = false ->
        blog args = Some u -> u <> "" ->
        Obj.get cache (JSON_stringify args) = None ->
        In (Analyze BLOG u) (calls (handler services cache "how-person" args))
        /\ exists text, response (handler services cache "how-person" args) = Content text).
Proof.
  unfold malformedProfile, handler. cbn [String.eqb Ascii.eqb Bool.eqb].
  split.
  - intros Hm.
    destruct (negb (present (github args)) && negb (present (twitter args))
              && negb (present (speakerdeck args)) && negb (present (blog args)));
      [cbn; eauto|].
    destruct (malformed githubPattern (github args)); [cbn; eauto|].
    destruct (malformed twitterPattern (twitter args)); [cbn; eauto|].
    destruct (malformed speakerdeckPattern (speakerdeck args)); [cbn; eauto|].
    discriminate.
  - intros u Hm Hb Hu Hc.
    apply orb_false_iff in Hm as [Hm Hs]. apply orb_false_iff in Hm as [Hg Ht].
    rewrite Hg, Ht, Hs, Hc.
    assert (Hp : present (blog args) = true).
    { rewrite Hb. cbn. now apply truthy_true. }
    rewrite Hp, !andb_false_r. rewrite analyze_spec. cbn [calls response].
    split; [|eauto].
    rewrite !in_app_iff. do 3 right. apply requested_In. now exists u.
Qed.

(** A code-host URL with a repository path is refused before any call, and
    a blog URL alone is handed to the blog service. *)
Lemma handler_validates_profile_urls_witness :
  (calls (@handler Example.runtime Example.offline [] "how-person"
            (Example.request (Some "https://github.com/octocat/hello") None None None))
   = []
   /\ analysisCache
        (@handler Example.runtime Example.offline [] "how-person"
           (Example.request (Some "https://github.com/octocat/hello") None None None))
      = []
   /\ exists message,
        response
          (@handler Example.runtime Example.offline [] "how-person"
             (Example.request (Some "https://github.com/octocat/hello") None None None))
        = McpError InvalidParams message)
  /\ (In (Analyze BLOG "https://blog.example.com/")
         (calls (@handler Example.runtime Example.offline [] "how-person"
                   (Example.request None None None (Some "https://blog.example.com/"))))
      /\ exists text,
           response
             (@handler Example.runtime Example.offline [] "how-person"
                (Example.request None None None (Some "https://blog.example.com/")))
           = Content text).
Proof.
  split.
  - apply (proj1 (@handler_validates_profile_urls Example.runtime Example.offline []
                    (Example.request (Some "https://github.com/octocat/hello")
                                     None None None))).
    reflexivity.
  - apply (proj2 (@handler_validates_profile_urls Example.runtime Example.offline []
                    (Example.request None None None (Some "https://blog.example.com/")))
                 "https://blog.example.com/");
      [reflexivity | reflexivity | discriminate | reflexivity].
Defined.

(** C3.  The claim fails for the blog URL.  Given as code-host URL, the
    string [not a url] makes the handler throw an invalid-parameters error
    without any call of a service; given as blog URL, the same string is
    handed to the blog service, whose [extractDomain] refuses it before any
    fetch, and the call of the tool answers with a text, the summary of
    nothing. *)
Theorem handler_passes_malformed_blog_url :
  (exists message,
     response (@handler Example.runtime Example.offline [] "how-person"
                 (Example.request (Some "not a url") None None None))
     = McpError InvalidParams message)
  /\ calls (@handler Example.runtime Example.offline [] "how-person"
              (Example.request (Some "not a url") None None None))
     = []
  /\ @BlogService.extractDomain Example.runtime "not a url"
     = Thrown "Error: Invalid Blog URL"
  /\ calls (@handler Example.runtime Example.offline [] "how-person"
              (Example.request None None None (Some "not a url")))
     = [Analyze BLOG "not a url"]
  /\ response (@handler Example.runtime Example.offline [] "how-person"
                 (Example.request None None None (Some "not a url")))
     = Content emptySummary.
Proof.
  split; [eexists; reflexivity|]. repeat split.
Qed.

(** ** C7: the microblog extractor without credential *)

(** C7.  For every URL from which a username can be parsed, the microblog
    extractor built without token, or with an empty one, returns, and what
    it returns has no topics, no interests, no activities, the frequency 0
    and the style of insufficient information. *)
Theorem twitter_without_credential_returns_empty_analysis `{Runtime}
  (api : string -> TwitterService.Client) (token : option string)
  (url username : string) :
  token = None \/ token = Some "" ->
  TwitterService.extractUsername url = Some username ->
  TwitterService.analyze (TwitterService.connect api token) url
  = Returned (emptyTwitterAnalysis url).
Proof.
  intros Ht Hu.
  assert (Hc : TwitterService.connect api token = None)
    by (destruct Ht as [-> | ->]; reflexivity).
  unfold TwitterService.analyze. rewrite Hc, Hu. reflexivity.
Qed.

Lemma twitter_without_credential_witness :
  TwitterService.extractUsername "https://x.com/alice" = Some "alice"
  /\ @TwitterService.analyze Example.runtime
       (TwitterService.connect Example.refusing None) "https://x.com/alice"
     = Returned (emptyTwitterAnalysis "https://x.com/alice").
Proof.
  split.
  - reflexivity.
  - apply (@twitter_without_credential_returns_empty_analysis Example.runtime
             Example.refusing None "https://x.com/alice" "alice").
    + now left.
    + reflexivity.
Defined.

(** ** C8: the communication style of the code-host extractor *)

(** The classifier takes the first case that holds: a repository of more than
    50 stars together with a description of more than 100 characters; a
    repository whose [contributors_url] has more than one character; more
    than 20 repositories; the default. *)
Lemma github_analyzeCommStyle_cases (user : GitHubService.User)
  (repos : list GitHubService.Repo) :
  GitHubService.analyzeCommStyle user repos =
  if existsb GitHubService.hasStars repos && existsb GitHubService.hasDetailedReadme repos
  then "オープンで詳細なドキュメントを重視するスタイル"
  else if existsb (fun r => match GitHubService.contributors_url r with
                            | Some u => (1 <? jsLength u)%nat
                            | None => false
                            end) repos
  then "協調的なスタイル"
  else if (20 <? List.length repos)%nat
  then "多くのプロジェクトに取り組む探究心旺盛なスタイル"
  else "個人的な開発に集中するスタイル".
Proof.
  unfold GitHubService.analyzeCommStyle.
  replace (existsb GitHubService.hasContributors repos)
    with (existsb (fun r => match GitHubService.contributors_url r with
                            | Some u => (1 <? jsLength u)%nat
                            | None => false
                            end) repos); [reflexivity|].
  induction repos as [|r repos IH]; [reflexivity|].
  cbn [existsb]. rewrite IH. f_equal. unfold GitHubService.hasContributors.
  destruct (GitHubService.contributors_url r) as [u|]; [|reflexivity].
  destruct u as [|c u]; reflexivity.
Qed.

(** C8, at the input on which the code departs from it: one repository
    without stars and without description, with the one contributors URL
    that the API gives to every repository, is classified as collaborative,
    because the test measures the length of the URL. *)
Theorem github_single_repository_is_collaborative :
  GitHubService.analyzeCommStyle
    {| GitHubService.bio := None; GitHubService.company := None |}
    [ {| GitHubService.description := None;
         GitHubService.contributors_url :=
           Some "https://api.github.com/repos/octocat/hello/contributors";
         GitHubService.stargazers_count := Some 0%Z |} ]
  = "協調的なスタイル".
Proof. reflexivity. Qed.

(** On a list as the API returns it, in which every repository carries the
    URL of its contributors, the classifier never reaches its last two
    cases. *)
Lemma github_fetched_repositories_open_or_collaborative
  (user : GitHubService.User) (repos : list GitHubService.Repo) :
  repos <> [] ->
  (forall r, In r repos ->
             exists u, GitHubService.contributors_url r = Some u /\ (1 < jsLength u)%nat) ->
  GitHubService.analyzeCommStyle user repos = "オープンで詳細なドキュメントを重視するスタイル"
  \/ GitHubService.analyzeCommStyle user repos = "協調的なスタイル".
Proof.
  intros Hne Hall. rewrite github_analyzeCommStyle_cases.
  destruct (existsb GitHubService.hasStars repos
            && existsb GitHubService.hasDetailedReadme repos); [now left|].
  right. destruct repos as [|r repos]; [contradiction|].
  destruct (Hall r (or_introl eq_refl)) as (u & Hu & Hl).
  cbn [existsb]. rewrite Hu. now rewrite (proj2 (Nat.ltb_lt _ _) Hl).
Qed.

Lemma github_fetched_repositories_witness :
  List.repeat
    {| GitHubService.description := None;
       GitHubService.contributors_url :=
         Some "https://api.github.com/repos/octocat/hello/contributors";
       GitHubService.stargazers_count := Some 0%Z |} 21 <> []
  /\ (GitHubService.analyzeCommStyle
        {| GitHubService.bio := None; GitHubService.company := None |}
        (List.repeat
           {| GitHubService.description := None;
              GitHubService.contributors_url :=
                Some "https://api.github.com/repos/octocat/hello/contributors";
              GitHubService.stargazers_count := Some 0%Z |} 21)
      = "オープンで詳細なドキュメントを重視するスタイル"
      \/ GitHubService.analyzeCommStyle
           {| GitHubService.bio := None; GitHubService.company := None |}
           (List.repeat
              {| GitHubService.description := None;
                 GitHubService.contributors_url :=
                   Some "https://api.github.com/repos/octocat/hello/contributors";
                 GitHubService.stargazers_count := Some 0%Z |} 21)
         = "協調的なスタイル").
Proof.
  split.
  - discriminate.
  - apply github_fetched_repositories_open_or_collaborative.
    + discriminate.
    + intros r Hr. apply repeat_spec in Hr. subst r.
      eexists. split; [reflexivity|]. apply Nat.ltb_lt. reflexivity.
Defined.

(** ** C9: the discovery of articles *)

Lemma looksLikeArticle_iff e :
  BlogService.looksLikeArticle e = true <-> relativeLongLink e.
Proof.
  unfold BlogService.looksLikeArticle, relativeLongLink. split.
  - destruct (BlogService.href e) as [h|]; [|discriminate]. intros H.
    apply andb_prop in H as [H Hs]. apply andb_prop in H as [H Hl].
    apply andb_prop in H as [H Hi]. apply andb_prop in H as [Hh _].
    exists h. apply truthy_true in Hh. apply negb_true_iff in Hs.
    apply Nat.ltb_lt in Hl. auto.
  - intros (h & -> & Hh & Hi & Hs & Hl).
    apply truthy_true in Hh. rewrite Hh, Hi, Hs.
    rewrite (proj2 (Nat.ltb_lt _ _) Hl).
    destruct (BlogService.textContent e); [cbn in Hl; lia | reflexivity].
Qed.

Lemma fold_pushArticle `{Runtime} baseUrl els articles :
  fold_left (BlogService.pushArticle baseUrl) els articles
  = articles ++ articlesOf baseUrl els.
Proof.
  unfold articlesOf. revert articles.
  induction els as [|e els IH]; intros articles; cbn [fold_left filter].
  - now rewrite app_nil_r.
  - rewrite IH. unfold BlogService.pushArticle. fold (keeps e).
    destruct (keeps e); [|reflexivity].
    now rewrite <- app_assoc.
Qed.

Lemma fold_pushStub `{Runtime} baseUrl els articles :
  fold_left (BlogService.pushStub baseUrl) els articles
  = articles ++ stubsOf baseUrl els.
Proof.
  unfold stubsOf. revert articles.
  induction els as [|e els IH]; intros articles; cbn [fold_left filter].
  - now rewrite app_nil_r.
  - rewrite IH. unfold BlogService.pushStub.
    destruct (BlogService.looksLikeArticle e); [|reflexivity].
    now rewrite <- app_assoc.
Qed.

Lemma trySelectors_hit `{Runtime} doc baseUrl selector rest :
  articlesOf baseUrl (doc selector) <> [] ->
  BlogService.trySelectors doc baseUrl (selector :: rest) []
  = articlesOf baseUrl (doc selector).
Proof.
  intros Hne. cbn [BlogService.trySelectors]. rewrite fold_pushArticle. cbn [app].
  destruct (articlesOf baseUrl (doc selector)); [contradiction | reflexivity].
Qed.

Lemma trySelectors_skip `{Runtime} doc baseUrl skipped rest :
  (forall s, In s skipped -> articlesOf baseUrl (doc s) = []) ->
  BlogService.trySelectors doc baseUrl (skipped ++ rest) []
  = BlogService.trySelectors doc baseUrl rest [].
Proof.
  induction skipped as [|s skipped IH]; intros Hs; [reflexivity|].
  cbn [app BlogService.trySelectors]. rewrite fold_pushArticle.
  rewrite (Hs s (or_introl eq_refl)). cbn. apply IH.
  intros s' Hs'. apply Hs. now right.
Qed.

Lemma trySelectors_none `{Runtime} doc baseUrl selectors :
  (forall s, In s selectors -> articlesOf baseUrl (doc s) = []) ->
  BlogService.trySelectors doc baseUrl selectors [] = [].
Proof.
  intros Hs. rewrite <- (app_nil_r selectors). now rewrite trySelectors_skip.
Qed.

(** C9, as the code has it.  The selectors are tried in their order and the
    articles are those of the first selector that yields one, an element
    being kept when its heading and its text are not empty; when no selector
    yields an article, the articles are the stubs of the links whose address
    is not empty, holds a slash and does not start with [http], and whose
    text has more than 20 characters, so that one such link is enough for
    the discovery to yield an article. *)
Theorem blog_discovery_first_selector_then_links `{Runtime}
  (doc : BlogService.Document) (baseUrl : string) :
  (forall skipped selector rest,
     BlogService.articleSelectors = skipped ++ selector :: rest ->
     (forall s, In s skipped -> articlesOf baseUrl (doc s) = []) ->
     articlesOf baseUrl (doc selector) <> [] ->
     BlogService.discoverArticles doc baseUrl = articlesOf baseUrl (doc selector))
  /\ ((forall s, In s BlogService.articleSelectors -> articlesOf baseUrl (doc s) = []) ->
      BlogService.discoverArticles doc baseUrl = stubsOf baseUrl (doc "a")
      /\ (forall e, In e (doc "a") -> relativeLongLink e ->
                    In (toStub baseUrl e) (BlogService.discoverArticles doc baseUrl))).
Proof.
  unfold BlogService.discoverArticles. split.
  - intros skipped selector rest E Hs Hne. rewrite E.
    rewrite (trySelectors_skip _ _ _ _ Hs), (trySelectors_hit _ _ _ _ Hne).
    destruct (articlesOf baseUrl (doc selector)); [contradiction | reflexivity].
  - intros Hs. rewrite (trySelectors_none _ _ _ Hs). cbn [List.length Nat.eqb].
    rewrite fold_pushStub. cbn [app]. split; [reflexivity|].
    intros e He Hl. unfold stubsOf. apply in_map, filter_In.
    split; [assumption | now apply looksLikeArticle_iff].
Qed.

(** The witness of C9: a page without structural match and with one link to
    [/posts/hello] yields the stub of that link. *)
Lemma blog_discovery_witness :
  In (@toStub Example.runtime "https://blog.example.com/"
        (Example.link "/posts/hello" "A first look at the new release"))
     (@BlogService.discoverArticles Example.runtime
        (Example.page (Example.link "/posts/hello" "A first look at the new release"))
        "https://blog.example.com/").
Proof.
  refine (proj2 (proj2 (@blog_discovery_first_selector_then_links Example.runtime
                          (Example.page (Example.link "/posts/hello"
                                           "A first look at the new release"))
                          "https://blog.example.com/") _) _ _ _).
  - intros s _. unfold Example.page. destruct (String.eqb s "a"); reflexivity.
  - left. reflexivity.
  - exists "/posts/hello".
    split; [reflexivity|]. split; [discriminate|].
    split; [reflexivity|]. split; [reflexivity|].
    apply Nat.ltb_lt. reflexivity.
Defined.

(** The claim fails for a relative link without a slash: a page without
    structural match whose one link, to [archive.html], has a text of more
    than 20 characters yields no article. *)
Lemma blog_relative_link_without_slash_is_no_stub :
  startsWith "archive.html" "http" = false
  /\ (20 <? jsLength "All the posts of the last ten years")%nat = true
  /\ forallb (fun selector =>
                match Example.page (Example.link "archive.html"
                                      "All the posts of the last ten years") selector with
                | [] => true
                | _ => false
                end) BlogService.articleSelectors = true
  /\ @BlogService.discoverArticles Example.runtime
       (Example.page (Example.link "archive.html" "All the posts of the last ten years"))
       "https://blog.example.com/" = [].
Proof. repeat split. Qed.

(** ** Concrete runs *)

(** The witness of C4: a platform of frequency 10 and a platform without
    frequency merge to the frequency that the theorem gives. *)
Lemma mergePersonalities_frequency_witness :
  [Example.reporting GITHUB [] (Some (10 # 1)); Example.reporting BLOG [] None] <> []
  /\ exists q,
       c_frequency
         (p_communication
            (mergePersonalities
               [Example.reporting GITHUB [] (Some (10 # 1)); Example.reporting BLOG [] None]))
       = Some q
       /\ (q == Qsum (reportedFrequencies
                        [Example.reporting GITHUB [] (Some (10 # 1));
                         Example.reporting BLOG [] None])
                / inject_Z (Z.of_nat 2))%Q
       /\ (forall a b fa,
             [Example.reporting GITHUB [] (Some (10 # 1)); Example.reporting BLOG [] None]
             = [a; b] ->
             commFrequency a = Some fa -> (fa == 10)%Q ->
             match commFrequency b with Some fb => (fb == 0)%Q | None => True end ->
             (q == 5)%Q).
Proof.
  split.
  - discriminate.
  - apply (mergePersonalities_frequency_divides_by_platform_count
             [Example.reporting GITHUB [] (Some (10 # 1)); Example.reporting BLOG [] None]).
    discriminate.
Defined.

(** Two platforms that report python with 3 and with 2 merge to python with
    5, and the larger tally comes first. *)
Example mergeTechStacks_python :
  ts_languages
    (mergeTechStacks
       [Example.reporting GITHUB [("go", 1%Z); ("python", 3%Z)] None;
        Example.reporting BLOG [("python", 2%Z); ("rust", 1%Z)] None])
  = [("python", 5%Z); ("go", 1%Z); ("rust", 1%Z)].
Proof. reflexivity. Qed.

(** The patterns of the handler on profile URLs. *)
Example githubPattern_runs :
  matches githubPattern "https://github.com/octocat" = true
  /\ matches githubPattern "http://www.github.com/octocat/" = true
  /\ matches githubPattern "https://github.com/octocat/hello" = false
  /\ matches githubPattern "https://github.com/" = false
  /\ matches twitterPattern "https://x.com/alice" = true
  /\ matches speakerdeckPattern "https://speakerdeck.com/" = false.
Proof. repeat split. Qed.

(** Two styles that match the technical and the detailed categories. *)
Example summarizeCommunicationStyle_runs :
  summarizeCommunicationStyle
    ["技術的な解説を重視するスタイル"; "詳細な説明を好むスタイル"]
  = "技術的かつ詳細なコミュニケーションスタイル".
Proof. reflexivity. Qed.

(** The username of a profile URL. *)
Example extractUsername_runs :
  TwitterService.extractUsername "https://twitter.com/alice?lang=en" = Some "alice"
  /\ TwitterService.extractUsername "https://example.com/alice" = None.
Proof. repeat split. Qed.

(** * Further properties of the code *)

(** ** Strings *)

Lemma append_assoc (a b c : string) : ((a ++ b) ++ c)%string = (a ++ b ++ c)%string.
Proof. induction a as [|x a IH]; cbn; [reflexivity | now rewrite IH]. Qed.

Lemma append_nil_r (a : string) : (a ++ "")%string = a.
Proof. induction a as [|x a IH]; cbn; [reflexivity | now rewrite IH]. Qed.

Lemma prefix_spec (p s : string) :
  String.prefix p s = true <-> exists rest, s = (p ++ rest)%string.
Proof.
  revert s. induction p as [|a p IH]; intros s.
  - split; [intros _; now exists s | intros _; now destruct s].
  - destruct s as [|b s]; cbn;
      [split; [discriminate | intros (r & E); discriminate]|].
    destruct (Ascii.ascii_dec a b) as [-> | Hab].
    + rewrite IH. split; intros (r & E); exists r.
      * now rewrite E.
      * now injection E.
    + split; [discriminate | intros (r & E); congruence].
Qed.

Lemma includes_spec (s part : string) :
  includes s part = true <-> holds s part.
Proof.
  unfold holds. induction s as [|c s IH]; cbn [includes].
  - rewrite orb_false_r, prefix_spec. split.
    + intros (r & E). now exists "", r.
    + intros (f & r & E). destruct f; [now exists r | discriminate].
  - rewrite orb_true_iff, prefix_spec, IH. split.
    + intros [(r & E) | (f & r & E)].
      * now exists "", r.
      * exists (String c f), r. cbn. now rewrite E.
    + intros (f & r & E). destruct f as [|x f].
      * left. now exists r.
      * right. cbn in E. injection E as _ E. now exists f, r.
Qed.

Lemma holds_trans (s a b : string) : holds s a -> holds a b -> holds s b.
Proof.
  intros (f & r & ->) (f' & r' & ->).
  exists (f ++ f')%string, (r' ++ r)%string.
  now rewrite !append_assoc.
Qed.

Lemma includes_trans (s a b : string) :
  includes s a = true -> includes a b = true -> includes s b = true.
Proof. rewrite !includes_spec. apply holds_trans. Qed.

(** ** The merged interests, activities and topics *)

Lemma addAll_unionInOrder (given : list string) :
  unionInOrder given (JsSet.addAll [] given).
Proof.
  repeat split.
  - apply addAll_NoDup. constructor.
  - intros H. apply addAll_In in H as [[] | H]. exact H.
  - intros H. apply addAll_In. now right.
  - intros x y. apply addAll_before.
Qed.

Lemma fold_interests analyses acc :
  acc_interestsSet (fold_left personalityStep analyses acc)
  = JsSet.addAll (acc_interestsSet acc) (collected interestsOf analyses).
Proof.
  revert acc. induction analyses as [|a analyses IH]; intros acc; [reflexivity|].
  cbn [fold_left collected flat_map]. rewrite IH, addAll_app. cbn.
  unfold addAllOpt, interestsOf. now destruct (pp_interests (personality a)).
Qed.

Lemma fold_activities analyses acc :
  acc_activitiesSet (fold_left personalityStep analyses acc)
  = JsSet.addAll (acc_activitiesSet acc) (collected activitiesOf analyses).
Proof.
  revert acc. induction analyses as [|a analyses IH]; intros acc; [reflexivity|].
  cbn [fold_left collected flat_map]. rewrite IH, addAll_app. cbn.
  unfold addAllOpt, activitiesOf. now destruct (pp_activities (personality a)).
Qed.

Lemma fold_communicationTopics analyses acc :
  acc_communicationTopicsSet (fold_left personalityStep analyses acc)
  = JsSet.addAll (acc_communicationTopicsSet acc) (collected commTopics analyses).
Proof.
  revert acc. induction analyses as [|a analyses IH]; intros acc; [reflexivity|].
  cbn [fold_left collected flat_map]. rewrite IH, addAll_app. cbn.
  unfold addAllOpt. now destruct (commTopics a).
Qed.

(** X3.  The merged interests, activities and communication topics are each
    the union of what the platforms give, without duplicates, in the order in
    which the values are first met. *)
Theorem mergePersonalities_unites_in_order (analyses : list PlatformAnalysis) :
  unionInOrder (collected interestsOf analyses) (p_interests (mergePersonalities analyses))
  /\ unionInOrder (collected activitiesOf analyses)
       (p_activities (mergePersonalities analyses))
  /\ exists topics,
       c_topics (p_communication (mergePersonalities analyses)) = Some topics
       /\ unionInOrder (collected commTopics analyses) topics.
Proof.
  unfold mergePersonalities. cbn.
  rewrite fold_interests, fold_activities, fold_communicationTopics. cbn.
  split; [apply addAll_unionInOrder|]. split; [apply addAll_unionInOrder|].
  eexists. split; [reflexivity | apply addAll_unionInOrder].
Qed.

(** ** The merged scores do not depend on the order of the platforms *)







(** ** The summary *)

Lemma mergePersonalities_style_nonempty analyses :
  exists style,
    c_style (p_communication (mergePersonalities analyses)) = Some style /\ style <> "".
Proof.
  rewrite mergePersonalities_style. eexists. split; [reflexivity|].
  apply summarize_not_empty, labelsOf_truthy.
Qed.

Lemma beginsWith_refl (s : string) : beginsWith s s.
Proof. exists "". now rewrite append_nil_r. Qed.

Lemma beginsWith_app (s x p : string) : beginsWith s p -> beginsWith (s ++ x) p.
Proof. intros (r & ->). exists (r ++ x)%string. apply append_assoc. Qed.

Lemma beginsWith_holds (s b part : string) :
  beginsWith s b -> holds b part -> holds s part.
Proof.
  intros (r & ->) (front & rest & ->). exists front, (rest ++ r)%string.
  now rewrite !append_assoc.
Qed.

Lemma holds_app (s x part : string) : holds s part -> holds (s ++ x) part.
Proof. apply beginsWith_holds. apply beginsWith_app, beginsWith_refl. Qed.

Lemma holds_suffix (a part : string) : holds (a ++ part) part.
Proof. exists a, "". now rewrite append_nil_r. Qed.

Lemma fold_bullets `{Runtime} (activities : list string) (summary : string) :
  beginsWith
    (fold_left
       (fun acc activity =>
          if truthy (trim activity) then (acc ++ "・" ++ activity ++ nl)%string else acc)
       activities summary)
    summary.
Proof.
  revert summary. induction activities as [|a activities IH]; intros summary;
    cbn [fold_left].
  - apply beginsWith_refl.
  - destruct (truthy (trim a)); [|apply IH].
    destruct (IH (summary ++ "・" ++ a ++ nl)%string) as (rest & E).
    rewrite E. apply beginsWith_app, beginsWith_app, beginsWith_refl.
Qed.

(** The summary starts with its head, and holds the line of a style that is
    not empty. *)
Lemma generateSummary_head_and_style `{Runtime} analyses techStack personality style :
  c_style (p_communication personality) = Some style -> style <> "" ->
  beginsWith (generateSummary analyses techStack personality) (summaryHead analyses)
  /\ holds (generateSummary analyses techStack personality)
           ("・コミュニケーションスタイル: " ++ style ++ nl)%string.
Proof.
  intros Es Hs. apply truthy_true in Hs.
  unfold generateSummary, summaryHead. rewrite Es. cbn [optLine]. rewrite Hs.
  destruct (p_activities personality) as [|a activities].
  - split.
    + do 7 apply beginsWith_app. apply beginsWith_refl.
    + apply holds_app, holds_suffix.
  - match goal with
    | |- beginsWith (fold_left ?f ?l ?init) _ /\ _ =>
        pose proof (fold_bullets l init) as Hb
    end.
    split.
    + destruct Hb as (rest & ->).
      do 9 apply beginsWith_app. apply beginsWith_refl.
    + eapply beginsWith_holds; [exact Hb|].
      apply holds_app, holds_app, holds_suffix.
Qed.

(** X5.  Whatever the services do, the summary of the analysis starts with
    the display names of the platforms that returned, in their order, and
    the fixed title, and it holds the line of the merged communication
    style. *)
Theorem analyze_summary_names_platforms_and_style `{Runtime}
  (services : Services) (request : AnalysisRequest) :
  exists result style,
    snd (analyze services request) = Returned result
    /\ c_style (p_communication (ar_personality result)) = Some style
    /\ beginsWith (ar_summary result) (summaryHead (ar_platforms result))
    /\ holds (ar_summary result) ("・コミュニケーションスタイル: " ++ style ++ nl)%string.
Proof.
  rewrite analyze_spec. cbn [snd].
  set (platforms := succeeded services request).
  destruct (mergePersonalities_style_nonempty platforms) as (style & Es & Hs).
  eexists. exists style. split; [reflexivity|].
  cbn [ar_personality ar_summary ar_platforms]. split; [exact Es|].
  now apply generateSummary_head_and_style.
Qed.

(** ** The calls of an analysis and of the handler *)

(** X6.  Whatever the services do, also when some of them throw, the
    analysis calls the service of each URL that is given and not empty once,
    in the order code-host, microblog, slide-deck, blog, and no other. *)
Theorem analyze_calls_each_requested_service_once `{Runtime}
  (services : Services) (request : AnalysisRequest) :
  fst (analyze services request)
  = requested GITHUB (github request) ++ requested TWITTER (twitter request)
    ++ requested SPEAKERDECK (speakerdeck request) ++ requested BLOG (blog request)
  /\ (forall p, List.length
                  (filter (fun c => match c with Analyze q _ =>
                                      if Platform_eqb p q then true else false end)
                          (fst (analyze services request)))
                = if present (urlFor p request) then 1%nat else 0%nat).
Proof.
  rewrite analyze_spec. cbn [fst]. split; [reflexivity|].
  intros p. rewrite !filter_app, !length_app. unfold requested, present.
  destruct request as [g t s b], p; cbn [github twitter speakerdeck blog urlFor];
    destruct g as [g|], t as [t|], s as [s|], b as [b|];
    try destruct (truthy g); try destruct (truthy t);
    try destruct (truthy s); try destruct (truthy b);
    reflexivity.
Qed.

(** ** The cache of the handler *)

(** The three cases of a call of the tool that passes the checks of its name
    and of its URLs. *)
Lemma handler_checked `{Runtime} services cache name args :
  (exists code message,
     handler services cache name args
     = {| calls := []; analysisCache := cache; response := McpError code message |}
     /\ forall services' cache',
          handler services' cache' name args
          = {| calls := []; analysisCache := cache';
               response := McpError code message |})
  \/ (name = "how-person" /\ malformedProfile args = false
      /\ handler services cache name args
         = match Obj.get cache (JSON_stringify args) with
           | Some text => {| calls := []; analysisCache := cache; response := Content text |}
           | None =>
               {| calls := fst (analyze services args);
                  analysisCache :=
                    Obj.set cache (JSON_stringify args)
                      (generateSummary (succeeded services args)
                         (mergeTechStacks (succeeded services args))
                         (mergePersonalities (succeeded services args)));
                  response :=
                    Content (generateSummary (succeeded services args)
                               (mergeTechStacks (succeeded services args))
                               (mergePersonalities (succeeded services args))) |}
           end).
Proof.
  unfold handler, malformedProfile.
  destruct (String.eqb_spec name "how-person") as [-> | Hn];
    [|left; eauto].
  destruct (negb (present (github args)) && negb (present (twitter args))
            && negb (present (speakerdeck args)) && negb (present (blog args)));
    [left; eauto|].
  destruct (malformed githubPattern (github args)); [left; eauto|].
  destruct (malformed twitterPattern (twitter args)); [left; eauto|].
  destruct (malformed speakerdeckPattern (speakerdeck args)); [left; eauto|].
  right. split; [reflexivity|]. split; [reflexivity|].
  destruct (Obj.get cache (JSON_stringify args)); [reflexivity|].
  now rewrite analyze_spec.
Qed.

(** X7.  A call of the tool that is repeated with the cache that the first
    call left gets the same response, calls no service and leaves the cache
    as it is: the summary of a request is computed once. *)
Theorem handler_repeated_call_is_served_from_cache `{Runtime}
  (services services' : Services) (cache : JsRecord string)
  (name : string) (args : AnalysisRequest) :
  response (handler services' (analysisCache (handler services cache name args)) name args)
  = response (handler services cache name args)
  /\ calls (handler services' (analysisCache (handler services cache name args)) name args)
     = []
  /\ analysisCache
       (handler services' (analysisCache (handler services cache name args)) name args)
     = analysisCache (handler services cache name args).
Proof.
  destruct (handler_checked services cache name args)
    as [(code & message & E & Eany) | (Hn & Hm & E)].
  - rewrite E. cbn [analysisCache response]. rewrite Eany. now cbn.
  - destruct (handler_checked services'
                (analysisCache (handler services cache name args)) name args)
      as [(code & message & E' & Eany) | (_ & _ & E')].
    + rewrite E'. rewrite (Eany services cache). now cbn.
    + rewrite E'. rewrite E.
      destruct (Obj.get cache (JSON_stringify args)) as [text|] eqn:Eg.
      * cbn [analysisCache response]. rewrite Eg. now cbn.
      * cbn [analysisCache response]. rewrite get_set_same. now cbn.
Qed.

(** X8.  A call of the tool changes the cache at most at the key of its
    request; when it answers with an error it has called no service and the
    cache is unchanged; when it answers with a text, the cache holds that
    text at the key of the request. *)
Theorem handler_touches_one_cache_entry `{Runtime}
  (services : Services) (cache : JsRecord string) (name : string)
  (args : AnalysisRequest) :
  (forall k, k <> JSON_stringify args ->
             Obj.get (analysisCache (handler services cache name args)) k
             = Obj.get cache k)
  /\ (forall code message,
        response (handler services cache name args) = McpError code message ->
        calls (handler services cache name args) = []
        /\ analysisCache (handler services cache name args) = cache)
  /\ (forall text,
        response (handler services cache name args) = Content text ->
        Obj.get (analysisCache (handler services cache name args)) (JSON_stringify args)
        = Some text).
Proof.
  destruct (handler_checked services cache name args)
    as [(code & message & E & _) | (Hn & Hm & E)]; rewrite E.
  - cbn. repeat split; intros; try reflexivity; discriminate.
  - destruct (Obj.get cache (JSON_stringify args)) as [cached|] eqn:Eg;
      cbn [analysisCache response calls].
    + repeat split; intros; try reflexivity; try discriminate. congruence.
    + repeat split; intros; try discriminate.
      * apply get_set_other. congruence.
      * injection H0 as <-. apply get_set_same.
Qed.

(** X9.  Every call of a service that the handler makes is for a URL of the
    request, not empty, that has the shape asked of its platform: no
    code-host, microblog or slide-deck extractor ever receives a URL that the
    handler's pattern refuses. *)
Theorem handler_calls_services_with_checked_urls `{Runtime}
  (services : Services) (cache : JsRecord string) (name : string)
  (args : AnalysisRequest) (p : Platform) (u : string) :
  In (Analyze p u) (calls (handler services cache name args)) ->
  urlFor p args = Some u /\ u <> "" /\ wellFormedFor p u = true.
Proof.
  destruct (handler_checked services cache name args)
    as [(code & message & E & _) | (Hn & Hm & E)]; rewrite E.
  - intros [].
  - destruct (Obj.get cache (JSON_stringify args)); [intros []|].
    cbn [calls]. rewrite analyze_spec. cbn [fst].
    unfold malformedProfile in Hm.
    apply orb_false_iff in Hm as [Hm Hs]. apply orb_false_iff in Hm as [Hg Ht].
    rewrite !in_app_iff, !requested_In.
    intros [(v & Ev & Hv & [= -> ->]) | [(v & Ev & Hv & [= -> ->])
           | [(v & Ev & Hv & [= -> ->]) | (v & Ev & Hv & [= -> ->])]]];
      cbn [urlFor wellFormedFor]; (split; [assumption|]); (split; [assumption|]);
      try reflexivity.
    + apply truthy_true in Hv. unfold malformed in Hg. rewrite Ev, Hv in Hg.
      cbn [andb] in Hg. now apply negb_false_iff in Hg.
    + apply truthy_true in Hv. unfold malformed in Ht. rewrite Ev, Hv in Ht.
      cbn [andb] in Ht. now apply negb_false_iff in Ht.
    + apply truthy_true in Hv. unfold malformed in Hs. rewrite Ev, Hv in Hs.
      cbn [andb] in Hs. now apply negb_false_iff in Hs.
Qed.

Lemma handler_calls_witness :
  (In (Analyze GITHUB "https://github.com/octocat")
      (calls (@handler Example.runtime Example.offline [] "how-person" Timeline.profiles))
   /\ urlFor GITHUB Timeline.profiles = Some "https://github.com/octocat"
   /\ "https://github.com/octocat" <> ""
   /\ wellFormedFor GITHUB "https://github.com/octocat" = true)
  /\ (In (Analyze TWITTER "https://x.com/alice")
         (calls (@handler Example.runtime Example.offline [] "how-person"
                   Timeline.profiles))
      /\ urlFor TWITTER Timeline.profiles = Some "https://x.com/alice"
      /\ "https://x.com/alice" <> ""
      /\ wellFormedFor TWITTER "https://x.com/alice" = true)
  /\ (In (Analyze SPEAKERDECK "https://speakerdeck.com/alice")
         (calls (@handler Example.runtime Example.offline [] "how-person"
                   Timeline.profiles))
      /\ urlFor SPEAKERDECK Timeline.profiles = Some "https://speakerdeck.com/alice"
      /\ "https://speakerdeck.com/alice" <> ""
      /\ wellFormedFor SPEAKERDECK "https://speakerdeck.com/alice" = true).
Proof.
  assert (Hg : In (Analyze GITHUB "https://github.com/octocat")
                  (calls (@handler Example.runtime Example.offline [] "how-person"
                            Timeline.profiles)))
    by (vm_compute; left; reflexivity).
  assert (Ht : In (Analyze TWITTER "https://x.com/alice")
                  (calls (@handler Example.runtime Example.offline [] "how-person"
                            Timeline.profiles)))
    by (vm_compute; right; left; reflexivity).
  assert (Hs : In (Analyze SPEAKERDECK "https://speakerdeck.com/alice")
                  (calls (@handler Example.runtime Example.offline [] "how-person"
                            Timeline.profiles)))
    by (vm_compute; right; right; left; reflexivity).
  split; [|split].
  - split; [exact Hg|].
    exact (@handler_calls_services_with_checked_urls Example.runtime Example.offline []
             "how-person" Timeline.profiles GITHUB "https://github.com/octocat" Hg).
  - split; [exact Ht|].
    exact (@handler_calls_services_with_checked_urls Example.runtime Example.offline []
             "how-person" Timeline.profiles TWITTER "https://x.com/alice" Ht).
  - split; [exact Hs|].
    exact (@handler_calls_services_with_checked_urls Example.runtime Example.offline []
             "how-person" Timeline.profiles SPEAKERDECK "https://speakerdeck.com/alice"
             Hs).
Defined.

(** ** The patterns of the handler and their language *)

Ltac inv H := inversion H; subst; clear H.

Lemma append_eq_nil (a b : string) : (a ++ b)%string = "" -> a = "" /\ b = "".
Proof. destruct a; cbn; [auto | discriminate]. Qed.

Lemma append_eq_cons (a b : string) c s :
  (a ++ b)%string = String c s ->
  (a = "" /\ b = String c s) \/ exists a', a = String c a' /\ s = (a' ++ b)%string.
Proof.
  destruct a as [|x a]; cbn; intros E.
  - now left.
  - injection E as -> <-. right. now exists a.
Qed.

Lemma nullable_lang r : nullable r = true -> lang r "".
Proof.
  induction r as [| t | cs | r1 IH1 r2 IH2 | r1 IH1 r2 IH2 | r IH | r IH];
    cbn; intros H; try discriminate.
  - apply String.eqb_eq in H. subst. constructor.
  - apply andb_prop in H as [H1 H2].
    change "" with ("" ++ "")%string. constructor; auto.
  - apply orb_prop in H as [H | H]; [apply lang_AltL | apply lang_AltR]; auto.
  - constructor.
  - apply lang_PlusOne. auto.
Qed.

Lemma lang_nullable r s : lang r s -> s = "" -> nullable r = true.
Proof.
  induction 1; cbn; intros E; subst; try discriminate; auto.
  - apply append_eq_nil in E as [-> ->]. now rewrite IHlang1, IHlang2.
  - now rewrite IHlang.
  - rewrite IHlang; [apply orb_true_r | reflexivity].
  - apply append_eq_nil in E as [-> ->]. auto.
Qed.

Lemma deriv_sound c r s : lang (deriv c r) s -> lang r (String c s).
Proof.
  revert s.
  induction r as [| t | cs | r1 IH1 r2 IH2 | r1 IH1 r2 IH2 | r IH | r IH];
    intros s H; cbn in H.
  - inv H.
  - destruct t as [|a t]; [inv H|].
    destruct (Ascii.eqb_spec a c); [subst; inv H; constructor | inv H].
  - destruct (charIn c cs) eqn:E; inv H. now constructor.
  - assert (Hseq : forall s, lang (Seq (deriv c r1) r2) s -> lang (Seq r1 r2) (String c s)).
    { intros s' Hs. inv Hs.
      change (String c (s1 ++ s2)) with (String c s1 ++ s2)%string.
      constructor; auto. }
    destruct (nullable r1) eqn:En; [|auto].
    inv H; [auto|].
    change (String c s) with ("" ++ String c s)%string.
    constructor; [now apply nullable_lang | auto].
  - inv H; [apply lang_AltL | apply lang_AltR]; auto.
  - apply lang_OptSome. auto.
  - inv H. inv H4.
    + rewrite append_nil_r. apply lang_PlusOne. auto.
    + change (String c (s1 ++ s2)) with (String c s1 ++ s2)%string.
      apply lang_PlusMore; auto.
Qed.

Lemma deriv_complete r s0 :
  lang r s0 -> forall c s, s0 = String c s -> lang (deriv c r) s.
Proof.
  induction 1; intros c0 t E; cbn.
  - subst. cbn. rewrite Ascii.eqb_refl. constructor.
  - injection E as -> <-. rewrite H. constructor.
  - apply append_eq_cons in E as [[-> ->] | (a' & -> & ->)].
    + rewrite (lang_nullable _ _ H eq_refl). apply lang_AltR. auto.
    + assert (Hs : lang (Seq (deriv c0 r1) r2) (a' ++ s2)%string)
        by (constructor; auto).
      destruct (nullable r1); [now apply lang_AltL | assumption].
  - apply lang_AltL. auto.
  - apply lang_AltR. auto.
  - discriminate.
  - auto.
  - rewrite <- (append_nil_r t). constructor; [auto | constructor].
  - apply append_eq_cons in E as [[-> ->] | (a' & -> & ->)].
    + apply IHlang2. reflexivity.
    + constructor; [auto | now apply lang_OptSome].
Qed.

(** The matcher of the handler's patterns decides their language. *)
Lemma matches_lang r s : matches r s = true <-> lang r s.
Proof.
  revert r. induction s as [|c s IH]; intros r; cbn.
  - split; [apply nullable_lang | intros H; now apply (lang_nullable r "")].
  - rewrite IH. split; [apply deriv_sound | intros H; now apply (deriv_complete r _ H)].
Qed.

Lemma lang_Seq_inv r1 r2 u :
  lang (Seq r1 r2) u -> exists a b, u = (a ++ b)%string /\ lang r1 a /\ lang r2 b.
Proof. intros H. inv H. eauto. Qed.

Lemma lang_Lit_inv t s : lang (Lit t) s -> s = t.
Proof. intros H. now inv H. Qed.

Lemma lang_NoneOf_inv cs s :
  lang (NoneOf cs) s -> exists c, s = String c "" /\ charIn c cs = false.
Proof. intros H. inv H. eauto. Qed.

Lemma lang_OptLit t s : lang (Opt (Lit t)) s <-> In s [""; t].
Proof.
  split.
  - intros H. inv H; [now left|]. apply lang_Lit_inv in H1. subst. right. now left.
  - intros [<- | [<- | []]]; [constructor | apply lang_OptSome; constructor].
Qed.

Lemma includes_slash c s :
  includes (String c s) "/" = Ascii.eqb c "/" || includes s "/".
Proof.
  cbn [includes String.prefix]. destruct (Ascii.ascii_dec "/" c) as [<- | Hc].
  - now destruct s.
  - destruct (Ascii.eqb_spec c "/"); [congruence | reflexivity].
Qed.

(** [[^\/]+] matches the strings that are not empty and hold no slash. *)
Lemma lang_name name :
  lang (Plus (NoneOf "/")) name <-> name <> "" /\ includes name "/" = false.
Proof.
  split.
  - remember (Plus (NoneOf "/")) as r eqn:Er. induction 1; try discriminate.
    + injection Er as ->. apply lang_NoneOf_inv in H as (c & -> & Hc).
      split; [discriminate|].
      rewrite includes_slash. cbn in Hc. rewrite orb_false_r in Hc. now rewrite Hc.
    + injection Er as ->. apply lang_NoneOf_inv in H as (c & -> & Hc).
      destruct (IHlang2 eq_refl) as [_ Hi].
      split; [discriminate|].
      cbn [append]. rewrite includes_slash, Hi.
      cbn in Hc. rewrite orb_false_r in Hc. now rewrite Hc.
  - induction name as [|c name IH]; intros [Hne Hi]; [contradiction|].
    rewrite includes_slash in Hi. apply orb_false_iff in Hi as [Hc Hi].
    assert (Hl : lang (NoneOf "/") (String c "")).
    { constructor. cbn. now rewrite Hc. }
    destruct name as [|d name].
    + now apply lang_PlusOne.
    + change (String c (String d name)) with (String c "" ++ String d name)%string.
      apply lang_PlusMore; [assumption|]. apply IH. split; [discriminate | assumption].
Qed.

(** The end of the three patterns: [[^\/]+\/?$]. *)
Lemma lang_tail x :
  lang (Seq (Plus (NoneOf "/")) (Seq (Opt (Lit "/")) (Lit ""))) x <->
  exists name t, name <> "" /\ includes name "/" = false /\ In t [""; "/"]
                 /\ x = (name ++ t)%string.
Proof.
  split.
  - intros H. apply lang_Seq_inv in H as (name & y & -> & Hn & H).
    apply lang_Seq_inv in H as (t & e & -> & Ht & He).
    apply lang_Lit_inv in He. subst e. rewrite append_nil_r.
    apply lang_name in Hn as [Hne Hi]. apply lang_OptLit in Ht.
    now exists name, t.
  - intros (name & t & Hne & Hi & Ht & ->).
    apply lang_Seq; [now apply lang_name|].
    rewrite <- (append_nil_r t). apply lang_Seq; [now apply lang_OptLit | apply lang_Lit].
Qed.

(** The start of the three patterns: [^https?:\/\/(www\.)?]. *)
Lemma lang_head rest u :
  lang (Seq (Lit "http") (Seq (Opt (Lit "s")) (Seq (Lit "://")
          (Seq (Opt (Lit "www.")) rest)))) u <->
  exists s w x, In s [""; "s"] /\ In w [""; "www."] /\ lang rest x
                /\ u = ("http" ++ s ++ "://" ++ w ++ x)%string.
Proof.
  split.
  - intros H. apply lang_Seq_inv in H as (a & y & -> & Ha & H).
    apply lang_Seq_inv in H as (s & y' & -> & Hs & H).
    apply lang_Seq_inv in H as (b & y'' & -> & Hb & H).
    apply lang_Seq_inv in H as (w & x & -> & Hw & H).
    apply lang_Lit_inv in Ha, Hb. subst a b.
    apply lang_OptLit in Hs, Hw. now exists s, w, x.
  - intros (s & w & x & Hs & Hw & Hx & ->).
    apply lang_Seq; [apply lang_Lit|].
    apply lang_Seq; [now apply lang_OptLit|].
    apply lang_Seq; [apply lang_Lit|].
    apply lang_Seq; [now apply lang_OptLit | assumption].
Qed.

Lemma profile_of_host (host : Regex) (hosts : list string) u :
  (forall h, lang host h <-> In h hosts) ->
  lang (Seq (Lit "http") (Seq (Opt (Lit "s")) (Seq (Lit "://")
          (Seq (Opt (Lit "www."))
             (Seq host (Seq (Plus (NoneOf "/")) (Seq (Opt (Lit "/")) (Lit "")))))))) u
  <-> profileUrl hosts u.
Proof.
  intros Hh. rewrite lang_head. unfold profileUrl. split.
  - intros (s & w & x & Hs & Hw & Hx & ->).
    apply lang_Seq_inv in Hx as (h & y & -> & Hhost & Hy).
    apply lang_tail in Hy as (name & t & Hne & Hi & Ht & ->).
    apply Hh in Hhost. now exists s, w, h, name, t.
  - intros (s & w & h & name & t & Hs & Hw & Hin & Hne & Hi & Ht & ->).
    exists s, w, (h ++ name ++ t)%string. repeat split; try assumption.
    apply lang_Seq; [now apply Hh|]. apply lang_tail. now exists name, t.
Qed.

Lemma lang_Seq_assoc r1 r2 r3 u :
  lang (Seq r1 (Seq r2 r3)) u <-> lang (Seq (Seq r1 r2) r3) u.
Proof.
  split; intros H.
  - apply lang_Seq_inv in H as (a & y & -> & Ha & H).
    apply lang_Seq_inv in H as (b & c & -> & Hb & Hc).
    rewrite <- append_assoc. apply lang_Seq; [apply lang_Seq|]; assumption.
  - apply lang_Seq_inv in H as (y & c & -> & H & Hc).
    apply lang_Seq_inv in H as (a & b & -> & Ha & Hb).
    rewrite append_assoc. apply lang_Seq; [|apply lang_Seq]; assumption.
Qed.

Lemma lang_head_congr rest rest' u :
  (forall x, lang rest x <-> lang rest' x) ->
  lang (Seq (Lit "http") (Seq (Opt (Lit "s")) (Seq (Lit "://")
          (Seq (Opt (Lit "www.")) rest)))) u
  <-> lang (Seq (Lit "http") (Seq (Opt (Lit "s")) (Seq (Lit "://")
              (Seq (Opt (Lit "www.")) rest')))) u.
Proof.
  intros Hr. rewrite !lang_head.
  split; intros (s & w & x & Hs & Hw & Hx & ->); exists s, w, x;
    repeat split; try assumption; now apply Hr.
Qed.

Lemma githubPattern_accepts u :
  matches githubPattern u = true <-> profileUrl ["github.com/"] u.
Proof.
  rewrite matches_lang. apply profile_of_host. intros h. split.
  - intros H. apply lang_Lit_inv in H. now left.
  - intros [<- | []]. apply lang_Lit.
Qed.

Lemma speakerdeckPattern_accepts u :
  matches speakerdeckPattern u = true <-> profileUrl ["speakerdeck.com/"] u.
Proof.
  rewrite matches_lang. apply profile_of_host. intros h. split.
  - intros H. apply lang_Lit_inv in H. now left.
  - intros [<- | []]. apply lang_Lit.
Qed.

Lemma twitterPattern_accepts u :
  matches twitterPattern u = true <-> profileUrl ["twitter.com/"; "x.com/"] u.
Proof.
  rewrite matches_lang. unfold twitterPattern, seqs. cbn [fold_right].
  rewrite (lang_head_congr _ _ u (fun x => lang_Seq_assoc _ _ _ x)).
  apply profile_of_host. intros h. split.
  - intros H. apply lang_Seq_inv in H as (a & b & -> & Ha & Hb).
    apply lang_Lit_inv in Hb. subst b.
    inv Ha; match goal with H : lang (Lit _) _ |- _ => apply lang_Lit_inv in H end;
      subst; [now left | right; now left].
  - intros [<- | [<- | []]].
    + change "twitter.com/" with ("twitter" ++ ".com/")%string.
      apply lang_Seq; [apply lang_AltL|]; apply lang_Lit.
    + change "x.com/" with ("x" ++ ".com/")%string.
      apply lang_Seq; [apply lang_AltR|]; apply lang_Lit.
Qed.

(** X10.  The handler accepts a code-host, microblog or slide-deck URL
    exactly when it is a profile URL on the platform's host: [http] or
    [https], an optional [www.], the host, one path segment that is not
    empty, and an optional final slash. *)
Theorem handler_patterns_accept_profile_urls (u : string) :
  (matches githubPattern u = true <-> profileUrl ["github.com/"] u)
  /\ (matches twitterPattern u = true <-> profileUrl ["twitter.com/"; "x.com/"] u)
  /\ (matches speakerdeckPattern u = true <-> profileUrl ["speakerdeck.com/"] u).
Proof.
  split; [apply githubPattern_accepts|].
  split; [apply twitterPattern_accepts | apply speakerdeckPattern_accepts].
Qed.

(** ** From an accepted URL to a username *)

Lemma dropPrefix_spec p x r :
  TwitterService.dropPrefix p x = Some r <-> x = (p ++ r)%string.
Proof.
  revert x. induction p as [|a p IH]; intros x; cbn.
  - split; [now intros [= ->] | now intros ->].
  - destruct x as [|b x]; [split; discriminate|].
    destruct (Ascii.eqb_spec a b) as [-> | Hab].
    + rewrite IH. split; [now intros -> | now intros [= ->]].
    + split; [discriminate | intros [= E _]; congruence].
Qed.

(** A slash in a string of the shape [name] or [name/], where [name] holds
    none, is its last character. *)
Lemma slash_is_last name t a r :
  includes name "/" = false -> In t [""; "/"] ->
  (name ++ t)%string = (a ++ "/" ++ r)%string -> r = "".
Proof.
  revert a. induction name as [|c name IH]; intros a Hi Ht E.
  - cbn in E. destruct Ht as [<- | [<- | []]].
    + destruct a; discriminate.
    + destruct a as [|x a]; [now injection E | ].
      injection E as _ E. destruct a; discriminate.
  - rewrite includes_slash in Hi. apply orb_false_iff in Hi as [Hc Hi].
    destruct a as [|x a]; cbn in E.
    + injection E as -> _. discriminate.
    + injection E as _ E. now apply (IH a).
Qed.

Lemma github_takeWhile name t :
  includes name "/" = false -> In t [""; "/"] ->
  TwitterService.takeWhile GitHubService.notSlash (name ++ t) = name.
Proof.
  induction name as [|c name IH]; intros Hi Ht.
  - destruct Ht as [<- | [<- | []]]; reflexivity.
  - rewrite includes_slash in Hi. apply orb_false_iff in Hi as [Hc Hi].
    cbn. unfold GitHubService.notSlash at 1. rewrite Hc. cbn. now rewrite IH.
Qed.

Lemma twitter_takeWhile name t :
  includes name "/" = false -> In t [""; "/"] ->
  TwitterService.takeWhile TwitterService.usernameChar (name ++ t)
  = TwitterService.takeWhile TwitterService.usernameChar name.
Proof.
  induction name as [|c name IH]; intros Hi Ht.
  - destruct Ht as [<- | [<- | []]]; reflexivity.
  - rewrite includes_slash in Hi. apply orb_false_iff in Hi as [Hc Hi].
    cbn. destruct (TwitterService.usernameChar c); [|reflexivity]. now rewrite IH.
Qed.

Lemma github_here name t :
  name <> "" -> includes name "/" = false -> In t [""; "/"] ->
  GitHubService.extractUsername ("github.com/" ++ name ++ t) = Some name.
Proof.
  intros Hne Hi Ht.
  assert (Hm : GitHubService.matchHere ("github.com/" ++ name ++ t) = Some name).
  { unfold GitHubService.matchHere.
    rewrite (proj2 (dropPrefix_spec "github.com/" _ (name ++ t)) eq_refl).
    cbn zeta. rewrite github_takeWhile by assumption.
    apply truthy_true in Hne. now rewrite Hne. }
  destruct ("github.com/" ++ name ++ t)%string eqn:E;
    cbn [GitHubService.extractUsername]; now rewrite Hm.
Qed.

(** X11.  Every code-host URL that the handler accepts gives the extractor a
    username, the path segment of the URL: the extractor never refuses a URL
    that passed the handler. *)
Theorem github_accepted_url_gives_its_username (u : string) :
  matches githubPattern u = true ->
  exists front name t,
    u = (front ++ "github.com/" ++ name ++ t)%string
    /\ name <> "" /\ includes name "/" = false /\ In t [""; "/"]
    /\ GitHubService.extractUsername u = Some name.
Proof.
  intros H. apply githubPattern_accepts in H
    as (s & w & h & name & t & Hs & Hw & Hh & Hne & Hi & Ht & ->).
  destruct Hh as [<- | []].
  pose proof (github_here name t Hne Hi Ht) as Hhere.
  destruct Hs as [<- | [<- | []]], Hw as [<- | [<- | []]].
  - exists "http://", name, t. repeat split; assumption.
  - exists "http://www.", name, t. repeat split; assumption.
  - exists "https://", name, t. repeat split; assumption.
  - exists "https://www.", name, t. repeat split; assumption.
Qed.

Lemma github_accepted_url_witness :
  matches githubPattern "https://github.com/octocat/" = true
  /\ exists front name t,
       "https://github.com/octocat/" = (front ++ "github.com/" ++ name ++ t)%string
       /\ name <> "" /\ includes name "/" = false /\ In t [""; "/"]
       /\ GitHubService.extractUsername "https://github.com/octocat/" = Some name.
Proof.
  split; [reflexivity|].
  apply github_accepted_url_gives_its_username. reflexivity.
Defined.

Lemma twitter_matchHere_inside name t :
  includes name "/" = false -> In t [""; "/"] ->
  TwitterService.matchHere (name ++ t) = None.
Proof.
  intros Hi Ht. unfold TwitterService.matchHere.
  destruct (TwitterService.dropPrefix "twitter.com/" (name ++ t)) as [r|] eqn:E1.
  - apply dropPrefix_spec in E1.
    rewrite (slash_is_last name t "twitter.com" r Hi Ht E1). reflexivity.
  - destruct (TwitterService.dropPrefix "x.com/" (name ++ t)) as [r|] eqn:E2;
      [|reflexivity].
    apply dropPrefix_spec in E2.
    rewrite (slash_is_last name t "x.com" r Hi Ht E2). reflexivity.
Qed.

Lemma twitter_none_inside name t :
  includes name "/" = false -> In t [""; "/"] ->
  TwitterService.extractUsername (name ++ t) = None.
Proof.
  induction name as [|c name IH]; intros Hi Ht.
  - destruct Ht as [<- | [<- | []]]; reflexivity.
  - pose proof (twitter_matchHere_inside (String c name) t Hi Ht) as Hm.
    cbn [append] in *. cbn [TwitterService.extractUsername]. rewrite Hm.
    apply IH; [|assumption].
    rewrite includes_slash in Hi. now apply orb_false_iff in Hi.
Qed.

(** The username of a path segment: its characters up to the first [?]. *)
Lemma twitter_here h name t :
  In h ["twitter.com/"; "x.com/"] ->
  includes name "/" = false -> In t [""; "/"] ->
  TwitterService.extractUsername (h ++ name ++ t)
  = if truthy (TwitterService.takeWhile TwitterService.usernameChar name)
    then Some (TwitterService.takeWhile TwitterService.usernameChar name)
    else None.
Proof.
  intros Hh Hi Ht.
  pose proof (twitter_none_inside name t Hi Ht) as Hnone.
  pose proof (twitter_takeWhile name t Hi Ht) as Htw.
  destruct Hh as [<- | [<- | []]].
  - cbn [append]. cbn [TwitterService.extractUsername].
    unfold TwitterService.matchHere at 1.
    cbn [TwitterService.dropPrefix Ascii.eqb Bool.eqb andb]. cbn zeta. rewrite Htw.
    destruct (truthy (TwitterService.takeWhile TwitterService.usernameChar name));
      [reflexivity | exact Hnone].
  - cbn [append]. cbn [TwitterService.extractUsername].
    unfold TwitterService.matchHere at 1.
    cbn [TwitterService.dropPrefix Ascii.eqb Bool.eqb andb]. cbn zeta. rewrite Htw.
    destruct (truthy (TwitterService.takeWhile TwitterService.usernameChar name));
      [reflexivity | exact Hnone].
Qed.

(** X12.  For a microblog URL that the handler accepts, the extractor takes
    as username the path segment up to its first [?]; it refuses the URL
    (and throws) exactly when the segment starts with [?], a URL that the
    handler lets through. *)
Theorem twitter_accepted_url_username (u : string) :
  matches twitterPattern u = true ->
  exists front h name t,
    u = (front ++ h ++ name ++ t)%string
    /\ In h ["twitter.com/"; "x.com/"]
    /\ name <> "" /\ includes name "/" = false /\ In t [""; "/"]
    /\ TwitterService.extractUsername u
       = if truthy (TwitterService.takeWhile TwitterService.usernameChar name)
         then Some (TwitterService.takeWhile TwitterService.usernameChar name)
         else None.
Proof.
  intros H. apply twitterPattern_accepts in H
    as (s & w & h & name & t & Hs & Hw & Hh & Hne & Hi & Ht & ->).
  pose proof (twitter_here h name t Hh Hi Ht) as Hhere.
  destruct Hs as [<- | [<- | []]], Hw as [<- | [<- | []]].
  - exists "http://", h, name, t. repeat split; try assumption.
  - exists "http://www.", h, name, t. repeat split; try assumption.
  - exists "https://", h, name, t. repeat split; try assumption.
  - exists "https://www.", h, name, t. repeat split; try assumption.
Qed.

Lemma twitter_accepted_url_witness :
  matches twitterPattern "https://x.com/?tab=likes" = true
  /\ TwitterService.extractUsername "https://x.com/?tab=likes" = None
  /\ exists front h name t,
       "https://twitter.com/alice?lang=en" = (front ++ h ++ name ++ t)%string
       /\ In h ["twitter.com/"; "x.com/"]
       /\ name <> "" /\ includes name "/" = false /\ In t [""; "/"]
       /\ TwitterService.extractUsername "https://twitter.com/alice?lang=en"
          = if truthy (TwitterService.takeWhile TwitterService.usernameChar name)
            then Some (TwitterService.takeWhile TwitterService.usernameChar name)
            else None.
Proof.
  split; [reflexivity|]. split; [reflexivity|].
  apply twitter_accepted_url_username. reflexivity.
Defined.

(** ** services/twitter.ts: topics, hashtags, style and frequency *)

Lemma fold_add_In {A : Type} (p : A -> bool) (g : A -> string) (l : list A)
  (init : list string) (x : string) :
  In x (fold_left (fun ts y => if p y then JsSet.add ts (g y) else ts) l init)
  <-> In x init \/ exists y, In y l /\ p y = true /\ x = g y.
Proof.
  revert init. induction l as [|y l IH]; intros init; cbn [fold_left].
  - split; [now left | intros [H | (y & [] & _)]; assumption].
  - rewrite IH. destruct (p y) eqn:E.
    + rewrite add_In. split.
      * intros [[H | ->] | (z & Hz & Hp & ->)]; [now left | right | right].
        -- exists y. repeat split; [now left | assumption].
        -- exists z. repeat split; [now right | assumption].
      * intros [H | (z & [<- | Hz] & Hp & ->)].
        -- left. now left.
        -- left. now right.
        -- right. now exists z.
    + split.
      * intros [H | (z & Hz & Hp & ->)]; [now left | right].
        exists z. repeat split; [now right | assumption].
      * intros [H | (z & [<- | Hz] & Hp & ->)]; [now left | congruence | right].
        now exists z.
Qed.

Lemma fold_add_NoDup {A : Type} (p : A -> bool) (g : A -> string) (l : list A)
  (init : list string) :
  NoDup init ->
  NoDup (fold_left (fun ts y => if p y then JsSet.add ts (g y) else ts) l init).
Proof.
  revert init. induction l as [|y l IH]; intros init Hn; cbn [fold_left];
    [assumption|].
  apply IH. destruct (p y); [now apply add_NoDup | assumption].
Qed.

Lemma topicsOfTweet_NoDup `{Runtime} topics tweet :
  NoDup topics -> NoDup (TwitterService.topicsOfTweet topics tweet).
Proof.
  intros Hn. unfold TwitterService.topicsOfTweet.
  destruct (TwitterService.text tweet) as [t|]; [|assumption].
  destruct (truthy t); [|assumption].
  destruct (TwitterService.entities tweet) as [e|].
  - apply (fold_add_NoDup
             (fun username => existsb (includes (toLowerCase username))
                                TwitterService.techAccounts) toLowerCase).
    apply (fold_add_NoDup
             (fun tag => existsb (includes (toLowerCase tag)) TwitterService.techKeywords)
             toLowerCase).
    now apply (fold_add_NoDup (includes (toLowerCase t)) (fun k => k)).
  - now apply (fold_add_NoDup (includes (toLowerCase t)) (fun k => k)).
Qed.

Lemma topicsOfTweet_In `{Runtime} topics tweet x :
  In x (TwitterService.topicsOfTweet topics tweet)
  <-> In x topics \/ tweetTopic tweet x.
Proof.
  unfold TwitterService.topicsOfTweet, tweetTopic.
  destruct (TwitterService.text tweet) as [t|];
    [|split; [now left | intros [H0 | (t & E & _)]; [assumption | discriminate]]].
  destruct (truthy t) eqn:Et.
  2:{ split; [now left|]. intros [H0 | (t' & [= <-] & Hne & _)]; [assumption|].
      apply truthy_true in Hne. congruence. }
  apply truthy_true in Et.
  destruct (TwitterService.entities tweet) as [e|].
  - rewrite (fold_add_In
               (fun username => existsb (includes (toLowerCase username))
                                  TwitterService.techAccounts) toLowerCase).
    rewrite (fold_add_In
               (fun tag => existsb (includes (toLowerCase tag)) TwitterService.techKeywords)
               toLowerCase).
    rewrite (fold_add_In (includes (toLowerCase t)) (fun k => k)).
    split.
    + intros [[[H0 | (k & Hk & Hi & ->)] | (tag & Ht & Hi & ->)] | (m & Hm & Hi & ->)].
      * now left.
      * right. exists t. repeat split; auto.
      * right. exists t. repeat split; auto. right. left. now exists e, tag.
      * right. exists t. repeat split; auto. right. right. now exists e, m.
    + intros [H0 | (t' & [= <-] & _ & [[Hk Hi] | [(e' & tag & [= <-] & Ht & -> & Hi)
                                               | (e' & m & [= <-] & Hm & -> & Hi)]])].
      * left. left. now left.
      * left. left. right. now exists x.
      * left. right. now exists tag.
      * right. now exists m.
  - rewrite (fold_add_In (includes (toLowerCase t)) (fun k => k)). split.
    + intros [H0 | (k & Hk & Hi & ->)]; [now left | right].
      exists t. repeat split; auto.
    + intros [H0 | (t' & [= <-] & _ & [[Hk Hi] | [(e' & tag & E & _)
                                               | (e' & m & E & _)]])];
        [now left | right; now exists x | discriminate | discriminate].
Qed.

Lemma extractTopics_from `{Runtime} tweets topics :
  (NoDup topics -> NoDup (fold_left TwitterService.topicsOfTweet tweets topics))
  /\ (forall x, In x (fold_left TwitterService.topicsOfTweet tweets topics)
                <-> In x topics \/ exists tweet, In tweet tweets /\ tweetTopic tweet x).
Proof.
  revert topics. induction tweets as [|tweet tweets IH]; intros topics; cbn [fold_left].
  - split; [auto|]. intros x. split; [now left | intros [H0 | (tw & [] & _)]; assumption].
  - destruct (IH (TwitterService.topicsOfTweet topics tweet)) as [IHn IHi]. split.
    + intros Hn. now apply IHn, topicsOfTweet_NoDup.
    + intros x. rewrite IHi, topicsOfTweet_In. split.
      * intros [[H0 | Ht] | (tw & Htw & Ht)]; [now left | right | right].
        -- exists tweet. split; [now left | assumption].
        -- exists tw. split; [now right | assumption].
      * intros [H0 | (tw & [<- | Htw] & Ht)].
        -- left. now left.
        -- left. now right.
        -- right. now exists tw.
Qed.

Lemma extractHashtags_from `{Runtime} tweets tags :
  (NoDup tags ->
   NoDup (fold_left
            (fun tags tweet =>
               match TwitterService.entities tweet with
               | Some e =>
                   fold_left (fun ts tag => JsSet.add ts (toLowerCase tag))
                             (TwitterService.orEmpty (TwitterService.hashtags e)) tags
               | None => tags
               end) tweets tags))
  /\ (forall x,
        In x (fold_left
                (fun tags tweet =>
                   match TwitterService.entities tweet with
                   | Some e =>
                       fold_left (fun ts tag => JsSet.add ts (toLowerCase tag))
                                 (TwitterService.orEmpty (TwitterService.hashtags e)) tags
                   | None => tags
                   end) tweets tags)
        <-> In x tags \/ exists tweet, In tweet tweets /\ tweetHashtag tweet x).
Proof.
  revert tags. induction tweets as [|tweet tweets IH]; intros tags; cbn [fold_left].
  - split; [auto|]. intros x. split; [now left | intros [H0 | (tw & [] & _)]; assumption].
  - match goal with
    | |- context [fold_left _ tweets ?init] => destruct (IH init) as [IHn IHi]
    end.
    split.
    + intros Hn. apply IHn. destruct (TwitterService.entities tweet) as [e|]; [|assumption].
      now apply (fold_add_NoDup (fun _ => true) toLowerCase).
    + intros x. rewrite IHi. unfold tweetHashtag.
      destruct (TwitterService.entities tweet) as [e|] eqn:Ee.
      * rewrite (fold_add_In (fun _ => true) toLowerCase). split.
        -- intros [[H0 | (tag & Ht & _ & ->)] | (tw & Htw & Ht)]; [now left | right | right].
           ++ exists tweet. split; [now left|]. exists e, tag. now rewrite Ee.
           ++ exists tw. split; [now right | assumption].
        -- intros [H0 | (tw & [<- | Htw] & (e' & tag & E & Ht & ->))].
           ++ left. now left.
           ++ left. right. exists tag. rewrite Ee in E. injection E as <-. auto.
           ++ right. exists tw. split; [assumption|]. now exists e', tag.
      * split.
        -- intros [H0 | (tw & Htw & Ht)]; [now left | right].
           exists tw. split; [now right | assumption].
        -- intros [H0 | (tw & [<- | Htw] & (e' & tag & E & Ht & ->))].
           ++ now left.
           ++ rewrite Ee in E. discriminate.
           ++ right. exists tw. split; [assumption|]. now exists e', tag.
Qed.

Lemma twitter_topics_and_hashtags_NoDup `{Runtime} (tweets : list TwitterService.Tweet) :
  NoDup (TwitterService.extractTopicsFromTweets tweets)
  /\ NoDup (TwitterService.extractHashtags tweets).
Proof.
  unfold TwitterService.extractTopicsFromTweets, TwitterService.extractHashtags.
  split.
  - apply (extractTopics_from tweets []). constructor.
  - apply (extractHashtags_from tweets []). constructor.
Qed.

(** X13.  The topics of a list of tweets are without duplicates and are
    exactly the topics that some tweet with a text gives; a tweet without
    text gives none, whatever its hashtags and mentions.  The hashtags are
    without duplicates and are exactly the lowered hashtags of the tweets,
    with or without text. *)
Theorem twitter_topics_and_hashtags `{Runtime} (tweets : list TwitterService.Tweet) :
  NoDup (TwitterService.extractTopicsFromTweets tweets)
  /\ (forall x, In x (TwitterService.extractTopicsFromTweets tweets)
                <-> exists tweet, In tweet tweets /\ tweetTopic tweet x)
  /\ (forall tweet x, TwitterService.text tweet = None -> ~ tweetTopic tweet x)
  /\ NoDup (TwitterService.extractHashtags tweets)
  /\ (forall x, In x (TwitterService.extractHashtags tweets)
                <-> exists tweet, In tweet tweets /\ tweetHashtag tweet x).
Proof.
  unfold TwitterService.extractTopicsFromTweets, TwitterService.extractHashtags.
  destruct (extractTopics_from tweets []) as [Hn Hi].
  destruct (extractHashtags_from tweets []) as [Hn' Hi'].
  split; [apply Hn; constructor|]. split.
  { intros x. rewrite Hi. split; [intros [[] | H0]; assumption | now right]. }
  split.
  { intros tweet x E (t & Et & _). congruence. }
  split; [apply Hn'; constructor|].
  intros x. rewrite Hi'. split; [intros [[] | H0]; assumption | now right].
Qed.

Lemma gt_true (a b : Q) : TwitterService.gt a b = true -> (b < a)%Q.
Proof.
  unfold TwitterService.gt. intros H. apply negb_true_iff in H.
  apply Qnot_le_lt. intros Hle. apply Qle_bool_iff in Hle. congruence.
Qed.

Lemma count_positive {A : Type} (x : A) (l : list A) :
  (0 < inject_Z (Z.of_nat (List.length (x :: l))))%Q.
Proof.
  unfold Qlt. cbn [inject_Z Qnum Qden List.length]. lia.
Qed.

Lemma calculateTweetFrequency_positive tweet tweets :
  (0 < TwitterService.calculateTweetFrequency (tweet :: tweets))%Q.
Proof.
  unfold TwitterService.calculateTweetFrequency.
  pose proof (count_positive tweet tweets) as Hn.
  destruct (Array_sort _ _) as [|oldest [|d dates]]; try exact Hn.
  match goal with |- context [if ?c then _ else _] => destruct c eqn:E end;
    [|exact Hn].
  apply gt_true in E. unfold Qdiv.
  apply Qmult_lt_0_compat; [exact Hn | now apply Qinv_lt_0_compat].
Qed.

(** X14.  The frequency of tweets is 0 for no tweet and positive otherwise;
    with fewer than two dated tweets it is the number of tweets, so that no
    span of zero days is ever divided by. *)
Theorem twitter_frequency_is_positive (tweets : list TwitterService.Tweet) :
  match tweets with
  | [] => TwitterService.calculateTweetFrequency tweets = 0%Q
  | _ :: _ => (0 < TwitterService.calculateTweetFrequency tweets)%Q
  end
  /\ ((List.length
         (filter (fun t => match TwitterService.created_at t with
                           | Some _ => true | None => false end) tweets) < 2)%nat ->
      TwitterService.calculateTweetFrequency tweets
      = match tweets with
        | [] => 0%Q
        | _ :: _ => inject_Z (Z.of_nat (List.length tweets))
        end).
Proof.
  split.
  - destruct tweets; [reflexivity | apply calculateTweetFrequency_positive].
  - intros Hl. destruct tweets as [|tweet tweets]; [reflexivity|].
    unfold TwitterService.calculateTweetFrequency.
    set (dated := flat_map _ (tweet :: tweets)).
    assert (Hd : List.length dated
                 = List.length
                     (filter (fun t => match TwitterService.created_at t with
                                       | Some _ => true | None => false end)
                             (tweet :: tweets))).
    { subst dated. generalize (tweet :: tweets). intros l.
      induction l as [|t l IH]; [reflexivity|].
      cbn [flat_map filter]. rewrite length_app, IH.
      now destruct (TwitterService.created_at t). }
    pose proof (Permutation_length (Array_sort_perm (fun a b => (a - b)%Z) dated)) as Hp.
    destruct (Array_sort _ dated) as [|oldest [|d dates]]; try reflexivity.
    cbn [List.length] in Hp. lia.
Qed.

(** X15.  The microblog style is the label of insufficient information
    exactly when there is no profile or no tweet. *)
Theorem twitter_style_insufficient_iff
  (userData : option TwitterService.User) (tweets : list TwitterService.Tweet) :
  TwitterService.analyzeCommStyle userData tweets = insufficient
  <-> userData = None \/ tweets = [].
Proof.
  split.
  - destruct userData as [user|]; [|now left].
    destruct tweets as [|tweet tweets]; [now right|].
    unfold TwitterService.analyzeCommStyle.
    repeat match goal with
           | |- context [if ?c then _ else _] => destruct c
           end; intros E; discriminate.
  - intros [-> | ->]; [reflexivity | now destruct userData].
Qed.

Lemma twitter_style_not_empty userData tweets :
  TwitterService.analyzeCommStyle userData tweets <> "".
Proof.
  destruct userData as [user|]; [|discriminate].
  destruct tweets as [|tweet tweets]; [discriminate|].
  unfold TwitterService.analyzeCommStyle.
  repeat match goal with
         | |- context [if ?c then _ else _] => destruct c
         end; discriminate.
Qed.

Lemma NoDup_firstn {A : Type} (n : nat) (l : list A) : NoDup l -> NoDup (firstn n l).
Proof.
  revert n. induction l as [|x l IH]; intros n Hn; destruct n; cbn; try constructor.
  - apply NoDup_cons_iff in Hn as [Hx Hn]. intros Hin. apply Hx.
    rewrite <- (firstn_skipn n l). apply in_or_app. now left.
  - apply IH. now apply NoDup_cons_iff in Hn.
Qed.

(** X16.  Whenever the microblog extractor returns, with or without client,
    its analysis is of the microblog platform and of the given URL, gives
    unique topics, at most 10 unique interests, as communication topics the
    first 5 topics, a style that is not empty, a frequency that is not
    negative, and neither a work style nor any tally. *)
Theorem twitter_analysis_shape `{Runtime}
  (client : option TwitterService.Client) (u : string) (a : PlatformAnalysis) :
  TwitterService.analyze client u = Returned a ->
  platform a = TWITTER /\ url a = u
  /\ (exists topics,
        pts_topics (techStack a) = Some topics /\ NoDup topics
        /\ commTopics a = Some (firstn 5 topics))
  /\ (exists interests,
        pp_interests (personality a) = Some interests /\ NoDup interests
        /\ (List.length interests <= 10)%nat)
  /\ (exists style, commStyle a = Some style /\ style <> "")
  /\ (exists f, commFrequency a = Some f /\ (0 <= f)%Q)
  /\ pp_workStyle (personality a) = None
  /\ pts_languages (techStack a) = None
  /\ pts_frameworks (techStack a) = None
  /\ pts_tools (techStack a) = None.
Proof.
  unfold TwitterService.analyze.
  destruct (TwitterService.extractUsername u) as [username|]; [|discriminate].
  match goal with
  | |- match ?fetched with _ => _ end = _ -> _ => destruct fetched as [[userData tweets]|e]
  end; [|discriminate].
  intros [= <-]. unfold commTopics, commStyle, commFrequency, slice0.
  cbn [platform url techStack personality pts_topics pts_languages pts_frameworks
       pts_tools pp_interests pp_communication pp_workStyle c_style c_frequency
       c_topics].
  pose proof (proj1 (twitter_topics_and_hashtags_NoDup tweets)) as Ht.
  pose proof (proj2 (twitter_topics_and_hashtags_NoDup tweets)) as Hh.
  split; [reflexivity|]. split; [reflexivity|]. split.
  { exists (TwitterService.extractTopicsFromTweets tweets). now repeat split. }
  split.
  { exists (firstn 10 (TwitterService.extractHashtags tweets)).
    split; [reflexivity|]. split; [now apply NoDup_firstn | apply firstn_le_length]. }
  repeat split.
  - eexists. split; [reflexivity | apply twitter_style_not_empty].
  - eexists. split; [reflexivity|].
    destruct tweets as [|tweet tweets]; [apply Qle_refl|].
    apply Qlt_le_weak, calculateTweetFrequency_positive.
Qed.

Lemma twitter_analysis_shape_witness :
  @TwitterService.analyze Example.runtime (Some Timeline.client) "https://x.com/alice"
  = Returned Timeline.analysis
  /\ platform Timeline.analysis = TWITTER
  /\ url Timeline.analysis = "https://x.com/alice"
  /\ (exists topics,
        pts_topics (techStack Timeline.analysis) = Some topics /\ NoDup topics
        /\ commTopics Timeline.analysis = Some (firstn 5 topics))
  /\ (exists interests,
        pp_interests (personality Timeline.analysis) = Some interests
        /\ NoDup interests /\ (List.length interests <= 10)%nat)
  /\ (exists style, commStyle Timeline.analysis = Some style /\ style <> "")
  /\ (exists f, commFrequency Timeline.analysis = Some f /\ (0 <= f)%Q)
  /\ pp_workStyle (personality Timeline.analysis) = None
  /\ pts_languages (techStack Timeline.analysis) = None
  /\ pts_frameworks (techStack Timeline.analysis) = None
  /\ pts_tools (techStack Timeline.analysis) = None.
Proof.
  split; [reflexivity|].
  exact (@twitter_analysis_shape Example.runtime (Some Timeline.client)
           "https://x.com/alice" Timeline.analysis eq_refl).
Defined.

(** ** services/github.ts: the analysis of a user *)

Lemma fold_addTopic ts acc :
  fold_left GitHubService.addTopic ts acc
  = {| GitHubService.languages := GitHubService.languages acc;
       GitHubService.frameworks :=
         fold_left increment (filter isFramework ts) (GitHubService.frameworks acc);
       GitHubService.tools :=
         fold_left increment (filter isTool ts) (GitHubService.tools acc);
       GitHubService.topicSet := JsSet.addAll (GitHubService.topicSet acc) ts |}.
Proof.
  revert acc. induction ts as [|t ts IH]; intros acc; [now destruct acc|].
  cbn [fold_left filter]. rewrite IH. unfold JsSet.addAll. cbn [fold_left].
  unfold GitHubService.addTopic, GitHubService.categorizeTopics, isTool, isFramework,
    namesOneOf.
  destruct (existsb _ GitHubService.frameworkList); cbn [negb andb]; [reflexivity|].
  now destruct (existsb _ GitHubService.toolList).
Qed.

Lemma visit_spec client username acc repo :
  GitHubService.visit client username acc repo
  = if GitHubService.fork repo then acc
    else
      {| GitHubService.languages :=
           accumulate (GitHubService.languages acc)
                      (fetchedLanguages client username [repo]);
         GitHubService.frameworks :=
           fold_left increment (filter isFramework (declaredTopics [repo]))
                     (GitHubService.frameworks acc);
         GitHubService.tools :=
           fold_left increment (filter isTool (declaredTopics [repo]))
                     (GitHubService.tools acc);
         GitHubService.topicSet :=
           JsSet.addAll (GitHubService.topicSet acc) (declaredTopics [repo]) |}.
Proof.
  unfold GitHubService.visit, fetchedLanguages, declaredTopics. cbn [flat_map].
  rewrite !app_nil_r.
  destruct (GitHubService.fork repo); [reflexivity|].
  assert (E : forall fetched,
             match GitHubService.topics repo with
             | Some ts => if (0 <? List.length ts)%nat
                          then fold_left GitHubService.addTopic ts fetched else fetched
             | None => fetched
             end
             = fold_left GitHubService.addTopic (optList (GitHubService.topics repo))
                         fetched).
  { intros fetched. destruct (GitHubService.topics repo) as [[|t ts]|]; reflexivity. }
  rewrite E, fold_addTopic.
  destruct (GitHubService.listLanguages client username (GitHubService.name repo));
    [reflexivity | now destruct acc].
Qed.

Lemma fold_visit client username repos acc :
  fold_left (GitHubService.visit client username) repos acc
  = {| GitHubService.languages :=
         accumulate (GitHubService.languages acc)
                    (fetchedLanguages client username (ownRepositories repos));
       GitHubService.frameworks :=
         fold_left increment (filter isFramework (declaredTopics (ownRepositories repos)))
                   (GitHubService.frameworks acc);
       GitHubService.tools :=
         fold_left increment (filter isTool (declaredTopics (ownRepositories repos)))
                   (GitHubService.tools acc);
       GitHubService.topicSet :=
         JsSet.addAll (GitHubService.topicSet acc)
                      (declaredTopics (ownRepositories repos)) |}.
Proof.
  revert acc. induction repos as [|repo repos IH]; intros acc; [now destruct acc|].
  cbn [fold_left]. rewrite IH, visit_spec. unfold ownRepositories. cbn [filter].
  destruct (GitHubService.fork repo); cbn [negb]; [reflexivity|].
  cbn [GitHubService.languages GitHubService.frameworks GitHubService.tools
       GitHubService.topicSet].
  fold (ownRepositories repos).
  change (repo :: ownRepositories repos) with ([repo] ++ ownRepositories repos).
  unfold fetchedLanguages, declaredTopics.
  rewrite !flat_map_app, !filter_app, !fold_left_app, accumulate_app, addAll_app.
  reflexivity.
Qed.

(** What [analyze] returns, by the three fetched values. *)
Lemma github_analyze_spec client u a :
  GitHubService.analyze client u = Returned a ->
  exists username user repos,
    GitHubService.extractUsername u = Some username
    /\ GitHubService.getByUsername client username = Returned user
    /\ GitHubService.listForUser client username = Returned repos
    /\ a = {| platform := GITHUB;
              url := u;
              techStack :=
                {| pts_languages :=
                     Some (accumulate []
                             (fetchedLanguages client username (ownRepositories repos)));
                   pts_frameworks :=
                     Some (fold_left increment
                             (filter isFramework (declaredTopics (ownRepositories repos)))
                             []);
                   pts_tools :=
                     Some (fold_left increment
                             (filter isTool (declaredTopics (ownRepositories repos))) []);
                   pts_topics :=
                     Some (JsSet.addAll [] (declaredTopics (ownRepositories repos))) |};
              personality :=
                {| pp_interests :=
                     Some (firstn 10
                             (JsSet.addAll [] (declaredTopics (ownRepositories repos))));
                   pp_activities := Some (GitHubService.activitiesOfUser user repos);
                   pp_communication :=
                     Some {| c_style :=
                               Some (GitHubService.analyzeCommStyle
                                       user (map GitHubService.details repos));
                             c_frequency := None;
                             c_topics := None |};
                   pp_workStyle := None |} |}.
Proof.
  unfold GitHubService.analyze.
  destruct (GitHubService.extractUsername u) as [username|]; [|discriminate].
  destruct (GitHubService.getByUsername client username) as [user|e] eqn:Eu;
    [|discriminate].
  destruct (GitHubService.listForUser client username) as [repos|e] eqn:Er;
    [|discriminate].
  intros [= <-]. exists username, user, repos.
  rewrite fold_visit. now repeat split.
Qed.

Lemma has_filter (p : string -> bool) (l : list string) k :
  JsSet.has (filter p l) k = p k && JsSet.has l k.
Proof.
  unfold JsSet.has. induction l as [|x l IH]; cbn [filter existsb].
  - now rewrite andb_false_r.
  - destruct (String.eqb k x) eqn:E.
    + apply String.eqb_eq in E as <-. destruct (p k) eqn:Ep; cbn [existsb andb orb].
      * now rewrite String.eqb_refl.
      * exact IH.
    + destruct (p x); cbn [existsb orb]; rewrite ?E; exact IH.
Qed.

Lemma count_occ_filter (p : string -> bool) (l : list string) k :
  p k = true -> count_occ string_dec (filter p l) k = count_occ string_dec l k.
Proof.
  intros Hp. induction l as [|x l IH]; [reflexivity|]. cbn [filter count_occ].
  destruct (string_dec x k) as [->|Hx].
  - rewrite Hp. cbn [count_occ]. destruct (string_dec k k); congruence.
  - destruct (p x); [|exact IH]. cbn [count_occ]. destruct (string_dec x k); congruence.
Qed.

Lemma get_counts_filter (p : string -> bool) (declared : list string) k :
  Obj.get (fold_left increment (filter p declared) []) k
  = if p k && JsSet.has declared k then Some (declarations declared k) else None.
Proof.
  rewrite get_counts, has_filter. unfold declarations.
  destruct (p k) eqn:Ep; cbn [andb]; [|reflexivity].
  now rewrite count_occ_filter.
Qed.

Lemma github_style_label user repos :
  In (GitHubService.analyzeCommStyle user repos) githubStyles.
Proof.
  unfold GitHubService.analyzeCommStyle, githubStyles.
  destruct (_ && _); [now left|].
  destruct (existsb _ _); [right; now left|].
  destruct (_ <? _)%nat; [right; right; now left | right; right; right; now left].
Qed.

(** X17.  The analysis of a code-host URL returns exactly when the URL gives
    a username and the fetches of the user and of the list of repositories
    return: no failure of a fetch of the languages of a repository makes it
    throw. *)
Theorem github_analyze_returns_iff (client : GitHubService.Client) (u : string) :
  (exists a, GitHubService.analyze client u = Returned a)
  <-> (exists username user repos,
         GitHubService.extractUsername u = Some username
         /\ GitHubService.getByUsername client username = Returned user
         /\ GitHubService.listForUser client username = Returned repos).
Proof.
  split.
  - intros (a & Ha).
    destruct (github_analyze_spec _ _ _ Ha) as (username & user & repos & E1 & E2 & E3 & _).
    now exists username, user, repos.
  - intros (username & user & repos & E1 & E2 & E3).
    unfold GitHubService.analyze. rewrite E1, E2, E3. eexists. reflexivity.
Qed.



(** X19.  The topics of a code-host analysis are the topics that the
    repositories that are no forks declare, each once, in the order in which
    they are first met, and the interests are the first 10 of them.  A
    declared topic that holds a framework name is a key of the framework
    tally, one that holds a tool name and no framework name is a key of the
    tool tally, with the number of its declarations as score; the tallies
    have no other key, so no topic is in both. *)
Theorem github_topics_frameworks_and_tools
  (client : GitHubService.Client) (u : string) (a : PlatformAnalysis) :
  GitHubService.analyze client u = Returned a ->
  exists username repos topics fws tls,
    GitHubService.extractUsername u = Some username
    /\ GitHubService.listForUser client username = Returned repos
    /\ pts_topics (techStack a) = Some topics
    /\ unionInOrder (declaredTopics (ownRepositories repos)) topics
    /\ pp_interests (personality a) = Some (firstn 10 topics)
    /\ pts_frameworks (techStack a) = Some fws
    /\ pts_tools (techStack a) = Some tls
    /\ (forall k,
          Obj.get fws k
          = if isFramework k && JsSet.has (declaredTopics (ownRepositories repos)) k
            then Some (declarations (declaredTopics (ownRepositories repos)) k)
            else None)
    /\ (forall k,
          Obj.get tls k
          = if isTool k && JsSet.has (declaredTopics (ownRepositories repos)) k
            then Some (declarations (declaredTopics (ownRepositories repos)) k)
            else None)
    /\ (forall k, Obj.get fws k = None \/ Obj.get tls k = None).
Proof.
  intros Ha.
  destruct (github_analyze_spec _ _ _ Ha) as (username & user & repos & E1 & _ & E3 & ->).
  exists username, repos. do 3 eexists.
  split; [exact E1|]. split; [exact E3|]. split; [reflexivity|].
  split; [apply addAll_unionInOrder|]. split; [reflexivity|].
  split; [reflexivity|]. split; [reflexivity|].
  split; [intros k; apply get_counts_filter|].
  split; [intros k; apply get_counts_filter|].
  intros k. rewrite !get_counts_filter. unfold isTool.
  destruct (isFramework k); cbn [negb andb]; [now right | now left].
Qed.

Lemma github_topics_witness :
  GitHubService.analyze Octocat.client "https://github.com/octocat"
  = Returned Octocat.analysis
  /\ exists username repos topics fws tls,
       GitHubService.extractUsername "https://github.com/octocat" = Some username
       /\ GitHubService.listForUser Octocat.client username = Returned repos
       /\ pts_topics (techStack Octocat.analysis) = Some topics
       /\ unionInOrder (declaredTopics (ownRepositories repos)) topics
       /\ pp_interests (personality Octocat.analysis) = Some (firstn 10 topics)
       /\ pts_frameworks (techStack Octocat.analysis) = Some fws
       /\ pts_tools (techStack Octocat.analysis) = Some tls
       /\ (forall k,
             Obj.get fws k
             = if isFramework k && JsSet.has (declaredTopics (ownRepositories repos)) k
               then Some (declarations (declaredTopics (ownRepositories repos)) k)
               else None)
       /\ (forall k,
             Obj.get tls k
             = if isTool k && JsSet.has (declaredTopics (ownRepositories repos)) k
               then Some (declarations (declaredTopics (ownRepositories repos)) k)
               else None)
       /\ (forall k, Obj.get fws k = None \/ Obj.get tls k = None).
Proof.
  split; [reflexivity|].
  apply (github_topics_frameworks_and_tools
           Octocat.client "https://github.com/octocat" Octocat.analysis).
  reflexivity.
Defined.

Lemma filter_truthy_no_empty (l : list string) : ~ In "" (filter truthy l).
Proof. intros H. apply filter_In in H as [_ H]. discriminate. Qed.

(** X20.  A code-host analysis is of the code-host platform and of the given
    URL; its style is one of the four labels of the classifier, and it has
    no frequency, no communication topics and no work style.  Its activities
    hold no empty string and always hold the line with the number of the
    listed repositories, forks included; they hold the biography of the user
    when there is one. *)
Theorem github_analysis_shape
  (client : GitHubService.Client) (u : string) (a : PlatformAnalysis) :
  GitHubService.analyze client u = Returned a ->
  platform a = GITHUB /\ url a = u
  /\ (exists style, commStyle a = Some style /\ In style githubStyles)
  /\ commFrequency a = None
  /\ commTopics a = None
  /\ pp_workStyle (personality a) = None
  /\ (exists username user repos lines,
        GitHubService.extractUsername u = Some username
        /\ GitHubService.getByUsername client username = Returned user
        /\ GitHubService.listForUser client username = Returned repos
        /\ pp_activities (personality a) = Some lines
        /\ ~ In "" lines
        /\ In (decimal (List.length repos) ++ "個のリポジトリを所有")%string
              lines
        /\ (forall b, GitHubService.bio user = Some b -> b <> "" -> In b lines)).
Proof.
  intros Ha.
  destruct (github_analyze_spec _ _ _ Ha) as (username & user & repos & E1 & E2 & E3 & ->).
  unfold commStyle, commFrequency, commTopics.
  cbn [platform url personality pp_communication pp_workStyle pp_activities
       c_style c_frequency c_topics].
  split; [reflexivity|]. split; [reflexivity|].
  split; [eexists; split; [reflexivity | apply github_style_label]|].
  split; [reflexivity|]. split; [reflexivity|]. split; [reflexivity|].
  exists username, user, repos. eexists.
  split; [exact E1|]. split; [exact E2|]. split; [exact E3|]. split; [reflexivity|].
  split; [apply filter_truthy_no_empty|].
  unfold GitHubService.activitiesOfUser. split.
  - apply filter_In. split; [right; now left|].
    apply truthy_true, append_not_empty. discriminate.
  - intros b Eb Hb. apply filter_In. apply truthy_true in Hb.
    rewrite Eb, Hb. split; [now left | reflexivity].
Qed.

Lemma github_analysis_shape_witness :
  GitHubService.analyze Octocat.client "https://github.com/octocat"
  = Returned Octocat.analysis
  /\ commFrequency Octocat.analysis = None
  /\ pp_activities (personality Octocat.analysis)
     = Some ["hacker"; "3個のリポジトリを所有"].
Proof.
  split; [reflexivity|].
  pose proof (github_analysis_shape
                Octocat.client "https://github.com/octocat" Octocat.analysis eq_refl)
    as (_ & _ & _ & Hf & _).
  split; [exact Hf | reflexivity].
Defined.

(** ** services/speakerdeck.ts: the username *)

Lemma speakerdeck_matchHere_inside name t :
  includes name "/" = false -> In t [""; "/"] ->
  SpeakerDeckService.matchHere (name ++ t) = None.
Proof.
  intros Hi Ht. unfold SpeakerDeckService.matchHere.
  destruct (TwitterService.dropPrefix "speakerdeck.com/" (name ++ t)) as [r|] eqn:E1;
    [|reflexivity].
  apply dropPrefix_spec in E1.
  rewrite (slash_is_last name t "speakerdeck.com" r Hi Ht E1). reflexivity.
Qed.

Lemma speakerdeck_none_inside name t :
  includes name "/" = false -> In t [""; "/"] ->
  SpeakerDeckService.extractUsername (name ++ t) = None.
Proof.
  induction name as [|c name IH]; intros Hi Ht.
  - destruct Ht as [<- | [<- | []]]; reflexivity.
  - pose proof (speakerdeck_matchHere_inside (String c name) t Hi Ht) as Hm.
    cbn [append] in *. cbn [SpeakerDeckService.extractUsername]. rewrite Hm.
    apply IH; [|assumption].
    rewrite includes_slash in Hi. now apply orb_false_iff in Hi.
Qed.

Lemma speakerdeck_here name t :
  includes name "/" = false -> In t [""; "/"] ->
  SpeakerDeckService.extractUsername ("speakerdeck.com/" ++ name ++ t)
  = if truthy (TwitterService.takeWhile TwitterService.usernameChar name)
    then Some (TwitterService.takeWhile TwitterService.usernameChar name)
    else None.
Proof.
  intros Hi Ht.
  pose proof (speakerdeck_none_inside name t Hi Ht) as Hnone.
  pose proof (twitter_takeWhile name t Hi Ht) as Htw.
  cbn [append]. cbn [SpeakerDeckService.extractUsername].
  unfold SpeakerDeckService.matchHere at 1.
  cbn [TwitterService.dropPrefix Ascii.eqb Bool.eqb andb]. cbn zeta. rewrite Htw.
  destruct (truthy (TwitterService.takeWhile TwitterService.usernameChar name));
    [reflexivity | exact Hnone].
Qed.

(** X21.  For a slide-deck URL that the handler accepts, the extractor takes
    as username the path segment up to its first [?]; it refuses the URL
    (and throws) exactly when the segment starts with [?], a URL that the
    handler lets through. *)
Theorem speakerdeck_accepted_url_username (u : string) :
  matches speakerdeckPattern u = true ->
  exists front name t,
    u = (front ++ "speakerdeck.com/" ++ name ++ t)%string
    /\ name <> "" /\ includes name "/" = false /\ In t [""; "/"]
    /\ SpeakerDeckService.extractUsername u
       = if truthy (TwitterService.takeWhile TwitterService.usernameChar name)
         then Some (TwitterService.takeWhile TwitterService.usernameChar name)
         else None.
Proof.
  intros H. apply speakerdeckPattern_accepts in H
    as (s & w & h & name & t & Hs & Hw & Hh & Hne & Hi & Ht & ->).
  destruct Hh as [<- | []].
  pose proof (speakerdeck_here name t Hi Ht) as Hhere.
  destruct Hs as [<- | [<- | []]], Hw as [<- | [<- | []]].
  - exists "http://", name, t. repeat split; try assumption.
  - exists "http://www.", name, t. repeat split; try assumption.
  - exists "https://", name, t. repeat split; try assumption.
  - exists "https://www.", name, t. repeat split; try assumption.
Qed.

Lemma speakerdeck_accepted_url_witness :
  matches speakerdeckPattern "https://speakerdeck.com/?page=2" = true
  /\ SpeakerDeckService.extractUsername "https://speakerdeck.com/?page=2" = None
  /\ exists front name t,
       "https://speakerdeck.com/alice?page=2"
       = (front ++ "speakerdeck.com/" ++ name ++ t)%string
       /\ name <> "" /\ includes name "/" = false /\ In t [""; "/"]
       /\ SpeakerDeckService.extractUsername "https://speakerdeck.com/alice?page=2"
          = if truthy (TwitterService.takeWhile TwitterService.usernameChar name)
            then Some (TwitterService.takeWhile TwitterService.usernameChar name)
            else None.
Proof.
  split; [reflexivity|]. split; [reflexivity|].
  apply speakerdeck_accepted_url_username. reflexivity.
Defined.

(** ** services/speakerdeck.ts: the topics *)

Lemma keyword_topics_from {A : Type} (textOf : A -> string) (words : list string)
  (items : list A) (init : list string) :
  (NoDup init ->
   NoDup (fold_left
            (fun topics item =>
               let text := textOf item in
               fold_left (fun ts keyword => if includes text keyword
                                            then JsSet.add ts keyword else ts)
                         words topics)
            items init))
  /\ (forall x,
        In x (fold_left
                (fun topics item =>
                   let text := textOf item in
                   fold_left (fun ts keyword => if includes text keyword
                                                then JsSet.add ts keyword else ts)
                             words topics)
                items init)
        <-> In x init
            \/ (In x words
                /\ exists item, In item items /\ includes (textOf item) x = true)).
Proof.
  revert init. induction items as [|p ps IH]; intros init; cbn [fold_left].
  - split; [trivial|]. intros x. split; [now left|].
    intros [Hx | (_ & p & [] & _)]. exact Hx.
  - destruct (IH (fold_left
                    (fun ts keyword =>
                       if includes (textOf p) keyword then JsSet.add ts keyword else ts)
                    words init)) as [IHn IHi].
    split.
    + intros Hn. apply IHn.
      apply (fold_add_NoDup (fun k => includes (textOf p) k) (fun k => k)). exact Hn.
    + intros x. cbv zeta. cbv zeta in IHi. rewrite IHi.
      rewrite (fold_add_In (fun k => includes (textOf p) k) (fun k => k)).
      split.
      * intros [[Hx | (y & Hy & Hp & ->)] | (Hk & q & Hq & Hi)].
        -- now left.
        -- right. split; [assumption|]. exists p. split; [now left | assumption].
        -- right. split; [assumption|]. exists q. split; [now right | assumption].
      * intros [Hx | (Hk & q & [<- | Hq] & Hi)].
        -- left. now left.
        -- left. right. now exists x.
        -- right. split; [assumption|]. now exists q.
Qed.

(** X22.  The topics of a list of presentations are without duplicates and
    are exactly the technical keywords that the lowered title and
    description of some presentation hold.  A keyword that a topic holds is
    a topic too: whoever speaks of [javascript] also speaks of [java]. *)
Theorem speakerdeck_topics_are_the_held_keywords `{Runtime}
  (presentations : list SpeakerDeckService.Presentation) :
  NoDup (SpeakerDeckService.extractTopicsFromPresentations presentations)
  /\ (forall x,
        In x (SpeakerDeckService.extractTopicsFromPresentations presentations)
        <-> In x SpeakerDeckService.techKeywords
            /\ exists p, In p presentations
                         /\ includes (SpeakerDeckService.loweredText p) x = true)
  /\ (forall x y,
        In x (SpeakerDeckService.extractTopicsFromPresentations presentations) ->
        In y SpeakerDeckService.techKeywords -> includes x y = true ->
        In y (SpeakerDeckService.extractTopicsFromPresentations presentations)).
Proof.
  unfold SpeakerDeckService.extractTopicsFromPresentations.
  destruct (keyword_topics_from SpeakerDeckService.loweredText
              SpeakerDeckService.techKeywords presentations []) as [Hn Hi].
  assert (Hiff : forall x,
            In x (fold_left
                    (fun topics presentation =>
                       let text := SpeakerDeckService.loweredText presentation in
                       fold_left (fun ts keyword => if includes text keyword
                                                    then JsSet.add ts keyword else ts)
                                 SpeakerDeckService.techKeywords topics)
                    presentations [])
            <-> In x SpeakerDeckService.techKeywords
                /\ exists p, In p presentations
                             /\ includes (SpeakerDeckService.loweredText p) x = true).
  { intros x. rewrite Hi. split; [intros [[] | Hx]; exact Hx | now right]. }
  split; [apply Hn; constructor|]. split; [exact Hiff|].
  intros x y Hx Hy Hxy. apply Hiff. apply Hiff in Hx as (_ & p & Hp & Hpx).
  split; [exact Hy|]. exists p. split; [exact Hp|].
  now apply (includes_trans _ x y).
Qed.

(** ** services/speakerdeck.ts: the tallies *)

Lemma detect_spec words text tally :
  SpeakerDeckService.detect words text tally
  = fold_left increment (heldWords words text) tally.
Proof.
  unfold SpeakerDeckService.detect, heldWords. revert tally.
  induction words as [|w words IH]; intros tally; [reflexivity|].
  cbn [fold_left filter]. rewrite IH. now destruct (includes text w).
Qed.

Lemma incrementFound_spec words topicLower tally :
  SpeakerDeckService.incrementFound words topicLower tally
  = fold_left increment (completion words topicLower) tally.
Proof.
  unfold SpeakerDeckService.incrementFound, completion.
  destruct (find _ words) as [word|]; [|reflexivity].
  now destruct (truthy word).
Qed.

Lemma existsb_false_In (f : string -> bool) (words : list string) :
  existsb f words = false -> forall w, In w words -> f w = false.
Proof.
  induction words as [|x words IH]; intros E w []; cbn [existsb] in E;
    apply orb_false_iff in E as [Ex E]; [now subst | now apply IH].
Qed.

Lemma find_none_of (f : string -> bool) (words : list string) :
  existsb f words = false -> find f words = None.
Proof.
  induction words as [|w words IH]; [reflexivity|]. cbn [existsb find].
  destruct (f w); [discriminate | exact IH].
Qed.

Lemma completion_none `{Runtime} words topic :
  namesWord words topic = false -> completion words (toLowerCase topic) = [].
Proof.
  unfold namesWord, completion. intros E. now rewrite (find_none_of _ _ E).
Qed.

Lemma completion_In words topicLower k :
  In k (completion words topicLower) -> In k words /\ includes topicLower k = true.
Proof.
  unfold completion. destruct (find _ words) as [word|] eqn:E; [|intros []].
  apply find_some in E. destruct (truthy word); [|intros []].
  intros [<- | []]. exact E.
Qed.

(** The loop over the texts, by the keys that it raises. *)
Lemma scan_loop {A : Type} (textOf : A -> string) (ls fs ts : list string)
  (items : list A) (acc : SpeakerDeckService.Tallies) :
  fold_left
    (fun acc item =>
       let text := textOf item in
       {| SpeakerDeckService.languages :=
            SpeakerDeckService.detect ls text (SpeakerDeckService.languages acc);
          SpeakerDeckService.frameworks :=
            SpeakerDeckService.detect fs text (SpeakerDeckService.frameworks acc);
          SpeakerDeckService.tools :=
            SpeakerDeckService.detect ts text (SpeakerDeckService.tools acc) |})
    items acc
  = {| SpeakerDeckService.languages :=
         fold_left increment (scanned textOf ls items) (SpeakerDeckService.languages acc);
       SpeakerDeckService.frameworks :=
         fold_left increment (scanned textOf fs items) (SpeakerDeckService.frameworks acc);
       SpeakerDeckService.tools :=
         fold_left increment (scanned textOf ts items) (SpeakerDeckService.tools acc) |}.
Proof.
  revert acc. induction items as [|p ps IH]; intros acc; [now destruct acc|].
  cbn [fold_left]. rewrite IH. cbv zeta.
  cbn [SpeakerDeckService.languages SpeakerDeckService.frameworks
       SpeakerDeckService.tools].
  rewrite !detect_spec. unfold scanned. cbn [flat_map].
  now rewrite !fold_left_app.
Qed.

(** The loop over the topics, by the keys that it raises. *)
Lemma topic_loop `{Runtime} (topics : list string) (acc : SpeakerDeckService.Tallies) :
  fold_left
    (fun acc topic =>
       let topicLower := toLowerCase topic in
       if existsb (fun lang => includes topicLower lang) SpeakerDeckService.languageList
       then
         {| SpeakerDeckService.languages :=
              SpeakerDeckService.incrementFound SpeakerDeckService.languageList topicLower
                                                (SpeakerDeckService.languages acc);
            SpeakerDeckService.frameworks := SpeakerDeckService.frameworks acc;
            SpeakerDeckService.tools := SpeakerDeckService.tools acc |}
       else if existsb (fun fw => includes topicLower fw) SpeakerDeckService.frameworkList
       then
         {| SpeakerDeckService.languages := SpeakerDeckService.languages acc;
            SpeakerDeckService.frameworks :=
              SpeakerDeckService.incrementFound SpeakerDeckService.frameworkList
                                                topicLower
                                                (SpeakerDeckService.frameworks acc);
            SpeakerDeckService.tools := SpeakerDeckService.tools acc |}
       else if existsb (fun tool => includes topicLower tool) SpeakerDeckService.toolList
       then
         {| SpeakerDeckService.languages := SpeakerDeckService.languages acc;
            SpeakerDeckService.frameworks := SpeakerDeckService.frameworks acc;
            SpeakerDeckService.tools :=
              SpeakerDeckService.incrementFound SpeakerDeckService.toolList topicLower
                                                (SpeakerDeckService.tools acc) |}
       else acc)
    topics acc
  = {| SpeakerDeckService.languages :=
         fold_left increment (languageTopics topics) (SpeakerDeckService.languages acc);
       SpeakerDeckService.frameworks :=
         fold_left increment (frameworkTopics topics) (SpeakerDeckService.frameworks acc);
       SpeakerDeckService.tools :=
         fold_left increment (toolTopics topics) (SpeakerDeckService.tools acc) |}.
Proof.
  unfold languageTopics, frameworkTopics, toolTopics, namesLanguage.
  generalize SpeakerDeckService.languageList, SpeakerDeckService.frameworkList,
    SpeakerDeckService.toolList.
  intros ls fs ts. revert acc.
  induction topics as [|topic topics IH]; intros acc; [now destruct acc|].
  cbn [fold_left flat_map]. cbv zeta. fold (namesWord ls topic).
  fold (namesWord fs topic). fold (namesWord ts topic).
  rewrite !fold_left_app.
  destruct (namesWord ls topic) eqn:El.
  { rewrite IH. cbn [SpeakerDeckService.languages SpeakerDeckService.frameworks
                     SpeakerDeckService.tools fold_left].
    now rewrite incrementFound_spec. }
  destruct (namesWord fs topic) eqn:Ef.
  { rewrite IH. cbn [SpeakerDeckService.languages SpeakerDeckService.frameworks
                     SpeakerDeckService.tools fold_left].
    now rewrite incrementFound_spec. }
  destruct (namesWord ts topic) eqn:Et.
  { rewrite IH. cbn [SpeakerDeckService.languages SpeakerDeckService.frameworks
                     SpeakerDeckService.tools fold_left].
    now rewrite incrementFound_spec. }
  rewrite IH. reflexivity.
Qed.

(** The loops of [inferTechStack], by the keys that they raise. *)
Lemma inferTechStack_spec `{Runtime} presentations topics :
  SpeakerDeckService.inferTechStack presentations topics
  = {| SpeakerDeckService.languages :=
         fold_left increment
           (scanned SpeakerDeckService.loweredText SpeakerDeckService.languageList
                    presentations
            ++ languageTopics topics) [];
       SpeakerDeckService.frameworks :=
         fold_left increment
           (scanned SpeakerDeckService.loweredText SpeakerDeckService.frameworkList
                    presentations
            ++ frameworkTopics topics) [];
       SpeakerDeckService.tools :=
         fold_left increment
           (scanned SpeakerDeckService.loweredText SpeakerDeckService.toolList
                    presentations
            ++ toolTopics topics) [] |}.
Proof.
  unfold SpeakerDeckService.inferTechStack.
  rewrite (scan_loop SpeakerDeckService.loweredText), topic_loop.
  cbn [SpeakerDeckService.languages SpeakerDeckService.frameworks
       SpeakerDeckService.tools].
  now rewrite !fold_left_app.
Qed.

Lemma scanned_In {A : Type} (textOf : A -> string) words (items : list A) k :
  In k (scanned textOf words items)
  <-> In k words /\ exists item, In item items /\ includes (textOf item) k = true.
Proof.
  unfold scanned, heldWords. rewrite in_flat_map. split.
  - intros (p & Hp & Hk). apply filter_In in Hk as [Hk Hi]. split; [exact Hk|].
    now exists p.
  - intros (Hk & p & Hp & Hi). exists p. split; [exact Hp|]. now apply filter_In.
Qed.

Lemma languageTopics_In `{Runtime} topics k :
  In k (languageTopics topics) -> In k SpeakerDeckService.languageList.
Proof.
  unfold languageTopics. intros H0. apply in_flat_map in H0 as (topic & _ & Hk).
  destruct (namesLanguage topic); [|destruct Hk]. now apply completion_In in Hk.
Qed.

Lemma frameworkTopics_In `{Runtime} topics k :
  In k (frameworkTopics topics) ->
  In k SpeakerDeckService.frameworkList
  /\ exists topic, In topic topics /\ namesLanguage topic = false
                   /\ includes (toLowerCase topic) k = true.
Proof.
  unfold frameworkTopics. intros H0. apply in_flat_map in H0 as (topic & Ht & Hk).
  destruct (namesLanguage topic) eqn:El; [destruct Hk|].
  destruct (namesWord _ topic); [|destruct Hk].
  apply completion_In in Hk as [Hk Hi]. split; [exact Hk|]. now exists topic.
Qed.

Lemma toolTopics_In `{Runtime} topics k :
  In k (toolTopics topics) ->
  In k SpeakerDeckService.toolList
  /\ exists topic, In topic topics /\ namesLanguage topic = false
                   /\ includes (toLowerCase topic) k = true.
Proof.
  unfold toolTopics. intros H0. apply in_flat_map in H0 as (topic & Ht & Hk).
  destruct (namesLanguage topic) eqn:El; [destruct Hk|].
  destruct (namesWord SpeakerDeckService.frameworkList topic); [destruct Hk|].
  destruct (namesWord _ topic); [|destruct Hk].
  apply completion_In in Hk as [Hk Hi]. split; [exact Hk|]. now exists topic.
Qed.

(** A key of counts has a score of at least 1 and is one of the counted. *)
Lemma counts_key events k n :
  Obj.get (fold_left increment events []) k = Some n -> In k events /\ (1 <= n)%Z.
Proof.
  rewrite get_counts. destruct (JsSet.has events k) eqn:E; [|discriminate].
  apply has_true in E. intros [= <-]. split; [exact E|].
  apply (count_occ_In string_dec) in E. lia.
Qed.

Lemma counts_of_event events k :
  In k events -> exists n, Obj.get (fold_left increment events []) k = Some n.
Proof.
  intros Hk. rewrite get_counts. apply has_true in Hk. rewrite Hk. eauto.
Qed.

(** X23.  Every key of the three tallies that the slide-deck extractor
    infers is a word of the fixed list of its tally, with a score of at
    least 1; a word of a list that the lowered text of some presentation
    holds is a key of its tally.  A topic raises a framework or a tool only
    when its lowered form holds no language name, which includes the
    one-letter names [c] and [r] of the list of languages. *)
Theorem speakerdeck_tallies_keys `{Runtime}
  (presentations : list SpeakerDeckService.Presentation) (topics : list string) :
  let stack := SpeakerDeckService.inferTechStack presentations topics in
  (forall k n, Obj.get (SpeakerDeckService.languages stack) k = Some n ->
               In k SpeakerDeckService.languageList /\ (1 <= n)%Z)
  /\ (forall k n, Obj.get (SpeakerDeckService.frameworks stack) k = Some n ->
                  In k SpeakerDeckService.frameworkList /\ (1 <= n)%Z)
  /\ (forall k n, Obj.get (SpeakerDeckService.tools stack) k = Some n ->
                  In k SpeakerDeckService.toolList /\ (1 <= n)%Z)
  /\ (forall p k, In p presentations ->
                  includes (SpeakerDeckService.loweredText p) k = true ->
                  (In k SpeakerDeckService.languageList ->
                   exists n, Obj.get (SpeakerDeckService.languages stack) k = Some n)
                  /\ (In k SpeakerDeckService.frameworkList ->
                      exists n, Obj.get (SpeakerDeckService.frameworks stack) k = Some n)
                  /\ (In k SpeakerDeckService.toolList ->
                      exists n, Obj.get (SpeakerDeckService.tools stack) k = Some n))
  /\ (forall k,
        (exists n, Obj.get (SpeakerDeckService.frameworks stack) k = Some n)
        \/ (exists n, Obj.get (SpeakerDeckService.tools stack) k = Some n) ->
        (exists p, In p presentations
                   /\ includes (SpeakerDeckService.loweredText p) k = true)
        \/ (exists topic, In topic topics
                          /\ includes (toLowerCase topic) k = true
                          /\ namesLanguage topic = false
                          /\ includes (toLowerCase topic) "c" = false
                          /\ includes (toLowerCase topic) "r" = false)).
Proof.
  cbv zeta. rewrite inferTechStack_spec.
  cbn [SpeakerDeckService.languages SpeakerDeckService.frameworks
       SpeakerDeckService.tools].
  assert (Hletters : forall topic,
            namesLanguage topic = false ->
            includes (toLowerCase topic) "c" = false
            /\ includes (toLowerCase topic) "r" = false).
  { intros topic E. unfold namesLanguage, namesWord in E.
    split.
    - apply (existsb_false_In _ _ E "c"). unfold SpeakerDeckService.languageList.
      do 16 right. now left.
    - apply (existsb_false_In _ _ E "r"). unfold SpeakerDeckService.languageList.
      do 22 right. now left. }
  split; [|split; [|split; [|split]]].
  - intros k n E. apply counts_key in E as [Hk Hn]. split; [|exact Hn].
    apply in_app_or in Hk as [Hk | Hk];
      [now apply scanned_In in Hk | now apply languageTopics_In in Hk].
  - intros k n E. apply counts_key in E as [Hk Hn]. split; [|exact Hn].
    apply in_app_or in Hk as [Hk | Hk];
      [now apply scanned_In in Hk | now apply frameworkTopics_In in Hk].
  - intros k n E. apply counts_key in E as [Hk Hn]. split; [|exact Hn].
    apply in_app_or in Hk as [Hk | Hk];
      [now apply scanned_In in Hk | now apply toolTopics_In in Hk].
  - intros p k Hp Hi. repeat split; intros Hk; apply counts_of_event, in_or_app; left;
      apply scanned_In; (split; [exact Hk | now exists p]).
  - intros k [(n & E) | (n & E)]; apply counts_key in E as [Hk _];
      apply in_app_or in Hk as [Hk | Hk].
    + left. now apply scanned_In in Hk.
    + right. apply frameworkTopics_In in Hk as (_ & topic & Ht & El & Hi).
      exists topic. destruct (Hletters topic El). now repeat split.
    + left. now apply scanned_In in Hk.
    + right. apply toolTopics_In in Hk as (_ & topic & Ht & El & Hi).
      exists topic. destruct (Hletters topic El). now repeat split.
Qed.

(** ** services/speakerdeck.ts: the styles and the analysis *)

Ltac split_ifs :=
  repeat match goal with
         | |- context [if ?c then _ else _] => destruct c
         end.

Lemma speakerdeck_topics_NoDup `{Runtime} presentations :
  NoDup (SpeakerDeckService.extractTopicsFromPresentations presentations).
Proof.
  unfold SpeakerDeckService.extractTopicsFromPresentations.
  apply (keyword_topics_from SpeakerDeckService.loweredText
           SpeakerDeckService.techKeywords presentations []).
  constructor.
Qed.

Lemma speakerdeck_style_cases `{Runtime} presentations :
  SpeakerDeckService.analyzeCommStyle presentations <> ""
  /\ (SpeakerDeckService.analyzeCommStyle presentations = insufficient
      <-> presentations = []).
Proof.
  unfold SpeakerDeckService.analyzeCommStyle.
  destruct presentations as [|p ps]; [repeat split; discriminate|].
  cbv zeta. split; [split_ifs; discriminate|].
  split; [|discriminate]. split_ifs; discriminate.
Qed.

Lemma speakerdeck_workStyle_cases `{Runtime} presentations :
  SpeakerDeckService.inferWorkStyle presentations <> ""
  /\ (SpeakerDeckService.inferWorkStyle presentations = insufficient
      <-> presentations = []).
Proof.
  unfold SpeakerDeckService.inferWorkStyle.
  destruct presentations as [|p ps]; [repeat split; discriminate|].
  cbv zeta. split; [split_ifs; discriminate|].
  split; [|discriminate]. split_ifs; discriminate.
Qed.

(** X24.  The communication style and the work style of a list of
    presentations are the label of insufficient information exactly when
    there is no presentation, and neither is ever empty; with more than 20
    presentations the communication style is the one of active sharing,
    whatever their texts. *)
Theorem speakerdeck_styles `{Runtime}
  (presentations : list SpeakerDeckService.Presentation) :
  (SpeakerDeckService.analyzeCommStyle presentations = insufficient
   <-> presentations = [])
  /\ (SpeakerDeckService.inferWorkStyle presentations = insufficient
      <-> presentations = [])
  /\ SpeakerDeckService.analyzeCommStyle presentations <> ""
  /\ SpeakerDeckService.inferWorkStyle presentations <> ""
  /\ ((20 < List.length presentations)%nat ->
      SpeakerDeckService.analyzeCommStyle presentations
      = "積極的に知識を共有するスタイル").
Proof.
  destruct (speakerdeck_style_cases presentations) as [Hs Hsi].
  destruct (speakerdeck_workStyle_cases presentations) as [Hw Hwi].
  split; [exact Hsi|]. split; [exact Hwi|]. split; [exact Hs|]. split; [exact Hw|].
  intros Hn. unfold SpeakerDeckService.analyzeCommStyle.
  destruct presentations as [|p ps]; [cbn [List.length] in Hn; lia|].
  cbv zeta.
  assert (E : (20 <? Z.of_nat (List.length (p :: ps)))%Z = true)
    by (apply Z.ltb_lt; lia).
  now rewrite E.
Qed.

(** What [analyze] returns, by the page that it fetched. *)
Lemma speakerdeck_analyze_spec `{Runtime} get u a :
  SpeakerDeckService.analyze get u = Returned a ->
  exists username page,
    SpeakerDeckService.extractUsername u = Some username
    /\ get ("https://speakerdeck.com/" ++ username)%string = Returned page
    /\ a = {| platform := SPEAKERDECK;
              url := u;
              techStack :=
                {| pts_languages :=
                     Some (SpeakerDeckService.languages
                             (SpeakerDeckService.inferTechStack
                                (presentationsOf page)
                                (SpeakerDeckService.extractTopicsFromPresentations
                                   (presentationsOf page))));
                   pts_frameworks :=
                     Some (SpeakerDeckService.frameworks
                             (SpeakerDeckService.inferTechStack
                                (presentationsOf page)
                                (SpeakerDeckService.extractTopicsFromPresentations
                                   (presentationsOf page))));
                   pts_tools :=
                     Some (SpeakerDeckService.tools
                             (SpeakerDeckService.inferTechStack
                                (presentationsOf page)
                                (SpeakerDeckService.extractTopicsFromPresentations
                                   (presentationsOf page))));
                   pts_topics :=
                     Some (SpeakerDeckService.extractTopicsFromPresentations
                             (presentationsOf page)) |};
              personality :=
                {| pp_interests :=
                     Some (firstn 10 (SpeakerDeckService.extractTopicsFromPresentations
                                        (presentationsOf page)));
                   pp_activities :=
                     Some (filter truthy
                             [ trim (SpeakerDeckService.bioText page);
                               (decimal (List.length (presentationsOf page))
                                ++ "件のプレゼンテーションを公開")%string ]);
                   pp_communication :=
                     Some {| c_style :=
                               Some (SpeakerDeckService.analyzeCommStyle
                                       (presentationsOf page));
                             c_frequency :=
                               Some (if (0 <? List.length (presentationsOf page))%nat
                                     then TwitterService.ratio
                                            (Z.of_nat (List.length (presentationsOf page)))
                                            12
                                     else 0%Q);
                             c_topics :=
                               Some (firstn 5
                                       (SpeakerDeckService.extractTopicsFromPresentations
                                          (presentationsOf page))) |};
                   pp_workStyle :=
                     Some (SpeakerDeckService.inferWorkStyle (presentationsOf page)) |} |}.
Proof.
  unfold SpeakerDeckService.analyze.
  destruct (SpeakerDeckService.extractUsername u) as [username|]; [|discriminate].
  destruct (get _) as [page|e] eqn:Eg; [|discriminate].
  intros [= <-]. exists username, page. now repeat split.
Qed.

Lemma presentationsOf_length `{Runtime} page :
  List.length (presentationsOf page) = List.length (SpeakerDeckService.cards page).
Proof. unfold presentationsOf. apply length_map. Qed.

(** X25.  A slide-deck analysis is made from the page of the username of the
    URL.  It is of the slide-deck platform and of the given URL; its topics
    are unique, its interests the first 10 and its communication topics the
    first 5 of them; its frequency is the number of the cards of the page
    divided by 12; its style and its work style are never empty; its
    activities hold no empty string and always the line with the number of
    the cards. *)
Theorem speakerdeck_analysis_shape `{Runtime}
  (get : string -> Outcome SpeakerDeckService.Page) (u : string)
  (a : PlatformAnalysis) :
  SpeakerDeckService.analyze get u = Returned a ->
  exists username page topics,
    SpeakerDeckService.extractUsername u = Some username
    /\ get ("https://speakerdeck.com/" ++ username)%string = Returned page
    /\ platform a = SPEAKERDECK /\ url a = u
    /\ pts_topics (techStack a) = Some topics /\ NoDup topics
    /\ pp_interests (personality a) = Some (firstn 10 topics)
    /\ commTopics a = Some (firstn 5 topics)
    /\ (exists f, commFrequency a = Some f
                  /\ (f == inject_Z (Z.of_nat (List.length (SpeakerDeckService.cards page)))
                           / 12)%Q)
    /\ (exists style, commStyle a = Some style /\ style <> "")
    /\ (exists style, pp_workStyle (personality a) = Some style /\ style <> "")
    /\ (exists lines,
          pp_activities (personality a) = Some lines
          /\ ~ In "" lines
          /\ In (decimal (List.length (SpeakerDeckService.cards page))
                 ++ "件のプレゼンテーションを公開")%string lines).
Proof.
  intros Ha.
  destruct (speakerdeck_analyze_spec _ _ _ Ha) as (username & page & E1 & E2 & ->).
  exists username, page. eexists.
  unfold commStyle, commFrequency, commTopics.
  cbn [platform url techStack personality pts_topics pp_interests pp_activities
       pp_communication pp_workStyle c_style c_frequency c_topics].
  split; [exact E1|]. split; [exact E2|]. split; [reflexivity|]. split; [reflexivity|].
  split; [reflexivity|].
  split; [apply speakerdeck_topics_NoDup|].
  split; [reflexivity|]. split; [reflexivity|].
  rewrite presentationsOf_length.
  split.
  { eexists. split; [reflexivity|].
    destruct (SpeakerDeckService.cards page) as [|c cs]; [reflexivity|].
    cbn [List.length Nat.ltb Nat.leb]. unfold TwitterService.ratio. reflexivity. }
  split; [eexists; split; [reflexivity | apply speakerdeck_style_cases]|].
  split; [eexists; split; [reflexivity | apply speakerdeck_workStyle_cases]|].
  eexists. split; [reflexivity|]. split; [apply filter_truthy_no_empty|].
  apply filter_In. split; [right; now left|].
  apply truthy_true, append_not_empty. discriminate.
Qed.

Lemma speakerdeck_analysis_shape_witness :
  @SpeakerDeckService.analyze Example.runtime (Speaker.get Speaker.page)
                              "https://speakerdeck.com/alice"
  = Returned SpeakerRuns.analysis
  /\ exists username page topics,
       SpeakerDeckService.extractUsername "https://speakerdeck.com/alice" = Some username
       /\ Speaker.get Speaker.page ("https://speakerdeck.com/" ++ username)%string
          = Returned page
       /\ platform SpeakerRuns.analysis = SPEAKERDECK
       /\ url SpeakerRuns.analysis = "https://speakerdeck.com/alice"
       /\ pts_topics (techStack SpeakerRuns.analysis) = Some topics /\ NoDup topics
       /\ pp_interests (personality SpeakerRuns.analysis) = Some (firstn 10 topics)
       /\ commTopics SpeakerRuns.analysis = Some (firstn 5 topics)
       /\ (exists f, commFrequency SpeakerRuns.analysis = Some f
                     /\ (f == inject_Z (Z.of_nat (List.length
                                                    (SpeakerDeckService.cards page)))
                              / 12)%Q)
       /\ (exists style, commStyle SpeakerRuns.analysis = Some style /\ style <> "")
       /\ (exists style,
             pp_workStyle (personality SpeakerRuns.analysis) = Some style /\ style <> "")
       /\ (exists lines,
             pp_activities (personality SpeakerRuns.analysis) = Some lines
             /\ ~ In "" lines
             /\ In (decimal (List.length (SpeakerDeckService.cards page))
                    ++ "件のプレゼンテーションを公開")%string lines).
Proof.
  split; [reflexivity|].
  apply (@speakerdeck_analysis_shape Example.runtime (Speaker.get Speaker.page)
           "https://speakerdeck.com/alice" SpeakerRuns.analysis).
  reflexivity.
Defined.

Lemma labelsOf_none label analyses :
  (forall b, In b analyses -> label b = None) -> labelsOf label analyses = [].
Proof.
  induction analyses as [|b l IH]; intros Hall; [reflexivity|].
  unfold labelsOf. cbn [flat_map]. rewrite (Hall b) by now left.
  apply IH. intros c Hc. apply Hall. now right.
Qed.

(** X26.  The analysis of a slide-deck page without any card gives the label
    of insufficient information as communication style and as work style.
    As the label is not empty, the merge counts it as a work style: merged
    with platform analyses that give no work style, as those of the code
    host and of the microblog, it is the merged work style. *)
Theorem speakerdeck_empty_profile_sets_the_work_style `{Runtime}
  (get : string -> Outcome SpeakerDeckService.Page) (u username : string)
  (page : SpeakerDeckService.Page) (before after : list PlatformAnalysis) :
  SpeakerDeckService.extractUsername u = Some username ->
  get ("https://speakerdeck.com/" ++ username)%string = Returned page ->
  SpeakerDeckService.cards page = [] ->
  (forall b, In b (before ++ after) -> pp_workStyle (personality b) = None) ->
  exists a,
    SpeakerDeckService.analyze get u = Returned a
    /\ commStyle a = Some insufficient
    /\ pp_workStyle (personality a) = Some insufficient
    /\ p_workStyle (mergePersonalities (before ++ a :: after)) = Some insufficient.
Proof.
  intros E1 E2 E3 Hnone. unfold SpeakerDeckService.analyze. rewrite E1, E2.
  fold (presentationsOf page).
  assert (Ep : presentationsOf page = []) by (unfold presentationsOf; now rewrite E3).
  rewrite Ep. eexists. split; [reflexivity|].
  unfold commStyle. cbn [personality pp_communication c_style pp_workStyle].
  split; [reflexivity|]. split; [reflexivity|].
  rewrite mergePersonalities_workStyle. unfold labelsOf. rewrite flat_map_app.
  cbn [flat_map]. fold (labelsOf workStyleOf before). fold (labelsOf workStyleOf after).
  rewrite (labelsOf_none workStyleOf before), (labelsOf_none workStyleOf after).
  - reflexivity.
  - intros b Hb. apply Hnone, in_or_app. now right.
  - intros b Hb. apply Hnone, in_or_app. now left.
Qed.

Lemma speakerdeck_empty_profile_witness :
  exists a,
    @SpeakerDeckService.analyze Example.runtime (Speaker.get Speaker.emptyPage)
                                "https://speakerdeck.com/alice"
    = Returned a
    /\ commStyle a = Some insufficient
    /\ pp_workStyle (personality a) = Some insufficient
    /\ p_workStyle (mergePersonalities ([Octocat.analysis] ++ a :: []))
       = Some insufficient.
Proof.
  apply (@speakerdeck_empty_profile_sets_the_work_style Example.runtime
           (Speaker.get Speaker.emptyPage) "https://speakerdeck.com/alice" "alice"
           Speaker.emptyPage [Octocat.analysis] []).
  - reflexivity.
  - reflexivity.
  - reflexivity.
  - intros b [<- | []]. reflexivity.
Defined.

(** ** services/blog.ts: topics, tallies and work style *)

Lemma tags_from `{Runtime} (doc : BlogService.Document) selectors (init : list string) :
  (NoDup init -> NoDup (fold_left (BlogService.addTags doc) selectors init))
  /\ (forall x,
        In x (fold_left (BlogService.addTags doc) selectors init)
        <-> In x init
            \/ exists selector element,
                 In selector selectors /\ In element (doc selector)
                 /\ x = toLowerCase (BlogService.textContent element)
                 /\ x <> "" /\ (1 < jsLength x)%nat).
Proof.
  pose (p := fun element =>
               truthy (toLowerCase (BlogService.textContent element))
               && (1 <? jsLength (toLowerCase (BlogService.textContent element)))%nat).
  pose (g := fun element => toLowerCase (BlogService.textContent element)).
  assert (Hp : forall element,
             p element = true <-> g element <> "" /\ (1 < jsLength (g element))%nat).
  { intros element. unfold p, g. rewrite andb_true_iff, truthy_true, Nat.ltb_lt.
    reflexivity. }
  assert (Eadd : forall topics selector,
             BlogService.addTags doc topics selector
             = fold_left (fun ts y => if p y then JsSet.add ts (g y) else ts)
                         (doc selector) topics) by reflexivity.
  revert init. induction selectors as [|selector selectors IH]; intros init;
    cbn [fold_left].
  - split; [trivial|]. intros x. split; [now left|].
    intros [Hx | (selector & element & [] & _)]. exact Hx.
  - destruct (IH (BlogService.addTags doc init selector)) as [IHn IHi]. split.
    + intros Hn. apply IHn. unfold BlogService.addTags.
      now apply (fold_add_NoDup p g).
    + intros x. rewrite IHi, Eadd, (fold_add_In p g). split.
      * intros [[Hx | (e & He & Hpe & ->)] | (sel & e & Hs & He & Hx)].
        -- now left.
        -- right. exists selector, e. apply Hp in Hpe.
           split; [now left|]. split; [exact He|]. split; [reflexivity | exact Hpe].
        -- right. exists sel, e. split; [now right|]. split; assumption.
      * intros [Hx | (sel & e & [<- | Hs] & He & -> & Hx)].
        -- left. now left.
        -- left. right. exists e. split; [exact He|]. split; [|reflexivity].
           now apply Hp.
        -- right. exists sel, e. split; [exact Hs|]. split; [exact He|].
           split; [reflexivity | exact Hx].
Qed.

(** X27.  The topics of a blog are without duplicates and are exactly the
    tags of the page, lowered, of more than one character, and the technical
    keywords that the lowered title and content of some article hold. *)
Theorem blog_topics_are_tags_and_held_keywords `{Runtime}
  (doc : BlogService.Document) (articles : list BlogService.Article) :
  NoDup (BlogService.extractTopicsFromBlog doc articles)
  /\ (forall x,
        In x (BlogService.extractTopicsFromBlog doc articles)
        <-> blogTag doc x
            \/ (In x BlogService.techKeywords
                /\ exists article, In article articles
                                   /\ includes (BlogService.loweredText article) x = true)).
Proof.
  unfold BlogService.extractTopicsFromBlog. cbv zeta.
  destruct (tags_from doc BlogService.tagSelectors []) as [Hn Hi].
  destruct (keyword_topics_from BlogService.loweredText BlogService.techKeywords articles
              (fold_left (BlogService.addTags doc) BlogService.tagSelectors []))
    as [Hn' Hi'].
  split; [apply Hn', Hn; constructor|].
  intros x. cbv zeta in Hi'. rewrite Hi', Hi. unfold blogTag.
  split; [intros [[[] | Hx] | Hx]; [now left | now right] | intros [Hx | Hx]];
    [left; now right | now right].
Qed.

Lemma code_loop (ls : list string) (codes : list string) (init : JsRecord Z) :
  fold_left
    (fun languages code =>
       fold_left (fun t lang => if BlogService.codeLanguage code lang
                                then increment t lang else t)
                 ls languages)
    codes init
  = fold_left increment
      (flat_map (fun code => filter (fun lang => BlogService.codeLanguage code lang) ls)
                codes)
      init.
Proof.
  revert init. induction codes as [|code codes IH]; intros init; [reflexivity|].
  cbn [fold_left flat_map]. rewrite IH, fold_left_app. f_equal.
  clear IH. revert init. induction ls as [|lang ls IH]; intros init; [reflexivity|].
  cbn [fold_left filter]. rewrite IH.
  now destruct (BlogService.codeLanguage code lang).
Qed.

(** The loops of the blog's [inferTechStack], by the keys that they raise. *)
Lemma blog_inferTechStack_spec `{Runtime} doc articles topics :
  BlogService.inferTechStack doc articles topics
  = {| SpeakerDeckService.languages :=
         fold_left increment
           (codeRaised doc
            ++ scanned BlogService.loweredText BlogService.languageList articles
            ++ languageTopics topics) [];
       SpeakerDeckService.frameworks :=
         fold_left increment
           (scanned BlogService.loweredText BlogService.frameworkList articles
            ++ frameworkTopics topics) [];
       SpeakerDeckService.tools :=
         fold_left increment
           (scanned BlogService.loweredText BlogService.toolList articles
            ++ toolTopics topics) [] |}.
Proof.
  unfold BlogService.inferTechStack, codeRaised, codeBlocksOf.
  unfold BlogService.languageList, BlogService.frameworkList, BlogService.toolList.
  cbv zeta. rewrite (scan_loop BlogService.loweredText), topic_loop, code_loop.
  cbn [SpeakerDeckService.languages SpeakerDeckService.frameworks
       SpeakerDeckService.tools].
  now rewrite !fold_left_app.
Qed.

Lemma codeLanguage_known code lang :
  BlogService.codeLanguage code lang = true -> In lang codeLanguages.
Proof.
  unfold BlogService.codeLanguage, codeLanguages. intros E.
  apply andb_true_iff in E as [_ E].
  repeat (apply orb_true_iff in E as [E | E]);
    apply andb_true_iff in E as [E _]; apply String.eqb_eq in E; subst; cbn; tauto.
Qed.

Lemma codeLanguages_listed lang :
  In lang codeLanguages -> In lang BlogService.languageList.
Proof.
  unfold codeLanguages, BlogService.languageList, SpeakerDeckService.languageList.
  cbn [In]. intuition (subst; tauto).
Qed.

Lemma languageTopics_topic `{Runtime} topics k :
  In k (languageTopics topics) ->
  exists topic, In topic topics /\ includes (toLowerCase topic) k = true.
Proof.
  unfold languageTopics. intros H0. apply in_flat_map in H0 as (topic & Ht & Hk).
  destruct (namesLanguage topic); [|destruct Hk].
  apply completion_In in Hk as [_ Hi]. now exists topic.
Qed.

(** X28.  Every key of the three tallies that the blog extractor infers is a
    word of the fixed list of its tally, with a score of at least 1.  A
    language is raised by a code block whose test it passes, which only
    six languages can, by an article whose lowered text holds it or by a
    topic that holds it; a framework or a tool by an article or by a topic
    that holds no language name, never by a code block.  Every language
    that passes the test of some code block is a key. *)
Theorem blog_tallies_keys `{Runtime}
  (doc : BlogService.Document) (articles : list BlogService.Article)
  (topics : list string) :
  let stack := BlogService.inferTechStack doc articles topics in
  (forall k n,
     Obj.get (SpeakerDeckService.languages stack) k = Some n ->
     In k BlogService.languageList /\ (1 <= n)%Z
     /\ ((In k codeLanguages
          /\ exists code, In code (codeBlocksOf doc)
                          /\ BlogService.codeLanguage code k = true)
         \/ (exists article, In article articles
                             /\ includes (BlogService.loweredText article) k = true)
         \/ (exists topic, In topic topics /\ includes (toLowerCase topic) k = true)))
  /\ (forall k n,
        Obj.get (SpeakerDeckService.frameworks stack) k = Some n
        \/ Obj.get (SpeakerDeckService.tools stack) k = Some n ->
        (1 <= n)%Z
        /\ ((exists article, In article articles
                             /\ includes (BlogService.loweredText article) k = true)
            \/ (exists topic, In topic topics /\ namesLanguage topic = false
                              /\ includes (toLowerCase topic) k = true)))
  /\ (forall k n, Obj.get (SpeakerDeckService.frameworks stack) k = Some n ->
                  In k BlogService.frameworkList)
  /\ (forall k n, Obj.get (SpeakerDeckService.tools stack) k = Some n ->
                  In k BlogService.toolList)
  /\ (forall code k, In code (codeBlocksOf doc) ->
                     BlogService.codeLanguage code k = true ->
                     exists n, Obj.get (SpeakerDeckService.languages stack) k = Some n).
Proof.
  cbv zeta. rewrite blog_inferTechStack_spec.
  cbn [SpeakerDeckService.languages SpeakerDeckService.frameworks
       SpeakerDeckService.tools].
  split; [|split; [|split; [|split]]].
  - intros k n E. apply counts_key in E as [Hk Hn].
    apply in_app_or in Hk as [Hk | Hk]; [|apply in_app_or in Hk as [Hk | Hk]].
    + unfold codeRaised in Hk. apply in_flat_map in Hk as (code & Hc & Hk).
      apply filter_In in Hk as [Hk Ht].
      split; [exact Hk|]. split; [exact Hn|]. left.
      split; [now apply (codeLanguage_known code)|]. now exists code.
    + apply scanned_In in Hk as [Hk Ha].
      split; [exact Hk|]. split; [exact Hn|]. right. now left.
    + split; [now apply languageTopics_In in Hk|]. split; [exact Hn|]. right. right.
      now apply languageTopics_topic.
  - intros k n [E | E]; apply counts_key in E as [Hk Hn]; (split; [exact Hn|]);
      apply in_app_or in Hk as [Hk | Hk].
    + left. now apply scanned_In in Hk.
    + right. now apply frameworkTopics_In in Hk.
    + left. now apply scanned_In in Hk.
    + right. now apply toolTopics_In in Hk.
  - intros k n E. apply counts_key in E as [Hk _].
    apply in_app_or in Hk as [Hk | Hk];
      [now apply scanned_In in Hk | now apply frameworkTopics_In in Hk].
  - intros k n E. apply counts_key in E as [Hk _].
    apply in_app_or in Hk as [Hk | Hk];
      [now apply scanned_In in Hk | now apply toolTopics_In in Hk].
  - intros code k Hc Hk. apply counts_of_event, in_or_app. left.
    unfold codeRaised. apply in_flat_map. exists code. split; [exact Hc|].
    apply filter_In. split; [|exact Hk].
    now apply codeLanguages_listed, (codeLanguage_known code).
Qed.

Lemma blog_workStyle_cases `{Runtime} articles :
  match articles with
  | [] => BlogService.inferWorkStyle articles = insufficient
  | _ :: _ => In (BlogService.inferWorkStyle articles) blogWorkStyles
  end.
Proof.
  unfold BlogService.inferWorkStyle, blogWorkStyles.
  destruct articles as [|a l]; [reflexivity|]. cbv zeta.
  split_ifs; cbn [In]; tauto.
Qed.

(** X29.  The work style of a list of articles is the label of insufficient
    information exactly when there is no article; otherwise it is one of the
    eight labels of the classifier; it is never empty. *)
Theorem blog_work_style `{Runtime} (articles : list BlogService.Article) :
  (BlogService.inferWorkStyle articles = insufficient <-> articles = [])
  /\ (articles = [] \/ In (BlogService.inferWorkStyle articles) blogWorkStyles)
  /\ BlogService.inferWorkStyle articles <> "".
Proof.
  pose proof (blog_workStyle_cases articles) as Hc.
  destruct articles as [|a l].
  - rewrite Hc. repeat split; try discriminate. now left.
  - assert (Hl : forall s, In s blogWorkStyles -> s <> insufficient /\ s <> "").
    { intros s Hs. unfold blogWorkStyles in Hs. cbn [In] in Hs.
      repeat (destruct Hs as [<- | Hs]; [split; discriminate|]). destruct Hs. }
    destruct (Hl _ Hc) as [Hi He].
    split; [split; [intros E; now destruct Hi | discriminate]|].
    split; [now right | exact He].
Qed.
